(** * qbench: the benchmark orchestration of [wip_benchmarks.py],
      [benchmarks.py] and [r&d/base.py], as a shallow embedding.

    The Python code is effectful: it constructs simulators, runs circuits,
    reads the clock, prints, mutates the [results] dictionary and writes
    files.  It is embedded in a state-and-exception monad [M] whose state
    carries the outside world, a chronological log of the observable
    events, the mutable [results] table and the files written so far.
    Qiskit, Aer, NumPy and the clock are outside the repository: they are
    the fields of two interfaces, [Float64] and [Platform]. *)

From Stdlib Require Import ZArith List String Ascii Bool Lia DecimalString.
From Stdlib Require Import RelationClasses.
From Stdlib Require Import Sorted.
Import ListNotations.
Local Open Scope string_scope.
Local Open Scope list_scope.
Local Open Scope Z_scope.

(** ** Python exceptions

    [except Exception] catches the instances of [Exception] only;
    [KeyboardInterrupt] and [SystemExit] derive from [BaseException]
    and pass through it. *)

Inductive exn : Type :=
| PyException (cls msg : string)
| KeyboardInterrupt
| SystemExit (code : Z).

Definition is_Exception (e : exn) : bool :=
  match e with
  | PyException _ _ => true
  | _ => false
  end.

(** ** Simulators and circuits *)

Inductive device : Type := CPU | GPU.

Inductive precision : Type := single | double.

(** [AerSimulator(method="statevector", device=..., precision=...,
    cuStateVec_enable=...)]: the keyword arguments the code passes. *)
Record AerSimulator : Type := mkSim {
  sim_device : device;
  sim_precision : option precision;
  sim_cuStateVec : option bool
}.

(** The circuit obtained from [random_circuit(n, depth, measure=False,
    seed=seed)], [transpile] and [save_statevector]. *)
Record circuit : Type := mkCircuit {
  qc_qubits : Z;
  qc_depth : Z;
  qc_seed : Z
}.

(** ** The interfaces of the libraries *)

(** Python floats and the NumPy reductions used by the code. *)
Class Float64 : Type := {
  float : Type;
  nan : float;                           (* np.nan *)
  fsub : float -> float -> float;        (* end - start *)
  fdiv : float -> float -> float;        (* float64 division, never raises *)
  np_mean : list float -> float;
  np_std : list float -> float;
  float_repr : float -> string           (* how csv.writer renders a float *)
}.

(** What the process can observe of the world.  Each call may raise, and
    it is in these calls, where the process spends its time, that an
    interrupt of the user is taken to arrive. *)
Class Platform (FL : Float64) : Type := {
  world : Type;
  (* the AerSimulator constructor *)
  aer_init : AerSimulator -> world -> option exn * world;
  (* job = simulator.run(circuit); result = job.result() *)
  sim_execute : AerSimulator -> circuit -> world -> option exn * world;
  (* time.time() *)
  time_time : world -> float * world;
  (* random_circuit, transpile, save_statevector *)
  build_circuit : Z -> Z -> Z -> world -> option exn * world
}.

Section Qbench.

Context {FL : Float64} {PF : Platform FL}.

(** ** The result table

    [results = {name: {'times': [], 'stds': []} ...}]: a dictionary in
    insertion order, as an association list. *)

Record column : Type := mkColumn {
  times : list float;
  stds : list float
}.

Definition table : Type := list (string * column).

Definition keys {A : Type} (d : list (string * A)) : list string := map fst d.

Fixpoint dict_get {A : Type} (d : list (string * A)) (k : string) : option A :=
  match d with
  | [] => None
  | (k', v) :: d' => if String.eqb k k' then Some v else dict_get d' k
  end.

(** [d[k] = v]: replaces the value of an existing key in place, appends a
    new key at the end. *)
Fixpoint dict_set {A : Type} (d : list (string * A)) (k : string) (v : A)
  : list (string * A) :=
  match d with
  | [] => [(k, v)]
  | (k', v') :: d' =>
      if String.eqb k k' then (k', v) :: d' else (k', v') :: dict_set d' k v
  end.

(** [k in d] *)
Definition dict_mem {A : Type} (d : list (string * A)) (k : string) : bool :=
  match dict_get d k with Some _ => true | None => false end.

(** [k in l] for a list of strings *)
Definition str_in (k : string) (l : list string) : bool :=
  existsb (String.eqb k) l.

(** ** Observable events *)

Inductive msg : Type :=
| MBanner
| MInitOk (name : string) (p : precision)
| MInitWarn (name : string) (e : exn)
| MNoBackends
| MWarmupStart
| MWarmupOk (name : string)
| MWarmupFail (name : string) (e : exn)
| MBlank
| MStart
| MBenchmarking (n : Z)
| MTiming (name : string) (mean : float) (std : option float)
| MFailed (name : string) (e : exn)
| MSavedData (path : string)
| MGeneratingPlots
| MSavedPlot (path : string)
| MComplete
| MInterrupted
| MError (e : exn)
| MTraceback
(* benchmarks.py *)
| MRunning (n : Z)
| MTime (label : string) (t : float)
| MGpuFailed (label : string) (e : exn).

Inductive event : Type :=
| EPrint (m : msg)
| EMkdir (path : string)
| EInit (sim : AerSimulator) (r : option exn)
| EBuild (n depth seed : Z) (r : option exn)
| ERun (sim : AerSimulator) (qc : circuit) (r : option exn).

(** One line drawn on one of the two axes of the figure. *)
Inductive axes : Type := ax1 | ax2.

Inductive line : Type :=
| Plot (ax : axes) (label : string) (xs : list Z) (ys : list float)
| Axhline (ax : axes) (y : Z) (label : string).

Inductive artifact : Type :=
| CsvFile (text : string)
| FigureFile (lines : list line).

Record state : Type := mkState {
  st_world : world;
  st_log : list event;
  st_results : table;
  st_files : list (string * artifact)
}.

(** ** The monad *)

Inductive result (A : Type) : Type :=
| Ret (a : A)
| Raise (e : exn).

Arguments Ret {A} a.
Arguments Raise {A} e.

Definition M (A : Type) : Type := state -> result A * state.

Definition ret {A : Type} (a : A) : M A := fun s => (Ret a, s).

Definition raise {A : Type} (e : exn) : M A := fun s => (Raise e, s).

Definition bind {A B : Type} (m : M A) (k : A -> M B) : M B :=
  fun s =>
    match m s with
    | (Ret a, s') => k a s'
    | (Raise e, s') => (Raise e, s')
    end.

(** [try: m  except Exception as e: h e] *)
Definition try_except {A : Type} (m : M A) (h : exn -> M A) : M A :=
  fun s =>
    match m s with
    | (Raise (PyException c t), s') => h (PyException c t) s'
    | r => r
    end.

Notation "x <- m ;; k" := (bind m (fun x => k))
  (at level 61, m at next level, right associativity).
Notation "m ;; k" := (bind m (fun _ => k))
  (at level 61, right associativity).

(** [for x in l: body x] *)
Fixpoint for_each {A : Type} (l : list A) (body : A -> M unit) : M unit :=
  match l with
  | [] => ret tt
  | x :: l' => body x ;; for_each l' body
  end.

(** *** Primitive effects *)

Definition emit (e : event) : M unit :=
  fun s => (Ret tt, mkState (st_world s) (st_log s ++ [e])
                            (st_results s) (st_files s)).

Definition print (m : msg) : M unit := emit (EPrint m).

Definition set_world (w : world) (s : state) : state :=
  mkState w (st_log s) (st_results s) (st_files s).

(** A call into the world: logs its outcome, raises what it raised. *)
Definition call (f : world -> option exn * world) (ev : option exn -> event)
  : M unit :=
  fun s =>
    let (r, w) := f (st_world s) in
    let s' := mkState w (st_log s ++ [ev r]) (st_results s) (st_files s) in
    match r with
    | None => (Ret tt, s')
    | Some e => (Raise e, s')
    end.

Definition new_simulator (sim : AerSimulator) : M AerSimulator :=
  call (aer_init sim) (EInit sim) ;; ret sim.

Definition simulator_run (sim : AerSimulator) (qc : circuit) : M unit :=
  call (sim_execute sim qc) (ERun sim qc).

Definition make_circuit (n depth seed : Z) : M circuit :=
  call (build_circuit n depth seed) (EBuild n depth seed) ;;
  ret (mkCircuit n depth seed).

Definition now : M float :=
  fun s => let (t, w) := time_time (st_world s) in (Ret t, set_world w s).

Definition get_results : M table := fun s => (Ret (st_results s), s).

Definition put_results (t : table) : M unit :=
  fun s => (Ret tt, mkState (st_world s) (st_log s) t (st_files s)).

Definition KeyError (k : string) : exn := PyException "KeyError" k.

(** [results[name]['times'].append(x)] *)
Definition append_times (name : string) (x : float) : M unit :=
  t <- get_results ;;
  match dict_get t name with
  | Some c => put_results (dict_set t name (mkColumn (times c ++ [x]) (stds c)))
  | None => raise (KeyError name)
  end.

(** [results[name]['stds'].append(x)] *)
Definition append_stds (name : string) (x : float) : M unit :=
  t <- get_results ;;
  match dict_get t name with
  | Some c => put_results (dict_set t name (mkColumn (times c) (stds c ++ [x])))
  | None => raise (KeyError name)
  end.

(** [open(path, 'w')] followed by the writes, or [plt.savefig(path)]:
    replaces the file.  The file system is taken to work: creating the
    directory, opening a file and writing to it do not raise. *)
Definition write_file (path : string) (a : artifact) : M unit :=
  fun s => (Ret tt, mkState (st_world s) (st_log s) (st_results s)
                            (dict_set (st_files s) path a)).

(** ** [range(start, stop, step)] *)

Definition range_len (start stop step : Z) : Z :=
  if 0 <? step then
    if start <? stop then (stop - start - 1) / step + 1 else 0
  else
    if stop <? start then (start - stop - 1) / (- step) + 1 else 0.

Definition py_range (start stop step : Z) : M (list Z) :=
  if step =? 0 then
    raise (PyException "ValueError" "range() arg 3 must not be zero")
  else
    ret (map (fun i => start + Z.of_nat i * step)
             (seq 0 (Z.to_nat (range_len start stop step)))).

(** ** [wip_benchmarks.py] *)

Record Args : Type := mkArgs {
  min_qubits : Z;
  max_qubits : Z;
  step : Z;
  depth : Z;
  seed : Z;
  arg_precision : precision;
  backends_arg : list string;
  output_dir : string;
  save_data : bool;
  no_plots : bool;
  warmup : bool;
  repeats : Z
}.

(** [setup_backends(precision, backend_list)] *)
Definition setup_backends (p : precision) (backend_list : list string)
  : M (list (string * AerSimulator)) :=
  let backends := [] in
  backends <-
    (if str_in "all" backend_list || str_in "cpu" backend_list then
       sim <- new_simulator (mkSim CPU (Some p) None) ;;
       print (MInitOk "cpu" p) ;;
       ret (dict_set backends "cpu" sim)
     else ret backends) ;;
  backends <-
    (if str_in "all" backend_list || str_in "gpu_default" backend_list then
       try_except
         (sim <- new_simulator (mkSim GPU (Some p) (Some false)) ;;
          print (MInitOk "gpu_default" p) ;;
          ret (dict_set backends "gpu_default" sim))
         (fun e => print (MInitWarn "gpu_default" e) ;; ret backends)
     else ret backends) ;;
  backends <-
    (if str_in "all" backend_list || str_in "gpu_custatevec" backend_list then
       try_except
         (sim <- new_simulator (mkSim GPU (Some p) (Some true)) ;;
          print (MInitOk "gpu_custatevec" p) ;;
          ret (dict_set backends "gpu_custatevec" sim))
         (fun e => print (MInitWarn "gpu_custatevec" e) ;; ret backends)
     else ret backends) ;;
  ret backends.

(** The loop of [benchmark]: [times] is the list collected so far. *)
Fixpoint benchmark_loop (n : nat) (simulator : AerSimulator) (qc : circuit)
                        (acc : list float) : M (list float) :=
  match n with
  | O => ret acc
  | S n' =>
      start <- now ;;
      simulator_run simulator qc ;;
      stop <- now ;;
      benchmark_loop n' simulator qc (acc ++ [fsub stop start])
  end.

(** [benchmark(simulator, circuit, repeats=1)] *)
Definition benchmark (simulator : AerSimulator) (qc : circuit) (repeats : Z)
  : M (float * float) :=
  ts <- benchmark_loop (Z.to_nat repeats) simulator qc [] ;;
  ret (np_mean ts, np_std ts).

(** The body of the loop over the backends, lines 224-236. *)
Definition trial (reps : Z) (qc_t : circuit) (nb : string * AerSimulator)
  : M unit :=
  let (name, backend) := nb in
  try_except
    (ms <- benchmark backend qc_t reps ;;
     append_times name (fst ms) ;;
     append_stds name (snd ms) ;;
     if 1 <? reps then print (MTiming name (fst ms) (Some (snd ms)))
     else print (MTiming name (fst ms) None))
    (fun e =>
       print (MFailed name e) ;;
       append_times name nan ;;
       append_stds name nan).

(** ** Export: [save_benchmark_data] *)

Inductive csv_field : Type :=
| CStr (s : string)
| CInt (z : Z)
| CFloat (x : float).

Definition str_of_Z (z : Z) : string := NilZero.string_of_int (Z.to_int z).

Definition dquote : ascii := ascii_of_nat 34.
Definition CR : ascii := ascii_of_nat 13.
Definition LF : ascii := ascii_of_nat 10.

Fixpoint needs_quote (s : string) : bool :=
  match s with
  | EmptyString => false
  | String c s' =>
      Ascii.eqb c "," || Ascii.eqb c dquote || Ascii.eqb c CR || Ascii.eqb c LF
      || needs_quote s'
  end.

Fixpoint escape_quotes (s : string) : string :=
  match s with
  | EmptyString => EmptyString
  | String c s' =>
      if Ascii.eqb c dquote then String dquote (String dquote (escape_quotes s'))
      else String c (escape_quotes s')
  end.

(** The default dialect of [csv.writer]: minimal quoting. *)
Definition csv_quote (s : string) : string :=
  if needs_quote s
  then String dquote (escape_quotes s ++ String dquote EmptyString)%string
  else s.

Definition render_field (f : csv_field) : string :=
  match f with
  | CStr s => csv_quote s
  | CInt z => csv_quote (str_of_Z z)
  | CFloat x => csv_quote (float_repr x)
  end.

(** [writer.writerow(row)]: the text appended to the file. *)
Definition writerow (row : list csv_field) : string :=
  (String.concat "," (map render_field row)
   ++ String CR (String LF EmptyString))%string.

Definition IndexError : exn := PyException "IndexError" "list index out of range".

(** [l[i]] *)
Definition list_item {A : Type} (l : list A) (i : nat) : M A :=
  match nth_error l i with
  | Some x => ret x
  | None => raise IndexError
  end.

(** [d[k]] *)
Definition dict_item {A : Type} (d : list (string * A)) (k : string) : M A :=
  match dict_get d k with
  | Some v => ret v
  | None => raise (KeyError k)
  end.

(** [f.write(text)] on a file opened by [open_w] *)
Definition append_file (path : string) (text : string) : M unit :=
  fun s =>
    let old := match dict_get (st_files s) path with
               | Some (CsvFile t) => t
               | _ => EmptyString
               end in
    (Ret tt, mkState (st_world s) (st_log s) (st_results s)
                     (dict_set (st_files s) path (CsvFile (old ++ text)%string))).

(** [open(path, 'w', newline='')]: creates or truncates the file *)
Definition open_w (path : string) : M unit := write_file path (CsvFile "").

(** [for x in l: acc = body acc x] *)
Fixpoint fold_m {A B : Type} (l : list A) (acc : B) (body : B -> A -> M B)
  : M B :=
  match l with
  | [] => ret acc
  | x :: l' => acc' <- body acc x ;; fold_m l' acc' body
  end.

Definition csv_headers (results : table) : list csv_field :=
  CStr "qubits"
  :: flat_map (fun name => [CStr (name ++ "_time")%string; CStr (name ++ "_std")%string])
              (keys results).

(** The row of index [i]: [results[name]['times'][i]] and
    [results[name]['stds'][i]] for each key. *)
Definition csv_data_row (results : table) (i : nat) (n_qubits : Z)
  : M (list csv_field) :=
  fold_m (keys results) [CInt n_qubits]
    (fun row name =>
       c <- dict_item results name ;;
       t <- list_item (times c) i ;;
       let row := row ++ [CFloat t] in
       c <- dict_item results name ;;
       sd <- list_item (stds c) i ;;
       ret (row ++ [CFloat sd])).

(** [for i, n_qubits in enumerate(qubit_sizes)] from index [i] on *)
Fixpoint write_rows (csv_file : string) (results : table) (i : nat)
                    (qubit_sizes : list Z) : M unit :=
  match qubit_sizes with
  | [] => ret tt
  | n_qubits :: rest =>
      row <- csv_data_row results i n_qubits ;;
      append_file csv_file (writerow row) ;;
      write_rows csv_file results (S i) rest
  end.

Definition path_join (dir file : string) : string :=
  (dir ++ "/" ++ file)%string.

(** [save_benchmark_data(results, qubit_sizes, output_path, args)];
    [results] is the table of the state. *)
Definition save_benchmark_data (qubit_sizes : list Z) (output_path : string)
  : M unit :=
  let csv_file := path_join output_path "benchmark_results.csv" in
  results <- get_results ;;
  open_w csv_file ;;
  append_file csv_file (writerow (csv_headers results)) ;;
  write_rows csv_file results 0 qubit_sizes ;;
  print (MSavedData csv_file).

(** ** Export: [generate_plots] *)

Definition ValueError (t : string) : exn := PyException "ValueError" t.

(** [a / b] on two one-dimensional float arrays, with NumPy's
    broadcasting of a length-one operand. *)
Definition np_divide (a b : list float) : M (list float) :=
  if Nat.eqb (List.length a) (List.length b) then
    ret (map (fun xy => fdiv (fst xy) (snd xy)) (combine a b))
  else
    match a, b with
    | [x], _ => ret (map (fdiv x) b)
    | _, [y] => ret (map (fun x => fdiv x y) a)
    | _, _ => raise (ValueError "operands could not be broadcast together")
    end.

(** [ax.plot(xs, ys, label=label)] on the figure [fig] *)
Definition ax_plot (ax : axes) (label : string) (xs : list Z)
                   (ys : list float) (fig : list line) : M (list line) :=
  if Nat.eqb (List.length xs) (List.length ys) then ret (fig ++ [Plot ax label xs ys])
  else raise (ValueError "x and y must have same first dimension").

(** The left panel: one speedup series per backend other than [cpu]. *)
Definition speedup_panel (results : table) (qubit_array : list Z)
  : M (list line) :=
  if dict_mem results "cpu" then
    cpu <- dict_item results "cpu" ;;
    let cpu_times := times cpu in
    fig <- fold_m results []
             (fun fig item =>
                let (name, data) := (item : string * column) in
                if negb (String.eqb name "cpu") then
                  speedup <- np_divide cpu_times (times data) ;;
                  ax_plot ax1 (name ++ " vs CPU")%string qubit_array speedup fig
                else ret fig) ;;
    ret (fig ++ [Axhline ax1 1 "No speedup"])
  else ret [].

(** The right panel: one execution-time series per backend. *)
Definition time_panel (results : table) (qubit_array : list Z)
                      (fig : list line) : M (list line) :=
  fold_m results fig
    (fun fig item =>
       let (name, data) := (item : string * column) in
       ax_plot ax2 name qubit_array (times data) fig).

(** [generate_plots(results, qubit_sizes, output_path, args)] *)
Definition generate_plots (qubit_sizes : list Z) (output_path : string)
  : M unit :=
  print MGeneratingPlots ;;
  results <- get_results ;;
  let qubit_array := qubit_sizes in
  fig <- speedup_panel results qubit_array ;;
  fig <- time_panel results qubit_array fig ;;
  let plot_file := path_join output_path "benchmark_comparison.png" in
  write_file plot_file (FigureFile fig) ;;
  write_file (path_join output_path "benchmark_comparison.pdf")
             (FigureFile fig) ;;
  print (MSavedPlot plot_file).

(** ** [run_benchmarks] and [main] *)

(** The warmup block, lines 196-207. *)
Definition warmup_phase (args : Args)
                        (backends : list (string * AerSimulator)) : M unit :=
  if warmup args then
    print MWarmupStart ;;
    warmup_qc <- make_circuit (min_qubits args) (depth args) (seed args) ;;
    for_each backends
      (fun nb =>
         let (name, backend) := (nb : string * AerSimulator) in
         try_except
           (benchmark backend warmup_qc 1 ;; print (MWarmupOk name))
           (fun e => print (MWarmupFail name e))) ;;
    print MBlank
  else ret tt.

(** The main benchmark loop, lines 214-238. *)
Definition sweep (args : Args) (backends : list (string * AerSimulator))
                 (qubit_sizes : list Z) : M unit :=
  for_each qubit_sizes
    (fun n_qubits =>
       print (MBenchmarking n_qubits) ;;
       qc_t <- make_circuit n_qubits (depth args) (seed args) ;;
       for_each backends (trial (repeats args) qc_t) ;;
       print MBlank).

Definition init_results (backends : list (string * AerSimulator)) : table :=
  fold_left (fun d name => dict_set d name (mkColumn [] [])) (keys backends) [].

(** The end of [run_benchmarks], lines 240-251. *)
Definition export_phase (args : Args) (qubit_sizes : list Z)
                        (output_path : string) : M unit :=
  (if save_data args then save_benchmark_data qubit_sizes output_path
   else ret tt) ;;
  (if negb (no_plots args) then generate_plots qubit_sizes output_path
   else ret tt) ;;
  print MComplete.

Definition run_benchmarks (args : Args) : M unit :=
  print MBanner ;;
  let output_path := output_dir args in
  emit (EMkdir output_path) ;;
  backends <- setup_backends (arg_precision args) (backends_arg args) ;;
  match backends with
  | [] => print MNoBackends ;; raise (SystemExit 1)
  | _ =>
      qubit_sizes <- py_range (min_qubits args) (max_qubits args + 1)
                              (step args) ;;
      put_results (init_results backends) ;;
      warmup_phase args backends ;;
      print MStart ;;
      sweep args backends qubit_sizes ;;
      export_phase args qubit_sizes output_path
  end.

(** [run_benchmarks] up to its exports, lines 163-238: the value is the
    list of sizes that the exports are given. *)
Definition measurement (args : Args) : M (list Z) :=
  print MBanner ;;
  let output_path := output_dir args in
  emit (EMkdir output_path) ;;
  backends <- setup_backends (arg_precision args) (backends_arg args) ;;
  match backends with
  | [] => print MNoBackends ;; raise (SystemExit 1)
  | _ =>
      qubit_sizes <- py_range (min_qubits args) (max_qubits args + 1)
                              (step args) ;;
      put_results (init_results backends) ;;
      warmup_phase args backends ;;
      print MStart ;;
      sweep args backends qubit_sizes ;;
      ret qubit_sizes
  end.

(** [main], after [parse_arguments] *)
Definition main (args : Args) : M unit :=
  fun s =>
    match run_benchmarks args s with
    | (Raise KeyboardInterrupt, s') =>
        (print MInterrupted ;; raise (SystemExit 1)) s'
    | (Raise (PyException c t), s') =>
        (print (MError (PyException c t)) ;; print MTraceback ;;
         raise (SystemExit 1)) s'
    | r => r
    end.

(** The exit status of the process for the outcome of its top level. *)
Definition exit_status {A : Type} (r : result A) : Z :=
  match r with
  | Ret _ => 0
  | Raise (SystemExit c) => c
  | Raise KeyboardInterrupt => 130
  | Raise (PyException _ _) => 1
  end.

End Qbench.

Arguments Ret {A} a.
Arguments Raise {A} e.

Declare Scope monad_scope.
Delimit Scope monad_scope with monad.
Notation "x <- m ;; k" := (bind m (fun x => k))
  (at level 61, m at next level, right associativity) : monad_scope.
Notation "m ;; k" := (bind m (fun _ => k))
  (at level 61, right associativity) : monad_scope.
Local Open Scope monad_scope.

(** ** [benchmarks.py]

    The earlier script: three fixed simulators, one timed execution per
    size, the three lists of times as the columns [cpu_times],
    [gpu_default_times] and [gpu_custatevec_times] of the table. *)

Module Benchmarks.
Section Script.

Context {FL : Float64} {PF : Platform FL}.

Definition depth : Z := 10.
Definition seed : Z := 42.

(** [benchmark(simulator, circuit)] *)
Definition benchmark (simulator : AerSimulator) (qc : circuit) : M float :=
  start <- now ;;
  simulator_run simulator qc ;;
  stop <- now ;;
  ret (fsub stop start).

(** The body of [for n_qubits in qubit_sizes], lines 30-56. *)
Definition row (sim_cpu sim_gpu_default sim_gpu_custatevec : AerSimulator)
               (n_qubits : Z) : M unit :=
  qc_t <- make_circuit n_qubits depth seed ;;
  print (MRunning n_qubits) ;;
  (* CPU benchmark *)
  t_cpu <- benchmark sim_cpu qc_t ;;
  append_times "cpu_times" t_cpu ;;
  print (MTime "CPU" t_cpu) ;;
  (* GPU default benchmark *)
  t_gpu_default <-
    try_except
      (t <- benchmark sim_gpu_default qc_t ;;
       print (MTime "GPU (default)" t) ;;
       ret t)
      (fun e => print (MGpuFailed "GPU (default)" e) ;; ret nan) ;;
  append_times "gpu_default_times" t_gpu_default ;;
  (* GPU cuStateVec benchmark *)
  t_gpu_custatevec <-
    try_except
      (t <- benchmark sim_gpu_custatevec qc_t ;;
       print (MTime "GPU (cuStateVec)" t) ;;
       ret t)
      (fun e => print (MGpuFailed "GPU (cuStateVec)" e) ;; ret nan) ;;
  append_times "gpu_custatevec_times" t_gpu_custatevec.

(** Lines 59-91: the speedups and the figure. *)
Definition plots (qubit_sizes : list Z) : M unit :=
  results <- get_results ;;
  cpu <- dict_item results "cpu_times" ;;
  gpu_default <- dict_item results "gpu_default_times" ;;
  gpu_custatevec <- dict_item results "gpu_custatevec_times" ;;
  speedup_default <- np_divide (times cpu) (times gpu_default) ;;
  speedup_custatevec <- np_divide (times cpu) (times gpu_custatevec) ;;
  fig <- ax_plot ax1 "GPU Default vs CPU" qubit_sizes speedup_default [] ;;
  fig <- ax_plot ax1 "GPU cuStateVec vs CPU" qubit_sizes speedup_custatevec
                 fig ;;
  let fig := fig ++ [Axhline ax1 1 "No speedup"] in
  fig <- ax_plot ax2 "CPU" qubit_sizes (times cpu) fig ;;
  fig <- ax_plot ax2 "GPU (default)" qubit_sizes (times gpu_default) fig ;;
  fig <- ax_plot ax2 "GPU (cuStateVec)" qubit_sizes (times gpu_custatevec)
                 fig ;;
  write_file "three_backend_comparison.png" (FigureFile fig).

Definition script : M unit :=
  qubit_sizes <- py_range 2 25 2 ;;
  sim_cpu <- new_simulator (mkSim CPU None None) ;;
  sim_gpu_default <- new_simulator (mkSim GPU None (Some false)) ;;
  sim_gpu_custatevec <- new_simulator (mkSim GPU None (Some true)) ;;
  put_results [("cpu_times", mkColumn [] []);
               ("gpu_default_times", mkColumn [] []);
               ("gpu_custatevec_times", mkColumn [] [])] ;;
  for_each qubit_sizes (row sim_cpu sim_gpu_default sim_gpu_custatevec) ;;
  plots qubit_sizes.

End Script.
End Benchmarks.

(** ** [r&d/base.py]

    The first experiment: one circuit of two qubits, a CPU and a GPU
    simulator, and the distance between the two statevectors.  The
    statevector of a result and [np.linalg.norm] of a difference are
    outside the repository.  The two timing messages and the message of
    the handler are recorded with the constructors of [benchmarks.py],
    under their own labels; the script returns the number that its last
    line prints. *)

Module Base.
Section Script.

Context {FL : Float64} {PF : Platform FL}.

Variable statevector : Type.
(* result.get_statevector(circuit), of the result of a simulator *)
Variable get_statevector : AerSimulator -> circuit -> statevector.
(* np.linalg.norm(a - b) *)
Variable norm_diff : statevector -> statevector -> float.

Definition n_qubits : Z := 2.
Definition depth : Z := 10.
Definition seed : Z := 42.

Definition NameError (name : string) : exn :=
  PyException "NameError" ("name '" ++ name ++ "' is not defined")%string.

(** A variable of the module that an assignment may not have reached. *)
Definition read_name {A : Type} (name : string) (v : option A) : M A :=
  match v with
  | Some x => ret x
  | None => raise (NameError name)
  end.

(** [benchmark(simulator, circuit)] *)
Definition benchmark (simulator : AerSimulator) (qc : circuit)
  : M (statevector * float) :=
  start <- now ;;
  simulator_run simulator qc ;;
  stop <- now ;;
  ret (get_statevector simulator qc, fsub stop start).

Definition script : M float :=
  qc_transpiled <- make_circuit n_qubits depth seed ;;
  sim_cpu <- new_simulator (mkSim CPU None None) ;;
  sim_gpu <- new_simulator (mkSim GPU None None) ;;
  (* Run on CPU *)
  r <- benchmark sim_cpu qc_transpiled ;;
  let state_cpu := fst r in
  let time_cpu := snd r in
  print (MTime "CPU simulation time" time_cpu) ;;
  (* Run on GPU (if available): [state_gpu] is assigned in the [try] *)
  state_gpu <-
    try_except
      (r <- benchmark sim_gpu qc_transpiled ;;
       print (MTime "GPU simulation time" (snd r)) ;;
       ret (Some (fst r)))
      (fun e => print (MGpuFailed "GPU simulation not available" e) ;;
                ret None) ;;
  (* Verify equivalence *)
  state_gpu <- read_name "state_gpu" state_gpu ;;
  ret (norm_diff state_cpu state_gpu).

End Script.
End Base.


(** ** A scripted platform

    An instance of the two interfaces on which the model runs: times are
    whole numbers of clock ticks, and a scenario says which constructor,
    which circuit build and which execution raises. *)

Module Scripted.

Inductive tick : Type := Ticks (z : Z) | NaN.

Definition all_ticks (l : list tick) : option (list Z) :=
  fold_right (fun x acc =>
                match x, acc with
                | Ticks z, Some zs => Some (z :: zs)
                | _, _ => None
                end) (Some []) l.

Definition sum_Z (l : list Z) : Z := fold_right Z.add 0 l.

Definition mean (l : list tick) : tick :=
  match all_ticks l with
  | Some (z :: zs) => Ticks (sum_Z (z :: zs) / Z.of_nat (List.length (z :: zs)))
  | _ => NaN
  end.

Definition std (l : list tick) : tick :=
  match all_ticks l, mean l with
  | Some zs, Ticks m =>
      Ticks (Z.sqrt (sum_Z (map (fun z => (z - m) * (z - m)) zs)
                     / Z.of_nat (List.length zs)))
  | _, _ => NaN
  end.

#[export] Instance tick_float : Float64 := {|
  float := tick;
  nan := NaN;
  fsub := fun a b =>
    match a, b with Ticks x, Ticks y => Ticks (x - y) | _, _ => NaN end;
  fdiv := fun a b =>
    match a, b with
    | Ticks x, Ticks y => if y =? 0 then NaN else Ticks (x / y)
    | _, _ => NaN
    end;
  np_mean := mean;
  np_std := std;
  float_repr := fun a =>
    match a with Ticks z => str_of_Z z | NaN => "nan" end
|}.

Record scenario : Type := mkScenario {
  (* what the constructor of a simulator raises *)
  init_raises : AerSimulator -> option exn;
  (* what building the circuit of a size raises, given the number of
     circuits built before *)
  build_raises : Z -> nat -> option exn;
  (* what an execution raises, given the number of executions before *)
  run_raises : AerSimulator -> circuit -> nat -> option exn
}.

Record clockwork : Type := mkClockwork {
  clock : Z;
  built : nat;
  executed : nat
}.

Definition scripted (sc : scenario) : Platform tick_float := {|
  world := clockwork;
  aer_init := fun sim w => (init_raises sc sim, w);
  sim_execute := fun sim qc w =>
    (run_raises sc sim qc (executed w),
     mkClockwork (clock w + qc_qubits qc) (built w) (S (executed w)));
  time_time := fun w => (Ticks (clock w), w);
  build_circuit := fun n _ _ w =>
    (build_raises sc n (built w),
     mkClockwork (clock w) (S (built w)) (executed w))
|}.

Definition start (sc : scenario) : @state tick_float (scripted sc) :=
  @mkState tick_float (scripted sc) (mkClockwork 0 0 0) [] [] [].

Definition run {A : Type} (sc : scenario) (m : @M tick_float (scripted sc) A)
  : result A * @state tick_float (scripted sc) :=
  m (start sc).

Definition all_fine : scenario :=
  mkScenario (fun _ => None) (fun _ _ => None) (fun _ _ _ => None).

(** The defaults of [parse_arguments]. *)
Definition default_args : Args :=
  mkArgs 2 24 2 10 42 double ["all"] "./results" false false false 1.

Definition cpu : AerSimulator := mkSim CPU (Some double) None.
Definition gpu_default : AerSimulator := mkSim GPU (Some double) (Some false).

Definition RuntimeError (t : string) : exn := PyException "RuntimeError" t.

(** The CPU simulator fails on the circuit of four qubits. *)
Definition cpu_fails_at_4 : scenario :=
  mkScenario (fun _ => None) (fun _ _ => None)
    (fun sim qc _ =>
       match sim_device sim with
       | CPU => if qc_qubits qc =? 4 then Some (RuntimeError "cpu") else None
       | GPU => None
       end).

(** The second execution of the run fails. *)
Definition second_execution_fails : scenario :=
  mkScenario (fun _ => None) (fun _ _ => None)
    (fun _ _ n => if Nat.eqb n 1 then Some (RuntimeError "repeat 2") else None).

(** The constructor of the CPU simulator fails. *)
Definition cpu_init_fails : scenario :=
  mkScenario
    (fun sim => match sim_device sim with
                | CPU => Some (RuntimeError "no cpu")
                | GPU => None
                end)
    (fun _ _ => None) (fun _ _ _ => None).

(** Every constructor fails. *)
Definition no_backend : scenario :=
  mkScenario (fun _ => Some (RuntimeError "unavailable"))
             (fun _ _ => None) (fun _ _ _ => None).

(** The GPU simulators fail on the circuit of four qubits. *)
Definition gpu_fails_at_4 : scenario :=
  mkScenario (fun _ => None) (fun _ _ => None)
    (fun sim qc _ =>
       match sim_device sim with
       | GPU => if qc_qubits qc =? 4 then Some (RuntimeError "gpu") else None
       | CPU => None
       end).

(** The user interrupts while the second circuit is being built. *)
Definition interrupt_before_second_row : scenario :=
  mkScenario (fun _ => None)
    (fun _ built => if Nat.eqb built 1 then Some KeyboardInterrupt else None)
    (fun _ _ _ => None).

(** Sizes 2 and 4, chosen backends, the two exports and the flags. *)
Definition small_args (backends : list string) (save plots warm : bool)
                      (reps : Z) : Args :=
  mkArgs 2 4 2 10 42 double backends "./results" save (negb plots) warm reps.

(** A finished table over the sizes 2 and 4 in which the GPU backend has
    a failure cell at size 4. *)
Definition after_one_failure : @state tick_float (scripted all_fine) :=
  @mkState tick_float (scripted all_fine) (mkClockwork 12 2 4) []
           [("cpu", mkColumn [Ticks 2; Ticks 4] [Ticks 0; Ticks 0]);
            ("gpu_default", mkColumn [Ticks 2; NaN] [Ticks 0; NaN])] [].

(** No parameter is valid: a step of zero and zero repeats. *)
Definition zero_args : Args :=
  mkArgs 2 4 0 10 42 double ["cpu"] "./results" false false false 0.

(** A table with one empty column, for the backend [name]. *)
Definition one_column (sc : scenario) (name : string)
  : @state tick_float (scripted sc) :=
  @mkState tick_float (scripted sc) (mkClockwork 0 0 0) []
           [(name, mkColumn [] [])] [].

(** No GPU simulator can execute anything. *)
Definition gpu_unavailable : scenario :=
  mkScenario (fun _ => None) (fun _ _ => None)
    (fun sim _ _ =>
       match sim_device sim with
       | GPU => Some (RuntimeError "no gpu")
       | CPU => None
       end).


(** The bounds the wrong way round: from 4 up to 2. *)
Definition inverted_args : Args :=
  mkArgs 4 2 2 10 42 double ["cpu"] "./results" true false false 1.

(** The three empty lists of [benchmarks.py], before its first row. *)
Definition before_first_row (sc : scenario)
  : @state tick_float (scripted sc) :=
  @mkState tick_float (scripted sc) (mkClockwork 0 0 0) []
           [("cpu_times", mkColumn [] []);
            ("gpu_default_times", mkColumn [] []);
            ("gpu_custatevec_times", mkColumn [] [])] [].

(** A statevector stands for the number of its qubits, and the distance
    of two statevectors for the difference of these numbers. *)
Definition qubits_of (_ : AerSimulator) (qc : circuit) : Z := qc_qubits qc.

Definition distance (a b : Z) : tick := Ticks (a - b).


(** No GPU simulator can be constructed; the CPU one can. *)
Definition gpu_init_fails : scenario :=
  mkScenario
    (fun sim => match sim_device sim with
                | GPU => Some (RuntimeError "no gpu")
                | CPU => None
                end)
    (fun _ _ => None) (fun _ _ _ => None).

(** The defaults, but for the backends: the two GPU ones only. *)
Definition gpu_only_args : Args :=
  mkArgs 2 24 2 10 42 double ["gpu_default"; "gpu_custatevec"] "./results"
         false false false 1.

End Scripted.

(** * Vocabulary of the properties *)

Section Vocabulary.

Context {FL : Float64} {PF : Platform FL}.

(** [stable R m]: every run of [m], returning or raising, relates the
    state it starts in to the state it ends in. *)
Definition stable (R : state -> state -> Prop) {A : Type} (m : M A) : Prop :=
  forall s r s', m s = (r, s') -> R s s'.

(** The three frames used below. *)

Definition same_files (s s' : state) : Prop := st_files s' = st_files s.

Definition same_results (s s' : state) : Prop := st_results s' = st_results s.

(** The log grows, by events of the class [P] only. *)
Definition logs (P : event -> Prop) (s s' : state) : Prop :=
  exists evs, st_log s' = st_log s ++ evs /\ Forall P evs.

(** The executions recorded in a stretch of the log, in order: which
    simulator ran which circuit, and what the execution raised. *)
Definition runs (evs : list event)
  : list (AerSimulator * circuit * option exn) :=
  flat_map (fun ev => match ev with
                      | ERun sim qc r => [(sim, qc, r)]
                      | _ => []
                      end) evs.

(** Building a circuit and executing one are the events of a trial. *)
Definition is_trial_event (ev : event) : bool :=
  match ev with
  | EBuild _ _ _ _ | ERun _ _ _ => true
  | _ => false
  end.

(** The table with one more cell, [(m, sd)], at the end of the column of
    [name]. *)
Definition push_cell (name : string) (m sd : float) (t : table) : table :=
  match dict_get t name with
  | Some c => dict_set t name (mkColumn (times c ++ [m]) (stds c ++ [sd]))
  | None => t
  end.

(** Every column of the table has [n] cells. *)
Definition columns_of_length (n : nat) (t : table) : Prop :=
  forall name c, dict_get t name = Some c ->
    List.length (times c) = n /\ List.length (stds c) = n.

(** From [t] to [t'] the keys are the same, the columns of [names] have
    [n] more cells each, and the other columns are the same. *)
Definition grown (names : list string) (n : nat) (t t' : table) : Prop :=
  keys t' = keys t /\
  (forall name, ~ In name names -> dict_get t' name = dict_get t name) /\
  (forall name c, In name names -> dict_get t name = Some c ->
     exists c', dict_get t' name = Some c' /\
                List.length (times c') = (List.length (times c) + n)%nat /\
                List.length (stds c') = (List.length (stds c) + n)%nat).

(** [m] raises nothing but exceptions of the class [P]. *)
Definition raises_only (P : exn -> Prop) {A : Type} (m : M A) : Prop :=
  forall s e s', m s = (Raise e, s') -> P e.

(** An event that is neither the building of a circuit nor an execution. *)
Definition before_trials (ev : event) : Prop := is_trial_event ev = false.

(** An interrupt that leaves [m] finds the files as they were. *)
Definition interrupt_keeps_files {A : Type} (m : M A) : Prop :=
  forall s s', m s = (Raise KeyboardInterrupt, s') -> st_files s' = st_files s.

(** Which simulator executed which circuit, in order. *)
Definition executions (evs : list event) : list (AerSimulator * circuit) :=
  map fst (runs evs).

(** The element-wise quotient of two arrays of the same length. *)
Definition quotients (a b : list float) : list float :=
  map (fun xy => fdiv (fst xy) (snd xy)) (combine a b).

(** The lines of the left panel, but for the horizontal one. *)
Definition speedup_lines (cpu_times : list float) (sizes : list Z)
                         (results : table) : list line :=
  flat_map (fun item : string * column =>
              if negb (String.eqb (fst item) "cpu")
              then [Plot ax1 (fst item ++ " vs CPU")%string sizes
                         (quotients cpu_times (times (snd item)))]
              else []) results.

(** The lines of the right panel. *)
Definition time_lines (sizes : list Z) (results : table) : list line :=
  map (fun item : string * column =>
         Plot ax2 (fst item) sizes (times (snd item))) results.

(** The figure drawn from a finished table. *)
Definition figure_of (sizes : list Z) (results : table) : list line :=
  match dict_get results "cpu" with
  | Some cpu =>
      speedup_lines (times cpu) sizes results ++ [Axhline ax1 1 "No speedup"]
  | None => []
  end ++ time_lines sizes results.

(** Every column of times has one entry per size. *)
Definition finished (sizes : list Z) (results : table) : Prop :=
  forall name c, In (name, c) results ->
    List.length (times c) = List.length sizes.

(** [m] neither reads nor writes the state. *)
Definition state_free {A : Type} (m : M A) : Prop :=
  exists r, forall s, m s = (r, s).

(** The state in which the file [path] holds [a]. *)
Definition with_file (path : string) (a : artifact) (s : state) : state :=
  mkState (st_world s) (st_log s) (st_results s) (dict_set (st_files s) path a).

(** The constructor calls recorded in a stretch of the log, in order. *)
Definition inits (evs : list event) : list (AerSimulator * option exn) :=
  flat_map (fun ev => match ev with
                      | EInit sim r => [(sim, r)]
                      | _ => []
                      end) evs.

(** [name] is asked for on the command line, by itself or by [all]. *)
Definition requested (backend_list : list string) (name : string) : bool :=
  str_in "all" backend_list || str_in name backend_list.

(** The three backends of [setup_backends], in the order of its blocks,
    those asked for only. *)
Definition registry_of (p : precision) (backend_list : list string)
  : list (string * AerSimulator) :=
  (if requested backend_list "cpu"
   then [("cpu", mkSim CPU (Some p) None)] else [])
  ++ (if requested backend_list "gpu_default"
      then [("gpu_default", mkSim GPU (Some p) (Some false))] else [])
  ++ (if requested backend_list "gpu_custatevec"
      then [("gpu_custatevec", mkSim GPU (Some p) (Some true))] else []).

(** From [t] to [t'] the keys are the same and every column is the old
    column with cells added at its end. *)
Definition appended (t t' : table) : Prop :=
  keys t' = keys t /\
  forall name c, dict_get t name = Some c ->
    exists ts sds,
      dict_get t' name = Some (mkColumn (times c ++ ts) (stds c ++ sds)).

Definition only_appends (s s' : state) : Prop :=
  appended (st_results s) (st_results s').

(** Every column has as many deviations as means. *)
Definition balanced (t : table) : Prop :=
  forall name c, dict_get t name = Some c ->
    List.length (times c) = List.length (stds c).

(** [m] keeps the property [J] of the table. *)
Definition keeps (J : table -> Prop) (s s' : state) : Prop :=
  J (st_results s) -> J (st_results s').

(** The log grows. *)
Definition log_grows (s s' : state) : Prop := logs (fun _ => True) s s'.

(** No execution recorded by the event raised. *)
Definition ran_fine (ev : event) : Prop :=
  forall sim qc e, ev <> ERun sim qc (Some e).

(** The executions of a sweep in which nothing raises: size by size, for
    each size backend by backend, for each backend [reps] times. *)
Definition planned_executions (args : Args)
                              (backends : list (string * AerSimulator))
                              (sizes : list Z)
  : list (AerSimulator * circuit) :=
  flat_map (fun n =>
              flat_map (fun nb : string * AerSimulator =>
                          repeat (snd nb, mkCircuit n (depth args) (seed args))
                                 (Z.to_nat (repeats args)))
                       backends)
           sizes.

(** The row of index [i] of the CSV file: the size, then the mean and the
    deviation of every column at [i]. *)
Definition csv_row (results : table) (i : nat) (n_qubits : Z)
  : list csv_field :=
  CInt n_qubits
  :: flat_map (fun item : string * column =>
                 [CFloat (nth i (times (snd item)) nan);
                  CFloat (nth i (stds (snd item)) nan)]) results.

Definition join_lines (lines : list string) : string :=
  fold_right String.append EmptyString lines.

(** The rows of the sizes, the first of which has the index [i]. *)
Definition csv_rows_text (results : table) (i : nat) (sizes : list Z)
  : string :=
  join_lines (map (fun jn : nat * Z =>
                     writerow (csv_row results (fst jn) (snd jn)))
                  (combine (seq i (List.length sizes)) sizes)).

(** The text of the CSV file: the header, then one row per size. *)
Definition csv_text (results : table) (sizes : list Z) : string :=
  (writerow (csv_headers results) ++ csv_rows_text results 0 sizes)%string.

(** The table of [benchmarks.py]: its three lists of times. *)
Definition three_lists (a b c : list float) : table :=
  [("cpu_times", mkColumn a []);
   ("gpu_default_times", mkColumn b []);
   ("gpu_custatevec_times", mkColumn c [])].


(** The executions of rows of [benchmarks.py] in which the CPU simulator
    does not fail: each circuit on the three simulators, in this order. *)
Definition script_executions (sim_cpu sim_g1 sim_g2 : AerSimulator)
                             (sizes : list Z)
  : list (AerSimulator * circuit) :=
  flat_map (fun n =>
              let qc := mkCircuit n Benchmarks.depth Benchmarks.seed in
              [(sim_cpu, qc); (sim_g1, qc); (sim_g2, qc)])
           sizes.

(** The figure of [benchmarks.py] over three lists of times. *)
Definition script_figure (sizes : list Z) (a b c : list float) : list line :=
  [Plot ax1 "GPU Default vs CPU" sizes (quotients a b);
   Plot ax1 "GPU cuStateVec vs CPU" sizes (quotients a c);
   Axhline ax1 1 "No speedup";
   Plot ax2 "CPU" sizes a;
   Plot ax2 "GPU (default)" sizes b;
   Plot ax2 "GPU (cuStateVec)" sizes c].


End Vocabulary.

(** * Properties *)

Section Facts.

Context {FL : Float64} {PF : Platform FL}.

(** ** Dictionaries *)

Lemma dict_get_set_same {A : Type} (d : list (string * A)) k v :
  dict_get (dict_set d k v) k = Some v.
Proof.
  induction d as [|[k' v'] d IH]; simpl.
  - now rewrite String.eqb_refl.
  - destruct (String.eqb k k') eqn:E; simpl; rewrite E; auto.
Qed.

Lemma dict_get_set_other {A : Type} (d : list (string * A)) k k' v :
  k' <> k -> dict_get (dict_set d k v) k' = dict_get d k'.
Proof.
  intros Hne. induction d as [|[k0 v0] d IH]; simpl.
  - destruct (String.eqb_spec k' k); congruence.
  - destruct (String.eqb_spec k k0) as [->|]; simpl.
    + destruct (String.eqb_spec k' k0); congruence.
    + now rewrite IH.
Qed.

Lemma dict_set_twice {A : Type} (d : list (string * A)) k v v' :
  dict_set (dict_set d k v) k v' = dict_set d k v'.
Proof.
  induction d as [|[k0 v0] d IH]; simpl.
  - now rewrite String.eqb_refl.
  - destruct (String.eqb k k0) eqn:E; simpl; rewrite E; congruence.
Qed.

Lemma keys_dict_set_present {A : Type} (d : list (string * A)) k v :
  In k (keys d) -> keys (dict_set d k v) = keys d.
Proof.
  induction d as [|[k0 v0] d IH]; simpl; [tauto|].
  intros Hin. destruct (String.eqb_spec k k0) as [->|Hne]; simpl; [reflexivity|].
  f_equal. apply IH. destruct Hin; congruence.
Qed.

Lemma keys_dict_set_absent {A : Type} (d : list (string * A)) k v :
  ~ In k (keys d) -> keys (dict_set d k v) = keys d ++ [k].
Proof.
  induction d as [|[k0 v0] d IH]; simpl; [reflexivity|].
  intros Hnin. destruct (String.eqb_spec k k0) as [->|Hne]; [tauto|].
  simpl. f_equal. apply IH. tauto.
Qed.

Lemma dict_get_Some_In {A : Type} (d : list (string * A)) k v :
  dict_get d k = Some v -> In k (keys d).
Proof.
  induction d as [|[k0 v0] d IH]; simpl; [discriminate|].
  destruct (String.eqb_spec k k0) as [->|]; auto.
Qed.

Lemma dict_get_In {A : Type} (d : list (string * A)) k :
  In k (keys d) -> exists v, dict_get d k = Some v.
Proof.
  induction d as [|[k0 v0] d IH]; simpl; [tauto|].
  intros [->|Hin].
  - rewrite String.eqb_refl. eauto.
  - destruct (String.eqb k k0); eauto.
Qed.

(** ** The monad *)

Lemma bind_ret_inv {A B : Type} (m : M A) (k : A -> M B) s b s' :
  (x <- m ;; k x) s = (Ret b, s') ->
  exists a s1, m s = (Ret a, s1) /\ k a s1 = (Ret b, s').
Proof.
  unfold bind. destruct (m s) as [[a|e] s1]; [eauto | discriminate].
Qed.

Lemma bind_raise_inv {A B : Type} (m : M A) (k : A -> M B) s e s' :
  (x <- m ;; k x) s = (Raise e, s') ->
  m s = (Raise e, s') \/
  exists a s1, m s = (Ret a, s1) /\ k a s1 = (Raise e, s').
Proof.
  unfold bind. destruct (m s) as [[a|e1] s1]; [eauto | left; congruence].
Qed.

Lemma bind_inv {A B : Type} (m : M A) (k : A -> M B) s r s' :
  (x <- m ;; k x) s = (r, s') ->
  (exists a s1, m s = (Ret a, s1) /\ k a s1 = (r, s')) \/
  (exists e, m s = (Raise e, s') /\ r = Raise e).
Proof.
  unfold bind. destruct (m s) as [[a|e] s1]; [eauto|].
  intros H. inversion H; subst. eauto.
Qed.

Lemma for_each_app {A : Type} (l1 l2 : list A) (body : A -> M unit) s :
  for_each (l1 ++ l2) body s = (for_each l1 body ;; for_each l2 body) s.
Proof.
  revert s. induction l1 as [|x l1 IH]; intros s; simpl.
  - reflexivity.
  - unfold bind in *. destruct (body x s) as [[[]|e] s1]; [|reflexivity].
    apply IH.
Qed.

(** *** Frame conditions *)

Section Stable.

Variable R : state -> state -> Prop.
Context {R_pre : PreOrder R}.

Lemma stable_ret {A : Type} (a : A) : stable R (ret a).
Proof. intros s r s' H. inversion H; subst. reflexivity. Qed.

Lemma stable_raise {A : Type} (e : exn) : stable R (@raise _ _ A e).
Proof. intros s r s' H. inversion H; subst. reflexivity. Qed.

Lemma stable_bind {A B : Type} (m : M A) (k : A -> M B) :
  stable R m -> (forall a, stable R (k a)) -> stable R (x <- m ;; k x).
Proof.
  intros Hm Hk s r s' H. unfold bind in H.
  destruct (m s) as [[a|e] s1] eqn:E.
  - transitivity s1; [eapply Hm | eapply Hk]; eauto.
  - inversion H; subst. eapply Hm; eauto.
Qed.

Lemma stable_try {A : Type} (m : M A) (h : exn -> M A) :
  stable R m -> (forall e, stable R (h e)) -> stable R (try_except m h).
Proof.
  intros Hm Hh s r s' H. unfold try_except in H.
  destruct (m s) as [[a|[c t| |code]] s1] eqn:E.
  2: transitivity s1; [eapply Hm | eapply Hh]; eauto.
  all: inversion H; subst; eapply Hm; eassumption.
Qed.

Lemma stable_for_each {A : Type} (l : list A) (body : A -> M unit) :
  (forall x, stable R (body x)) -> stable R (for_each l body).
Proof.
  intros Hb. induction l as [|x l IH]; simpl.
  - apply stable_ret.
  - apply stable_bind; auto.
Qed.

Lemma stable_fold_m {A B : Type} (l : list A) (acc : B) (body : B -> A -> M B) :
  (forall b x, stable R (body b x)) -> stable R (fold_m l acc body).
Proof.
  intros Hb. revert acc. induction l as [|x l IH]; intros acc; simpl.
  - apply stable_ret.
  - apply stable_bind; auto.
Qed.

Lemma stable_if {A : Type} (b : bool) (m1 m2 : M A) :
  stable R m1 -> stable R m2 -> stable R (if b then m1 else m2).
Proof. destruct b; auto. Qed.

End Stable.

#[local] Instance same_files_pre : PreOrder same_files.
Proof. split; unfold same_files; [intros s|intros s1 s2 s3]; congruence. Qed.

#[local] Instance same_results_pre : PreOrder same_results.
Proof. split; unfold same_results; [intros s|intros s1 s2 s3]; congruence. Qed.

#[local] Instance logs_pre (P : event -> Prop) : PreOrder (logs P).
Proof.
  split.
  - intros s. exists []. now rewrite app_nil_r.
  - intros s1 s2 s3 (e1 & H1 & F1) (e2 & H2 & F2). exists (e1 ++ e2).
    rewrite H2, H1, app_assoc. split; [reflexivity|].
    apply Forall_app; auto.
Qed.

(** *** The primitives under the three frames *)

Create HintDb stable.

Ltac run_prim :=
  let s := fresh "s" in let r := fresh "r" in let s' := fresh "s'" in
  let H := fresh "H" in
  intros s r s' H;
  repeat match type of H with
         | context [let (_, _) := ?x in _] => destruct x
         | context [match ?x with _ => _ end] => destruct x
         end;
  inversion H; subst; clear H.

Lemma files_emit e : stable same_files (emit e).
Proof. run_prim. reflexivity. Qed.

Lemma files_call f ev : stable same_files (call f ev).
Proof. unfold call. run_prim; reflexivity. Qed.

Lemma files_now : stable same_files now.
Proof. unfold now. run_prim. reflexivity. Qed.

Lemma files_get_results : stable same_files get_results.
Proof. run_prim. reflexivity. Qed.

Lemma files_put_results t : stable same_files (put_results t).
Proof. run_prim. reflexivity. Qed.

Lemma results_emit e : stable same_results (emit e).
Proof. run_prim. reflexivity. Qed.

Lemma results_call f ev : stable same_results (call f ev).
Proof. unfold call. run_prim; reflexivity. Qed.

Lemma results_now : stable same_results now.
Proof. unfold now. run_prim. reflexivity. Qed.

Lemma results_get_results : stable same_results get_results.
Proof. run_prim. reflexivity. Qed.

Lemma results_write_file p a : stable same_results (write_file p a).
Proof. run_prim. reflexivity. Qed.

Lemma results_append_file p t : stable same_results (append_file p t).
Proof. run_prim. reflexivity. Qed.

Lemma logs_emit (P : event -> Prop) e : P e -> stable (logs P) (emit e).
Proof. intros HP. run_prim. exists [e]. simpl. auto. Qed.

Lemma logs_call (P : event -> Prop) f ev :
  (forall r, P (ev r)) -> stable (logs P) (call f ev).
Proof.
  intros HP. unfold call. run_prim; eexists [_]; simpl; split; eauto.
Qed.

Lemma logs_now P : stable (logs P) now.
Proof. unfold now. run_prim. exists []. simpl. now rewrite app_nil_r. Qed.

Lemma logs_get_results P : stable (logs P) get_results.
Proof. run_prim. reflexivity. Qed.

Lemma logs_put_results P t : stable (logs P) (put_results t).
Proof. run_prim. exists []. simpl. now rewrite app_nil_r. Qed.

Lemma logs_write_file P p a : stable (logs P) (write_file p a).
Proof. run_prim. exists []. simpl. now rewrite app_nil_r. Qed.

Lemma logs_append_file P p t : stable (logs P) (append_file p t).
Proof. run_prim. exists []. simpl. now rewrite app_nil_r. Qed.

Lemma files_simulator_run sim qc : stable same_files (simulator_run sim qc).
Proof. apply files_call. Qed.

Lemma results_simulator_run sim qc :
  stable same_results (simulator_run sim qc).
Proof. apply results_call. Qed.

#[local] Hint Resolve files_simulator_run results_simulator_run : stable.

#[local] Hint Resolve files_emit files_call files_now files_get_results
  files_put_results results_emit results_call results_now results_get_results
  results_write_file results_append_file logs_now logs_get_results
  logs_put_results logs_write_file logs_append_file : stable.

Ltac stable_go :=
  repeat first
    [ solve [auto with stable]
    | match goal with
      | |- PreOrder _ => exact _
      | |- forall _, _ => intro
      | |- stable _ (let (_, _) := ?x in _) => destruct x
      | |- stable _ (match ?x with _ => _ end) => destruct x
      | |- stable _ (if ?x then _ else _) => destruct x
      end
    | apply stable_ret | apply stable_raise | apply stable_bind
    | apply stable_try | apply stable_for_each | apply stable_fold_m ].

(** *** What the phases leave alone *)

Lemma files_benchmark_loop n sim qc acc :
  stable same_files (benchmark_loop n sim qc acc).
Proof.
  revert acc. induction n as [|n IH]; intros acc; simpl.
  - stable_go.
  - unfold simulator_run. stable_go.
Qed.

Lemma results_benchmark_loop n sim qc acc :
  stable same_results (benchmark_loop n sim qc acc).
Proof.
  revert acc. induction n as [|n IH]; intros acc; simpl.
  - stable_go.
  - unfold simulator_run. stable_go.
Qed.

#[local] Hint Resolve files_benchmark_loop results_benchmark_loop : stable.

Lemma files_trial reps qc nb : stable same_files (trial reps qc nb).
Proof.
  unfold trial, benchmark, append_times, append_stds, print. stable_go.
Qed.

Lemma files_setup_backends p bl : stable same_files (setup_backends p bl).
Proof. unfold setup_backends, new_simulator, print. stable_go. Qed.

Lemma results_setup_backends p bl :
  stable same_results (setup_backends p bl).
Proof. unfold setup_backends, new_simulator, print. stable_go. Qed.

Lemma files_warmup_phase args backends :
  stable same_files (warmup_phase args backends).
Proof.
  unfold warmup_phase, make_circuit, benchmark, print. stable_go.
Qed.

Lemma results_warmup_phase args backends :
  stable same_results (warmup_phase args backends).
Proof.
  unfold warmup_phase, make_circuit, benchmark, print. stable_go.
Qed.

Lemma files_sweep args backends sizes :
  stable same_files (sweep args backends sizes).
Proof.
  unfold sweep, make_circuit, print. stable_go. apply files_trial.
Qed.

Lemma results_save_benchmark_data sizes out :
  stable same_results (save_benchmark_data sizes out).
Proof.
  unfold save_benchmark_data, open_w, print. stable_go.
  generalize 0%nat. induction sizes as [|n sizes IH]; intros i; simpl.
  - stable_go.
  - unfold csv_data_row, dict_item, list_item. stable_go.
Qed.

Lemma results_generate_plots sizes out :
  stable same_results (generate_plots sizes out).
Proof.
  unfold generate_plots, speedup_panel, time_panel, np_divide, ax_plot,
    dict_item, print.
  stable_go.
Qed.

(** ** One trial *)

Lemma runs_app evs1 evs2 : runs (evs1 ++ evs2) = runs evs1 ++ runs evs2.
Proof. unfold runs. apply flat_map_app. Qed.

Lemma keys_push_cell name m sd t : keys (push_cell name m sd t) = keys t.
Proof.
  unfold push_cell. destruct (dict_get t name) eqn:E; [|reflexivity].
  apply keys_dict_set_present. eapply dict_get_Some_In; eauto.
Qed.

Lemma dict_get_push_cell_other name name' m sd t :
  name' <> name -> dict_get (push_cell name m sd t) name' = dict_get t name'.
Proof.
  intros Hne. unfold push_cell. destruct (dict_get t name); [|reflexivity].
  now apply dict_get_set_other.
Qed.

Lemma dict_get_push_cell_same name m sd t c :
  dict_get t name = Some c ->
  dict_get (push_cell name m sd t) name
  = Some (mkColumn (times c ++ [m]) (stds c ++ [sd])).
Proof.
  intros E. unfold push_cell. rewrite E. apply dict_get_set_same.
Qed.

(** Appending the mean and then the deviation is pushing one cell. *)
Lemma append_cell name m sd s :
  In name (keys (st_results s)) ->
  (append_times name m ;; append_stds name sd) s
  = (Ret tt, mkState (st_world s) (st_log s)
                     (push_cell name m sd (st_results s)) (st_files s)).
Proof.
  intros Hin. destruct (dict_get_In _ _ Hin) as [c Hc].
  unfold append_times, append_stds, bind, get_results, put_results, push_cell.
  simpl. rewrite Hc. simpl. rewrite dict_get_set_same. simpl.
  now rewrite dict_set_twice.
Qed.

(** The loop of [benchmark] either completes its [n] repeats, and returns
    one duration for each, or stops at the first execution that raises. *)
Lemma benchmark_loop_spec n sim qc acc s :
  exists evs r s',
    benchmark_loop n sim qc acc s = (r, s') /\
    st_log s' = st_log s ++ evs /\
    st_results s' = st_results s /\
    Forall (fun ev => exists r, ev = ERun sim qc r) evs /\
    ((exists ts, r = Ret (acc ++ ts) /\ List.length ts = n /\
                 runs evs = repeat (sim, qc, None) n)
     \/
     (exists k e, (k < n)%nat /\ r = Raise e /\
                  runs evs = repeat (sim, qc, None) k ++ [(sim, qc, Some e)])).
Proof.
  revert acc s. induction n as [|n IH]; intros acc s.
  - exists [], (Ret acc), s. simpl. rewrite !app_nil_r.
    repeat split; auto. left. exists []. now rewrite app_nil_r.
  - simpl. unfold bind, now, simulator_run, call. simpl.
    destruct (time_time (st_world s)) as [t0 w0]. simpl.
    destruct (sim_execute sim qc w0) as [[e|] w1]; simpl.
    + eexists [_], _, _. split; [reflexivity|]. simpl.
      repeat split; eauto. right. exists 0%nat, e. simpl.
      repeat split; auto. lia.
    + destruct (time_time w1) as [t1 w2]. simpl.
      match goal with
      | |- context [benchmark_loop n sim qc ?a ?st] =>
          destruct (IH a st) as (evs & r & s' & Hrun & Hlog & Hres & Hev & Hcase)
      end.
      simpl in Hlog, Hres.
      exists (ERun sim qc None :: evs), r, s'. split; [exact Hrun|].
      rewrite Hlog, <- app_assoc. simpl.
      repeat split; auto.
      * constructor; eauto.
      * destruct Hcase as [(ts & -> & Hlen & Hruns) | (k & e & Hk & -> & Hruns)].
        -- left. exists (fsub t1 t0 :: ts). rewrite <- app_assoc. simpl.
           repeat split; auto. now rewrite Hruns.
        -- right. exists (S k), e. simpl. rewrite Hruns.
           repeat split; auto. lia.
Qed.

Lemma bind_eq_ret {A B : Type} (m : M A) (k : A -> M B) s a s1 :
  m s = (Ret a, s1) -> (x <- m ;; k x) s = k a s1.
Proof. intros H. unfold bind. now rewrite H. Qed.

Lemma bind_eq_raise {A B : Type} (m : M A) (k : A -> M B) s e s1 :
  m s = (Raise e, s1) -> (x <- m ;; k x) s = (Raise e, s1).
Proof. intros H. unfold bind. now rewrite H. Qed.

Lemma append_cell_then {B : Type} name m sd (k : M B) s :
  In name (keys (st_results s)) ->
  (append_times name m ;; append_stds name sd ;; k) s
  = k (mkState (st_world s) (st_log s)
               (push_cell name m sd (st_results s)) (st_files s)).
Proof.
  intros Hin. pose proof (append_cell name m sd s Hin) as H.
  unfold bind in *.
  destruct (append_times name m s) as [[[]|e] s1]; [|discriminate].
  destruct (append_stds name sd s1) as [[[]|e] s2]; [|discriminate].
  now inversion H.
Qed.

(** What a trial does, for any number of repeats. *)
Lemma trial_spec reps qc name sim s :
  In name (keys (st_results s)) ->
  exists evs r s',
    trial reps qc (name, sim) s = (r, s') /\
    st_log s' = st_log s ++ evs /\
    ((exists ts,
        List.length ts = Z.to_nat reps /\
        runs evs = repeat (sim, qc, None) (Z.to_nat reps) /\
        r = Ret tt /\
        st_results s' = push_cell name (np_mean ts) (np_std ts) (st_results s))
     \/
     (exists k e,
        (k < Z.to_nat reps)%nat /\
        runs evs = repeat (sim, qc, None) k ++ [(sim, qc, Some e)] /\
        if is_Exception e
        then r = Ret tt /\
             st_results s' = push_cell name nan nan (st_results s) /\
             In (EPrint (MFailed name e)) evs
        else r = Raise e /\ st_results s' = st_results s)).
Proof.
  intros Hin.
  destruct (benchmark_loop_spec (Z.to_nat reps) sim qc [] s)
    as (evs & r0 & s0 & Hrun & Hlog & Hres & _ & Hcase).
  assert (Hin0 : In name (keys (st_results s0))) by now rewrite Hres.
  destruct Hcase as [(ts & -> & Hlen & Hruns) | (k & e & Hk & -> & Hruns)].
  - (* all the repeats completed *)
    simpl in Hrun.
    pose (cell := (np_mean ts, np_std ts)).
    assert (Hbench : benchmark sim qc reps s = (Ret cell, s0)).
    { unfold benchmark. now rewrite (bind_eq_ret _ _ _ _ _ Hrun). }
    unfold trial, try_except.
    rewrite (bind_eq_ret _ _ _ _ _ Hbench).
    rewrite (append_cell_then _ _ _ _ _ Hin0). simpl fst; simpl snd.
    destruct (1 <? reps);
      (eexists (evs ++ [_]), (Ret tt), _; split; [reflexivity|]; simpl;
       split; [now rewrite Hlog, app_assoc|];
       left; exists ts; rewrite runs_app, Hres; simpl; rewrite app_nil_r;
       repeat split; auto).
  - (* the execution after k completed repeats raised e *)
    assert (Hbench : benchmark sim qc reps s = (Raise e, s0)).
    { unfold benchmark. now rewrite (bind_eq_raise _ _ _ _ _ Hrun). }
    unfold trial, try_except.
    rewrite (bind_eq_raise _ _ _ _ _ Hbench).
    destruct e as [c t| |code].
    + (* an Exception: handled *)
      unfold print at 1.
      rewrite (bind_eq_ret (emit _) _ s0 tt
                 (mkState (st_world s0)
                    (st_log s0 ++ [EPrint (MFailed name (PyException c t))])
                    (st_results s0) (st_files s0)) eq_refl).
      rewrite append_cell; [|exact Hin0].
      eexists (evs ++ [_]), (Ret tt), _. split; [reflexivity|]. simpl.
      split; [now rewrite Hlog, app_assoc|].
      right. exists k, (PyException c t).
      split; [lia|]. rewrite runs_app, Hruns, Hres. cbn [is_Exception].
      split; [now rewrite app_nil_r|]. split; [reflexivity|].
      split; [reflexivity|]. apply in_or_app. right. now left.
    + exists evs, (Raise KeyboardInterrupt), s0. repeat split; auto.
      right. exists k, KeyboardInterrupt. repeat split; auto.
    + exists evs, (Raise (SystemExit code)), s0. repeat split; auto.
      right. exists k, (SystemExit code). repeat split; auto.
Qed.

(** C2.  A trial with at least one repeat either performs all its
    repeats, none of which raises, and records the mean and deviation of
    exactly [reps] durations; or its repeat [k] raises, no later repeat
    is attempted, the durations of the repeats before [k] are dropped,
    and, the exception being an [Exception], the cell recorded is the
    failure cell [(nan, nan)]. *)
Theorem trial_all_or_nothing reps qc name sim s :
  1 <= reps ->
  In name (keys (st_results s)) ->
  exists evs r s',
    trial reps qc (name, sim) s = (r, s') /\
    st_log s' = st_log s ++ evs /\
    ((exists ts,
        Z.of_nat (List.length ts) = reps /\
        runs evs = repeat (sim, qc, None) (Z.to_nat reps) /\
        r = Ret tt /\
        st_results s' = push_cell name (np_mean ts) (np_std ts) (st_results s))
     \/
     (exists k e,
        1 <= k <= reps /\
        runs evs = repeat (sim, qc, None) (Z.to_nat (k - 1))
                   ++ [(sim, qc, Some e)] /\
        if is_Exception e
        then r = Ret tt /\
             st_results s' = push_cell name nan nan (st_results s) /\
             In (EPrint (MFailed name e)) evs
        else r = Raise e /\ st_results s' = st_results s)).
Proof.
  intros Hreps Hin.
  destruct (trial_spec reps qc name sim s Hin)
    as (evs & r & s' & Hrun & Hlog & Hcase).
  exists evs, r, s'. split; [exact Hrun|]. split; [exact Hlog|].
  destruct Hcase as [(ts & Hlen & Hruns & Hr & Ht) | (k & e & Hk & Hruns & He)].
  - left. exists ts. repeat split; auto. lia.
  - right. exists (Z.of_nat (S k)), e.
    replace (Z.to_nat (Z.of_nat (S k) - 1)) with k by lia.
    split; [lia|]. split; [exact Hruns|exact He].
Qed.

(** A trial touches the column of its own backend only, and an
    [Exception] never leaves it. *)
Lemma trial_isolated reps qc name sim s r s' :
  In name (keys (st_results s)) ->
  trial reps qc (name, sim) s = (r, s') ->
  (forall e, r = Raise e -> is_Exception e = false) /\
  keys (st_results s') = keys (st_results s) /\
  (forall other, other <> name ->
     dict_get (st_results s') other = dict_get (st_results s) other) /\
  (r = Ret tt ->
   exists c m sd,
     dict_get (st_results s) name = Some c /\
     dict_get (st_results s') name
     = Some (mkColumn (times c ++ [m]) (stds c ++ [sd]))).
Proof.
  intros Hin Hrun.
  destruct (trial_spec reps qc name sim s Hin)
    as (evs & r1 & s1 & Hrun1 & _ & Hcase).
  rewrite Hrun in Hrun1. inversion Hrun1; subst r1 s1; clear Hrun1.
  destruct (dict_get_In _ _ Hin) as [c Hc].
  assert (Hpush : forall m sd,
             st_results s' = push_cell name m sd (st_results s) ->
             keys (st_results s') = keys (st_results s) /\
             (forall other, other <> name ->
                dict_get (st_results s') other = dict_get (st_results s) other) /\
             exists c m sd,
               dict_get (st_results s) name = Some c /\
               dict_get (st_results s') name
               = Some (mkColumn (times c ++ [m]) (stds c ++ [sd]))).
  { intros m sd ->. split; [apply keys_push_cell|].
    split; [intros; now apply dict_get_push_cell_other|].
    exists c, m, sd. split; [exact Hc|]. now apply dict_get_push_cell_same. }
  destruct Hcase as [(ts & _ & _ & -> & Ht) | (k & e & _ & _ & He)].
  - destruct (Hpush _ _ Ht) as (Hk & Ho & Hn).
    repeat split; auto. discriminate.
  - destruct e as [c0 t0| |code]; cbn [is_Exception] in He.
    + destruct He as (-> & Ht & _). destruct (Hpush _ _ Ht) as (Hk & Ho & Hn).
      repeat split; auto. discriminate.
    + destruct He as (-> & ->). repeat split; auto; try discriminate.
      intros e [= <-]. reflexivity.
    + destruct He as (-> & ->). repeat split; auto; try discriminate.
      intros e [= <-]. reflexivity.
Qed.

(** ** The sweep *)

Lemma grown_refl names t : grown names 0 t t.
Proof.
  split; [reflexivity|]. split; [reflexivity|].
  intros name c _ Hc. exists c. rewrite !Nat.add_0_r. auto.
Qed.

Lemma grown_trans names n1 n2 t1 t2 t3 :
  grown names n1 t1 t2 -> grown names n2 t2 t3 ->
  grown names (n1 + n2) t1 t3.
Proof.
  intros (K1 & O1 & G1) (K2 & O2 & G2). split; [congruence|]. split.
  - intros name Hn. rewrite O2, O1; auto.
  - intros name c Hn Hc. destruct (G1 name c Hn Hc) as (c' & Hc' & L1 & L2).
    destruct (G2 name c' Hn Hc') as (c'' & Hc'' & L3 & L4).
    exists c''. repeat split; auto; lia.
Qed.

Lemma grown_same names t t' : t' = t -> grown names 0 t t'.
Proof. intros ->. apply grown_refl. Qed.

(** One row: every backend of the registry gets one cell. *)
Lemma row_grows reps qc backends s s' :
  NoDup (keys backends) ->
  incl (keys backends) (keys (st_results s)) ->
  for_each backends (trial reps qc) s = (Ret tt, s') ->
  grown (keys backends) 1 (st_results s) (st_results s').
Proof.
  revert s. induction backends as [|[name sim] bs IH]; intros s Hnd Hincl Hrun.
  - simpl in Hrun. inversion Hrun; subst. split; [reflexivity|].
    split; [reflexivity|]. intros name c [].
  - simpl in Hrun. apply bind_ret_inv in Hrun.
    destruct Hrun as ([] & s1 & Htrial & Hrest).
    simpl in Hnd, Hincl. inversion Hnd as [|? ? Hnotin Hnd']; subst.
    assert (Hin : In name (keys (st_results s))) by (apply Hincl; now left).
    destruct (trial_isolated _ _ _ _ _ _ _ Hin Htrial) as (_ & Hk & Ho & Hn).
    destruct (Hn eq_refl) as (c0 & m & sd & Hc0 & Hc1).
    assert (Hincl' : incl (keys bs) (keys (st_results s1))).
    { rewrite Hk. intros x Hx. apply Hincl. now right. }
    destruct (IH s1 Hnd' Hincl' Hrest) as (K & O & G).
    split; [congruence|]. split.
    + intros x Hx. simpl in Hx. rewrite O by tauto. apply Ho. intros ->. tauto.
    + intros x c Hx Hc. destruct Hx as [Heq|Hx].
      * subst x. simpl fst in *. rewrite Hc0 in Hc. inversion Hc; subst c0.
        exists (mkColumn (times c ++ [m]) (stds c ++ [sd])).
        rewrite O by exact Hnotin. split; [exact Hc1|]. simpl.
        rewrite !length_app. simpl. auto.
      * assert (Hne : x <> name) by (intros ->; tauto).
        rewrite <- (Ho x Hne) in Hc. exact (G x c Hx Hc).
Qed.

(** No [Exception] leaves the loop over the backends: what ends a row
    early is an interrupt or an exit. *)
Lemma row_raises_no_Exception reps qc backends s e s' :
  incl (keys backends) (keys (st_results s)) ->
  for_each backends (trial reps qc) s = (Raise e, s') ->
  is_Exception e = false.
Proof.
  revert s. induction backends as [|[name sim] bs IH]; intros s Hincl Hrun.
  - discriminate.
  - simpl in Hrun, Hincl. apply bind_raise_inv in Hrun.
    assert (Hin : In name (keys (st_results s))) by (apply Hincl; now left).
    destruct Hrun as [Hrun | ([] & s1 & Htrial & Hrest)].
    + destruct (trial_isolated _ _ _ _ _ _ _ Hin Hrun) as (He & _). now apply He.
    + destruct (trial_isolated _ _ _ _ _ _ _ Hin Htrial) as (_ & Hk & _).
      apply (IH s1); [|exact Hrest].
      rewrite Hk. intros x Hx. apply Hincl. now right.
Qed.

(** In [benchmarks.py], whatever the CPU execution raises leaves the row
    at once: nothing is recorded for the size and the GPU simulators are
    not run on its circuit. *)
Lemma benchmarks_row_cpu_failure sim_cpu sim_g1 sim_g2 n s e :
  let w1 := snd (build_circuit n Benchmarks.depth Benchmarks.seed (st_world s)) in
  let w2 := snd (time_time w1) in
  let qc := mkCircuit n Benchmarks.depth Benchmarks.seed in
  fst (build_circuit n Benchmarks.depth Benchmarks.seed (st_world s)) = None ->
  fst (sim_execute sim_cpu qc w2) = Some e ->
  Benchmarks.row sim_cpu sim_g1 sim_g2 n s
  = (Raise e,
     mkState (snd (sim_execute sim_cpu qc w2))
             (st_log s ++ [EBuild n Benchmarks.depth Benchmarks.seed None;
                           EPrint (MRunning n); ERun sim_cpu qc (Some e)])
             (st_results s) (st_files s)).
Proof.
  intros w1 w2 qc Hb He. subst w1 w2 qc.
  unfold Benchmarks.row, Benchmarks.benchmark, make_circuit, simulator_run,
    call, bind, now, print, emit, ret, set_world. simpl.
  destruct (build_circuit n Benchmarks.depth Benchmarks.seed (st_world s))
    as [rb wb]. simpl in *. subst rb. simpl.
  destruct (time_time wb) as [t0 wt]. simpl in *.
  destruct (sim_execute sim_cpu (mkCircuit n Benchmarks.depth Benchmarks.seed) wt)
    as [rx wx]. simpl in *. subst rx. simpl.
  now rewrite <- !app_assoc.
Qed.

Lemma results_make_circuit n d sd : stable same_results (make_circuit n d sd).
Proof. unfold make_circuit. stable_go. Qed.

Lemma results_print m : stable same_results (print m).
Proof. apply results_emit. Qed.

(** The sweep that returns has given every backend one cell per size. *)
Lemma sweep_grows args backends sizes s s' :
  NoDup (keys backends) ->
  incl (keys backends) (keys (st_results s)) ->
  sweep args backends sizes s = (Ret tt, s') ->
  grown (keys backends) (List.length sizes) (st_results s) (st_results s').
Proof.
  unfold sweep. revert s.
  induction sizes as [|n sizes IH]; intros s Hnd Hincl Hrun.
  - simpl in Hrun. inversion Hrun; subst. apply grown_refl.
  - simpl in Hrun. apply bind_ret_inv in Hrun.
    destruct Hrun as ([] & s4 & Hrow & Hrest).
    apply bind_ret_inv in Hrow. destruct Hrow as ([] & s1 & Hp1 & Hrow).
    apply bind_ret_inv in Hrow. destruct Hrow as (qc & s2 & Hmk & Hrow).
    apply bind_ret_inv in Hrow. destruct Hrow as ([] & s3 & Hfor & Hp2).
    apply results_print in Hp1. apply results_make_circuit in Hmk.
    apply results_print in Hp2. unfold same_results in *.
    assert (E2 : st_results s2 = st_results s) by congruence.
    rewrite <- E2 in Hincl |- *.
    apply row_grows in Hfor; auto.
    rewrite <- Hp2 in Hfor.
    change (List.length (n :: sizes)) with (1 + List.length sizes)%nat.
    eapply grown_trans; [exact Hfor|].
    apply IH; auto. destruct Hfor as (K & _). now rewrite K.
Qed.

(** [init_results]: one empty column per backend, in registration order. *)
Lemma init_results_spec_aux names acc :
  NoDup (keys acc ++ names) ->
  columns_of_length 0 acc ->
  keys (fold_left (fun d name => dict_set d name (mkColumn [] [])) names acc)
  = keys acc ++ names /\
  columns_of_length 0
    (fold_left (fun d name => dict_set d name (mkColumn [] [])) names acc).
Proof.
  revert acc. induction names as [|name names IH]; intros acc Hnd Hcol; simpl.
  - now rewrite app_nil_r.
  - assert (Hnotin : ~ In name (keys acc)).
    { apply NoDup_remove_2 in Hnd. intros Hin. apply Hnd.
      apply in_or_app. now left. }
    destruct (IH (dict_set acc name (mkColumn [] []))) as (K & C).
    + rewrite keys_dict_set_absent by exact Hnotin.
      rewrite <- app_assoc. exact Hnd.
    + intros x c Hc. destruct (String.eqb_spec x name) as [->|Hne].
      * rewrite dict_get_set_same in Hc. inversion Hc; subst. now simpl.
      * rewrite dict_get_set_other in Hc by exact Hne. eauto.
    + rewrite K, keys_dict_set_absent by exact Hnotin.
      rewrite <- app_assoc. auto.
Qed.

Lemma init_results_spec (backends : list (string * AerSimulator)) :
  NoDup (keys backends) ->
  keys (init_results backends) = keys backends /\
  columns_of_length 0 (init_results backends).
Proof.
  intros Hnd. apply (init_results_spec_aux (keys backends) []); auto.
  intros x c Hc. discriminate.
Qed.

(** ** The registry *)

Lemma new_simulator_run sim s :
  new_simulator sim s
  = (match fst (aer_init sim (st_world s)) with
     | None => Ret sim
     | Some e => Raise e
     end,
     mkState (snd (aer_init sim (st_world s)))
             (st_log s ++ [EInit sim (fst (aer_init sim (st_world s)))])
             (st_results s) (st_files s)).
Proof.
  unfold new_simulator, call, bind, ret.
  destruct (aer_init sim (st_world s)) as [[e|] w]; reflexivity.
Qed.

(** A guarded registration, lines 124-133 and 136-145: the backend is
    added when its constructor returns, left out when it raises an
    [Exception]. *)
Lemma guarded_registration name sim p (backends : list (string * AerSimulator))
      s r s' :
  try_except
    (sim' <- new_simulator sim ;;
     print (MInitOk name p) ;;
     ret (dict_set backends name sim'))
    (fun e => print (MInitWarn name e) ;; ret backends) s = (r, s') ->
  exists evs,
    st_log s' = st_log s ++ evs /\
    ((r = Ret (dict_set backends name sim) /\
      evs = [EInit sim None; EPrint (MInitOk name p)] /\
      fst (aer_init sim (st_world s)) = None)
     \/ (exists c t, r = Ret backends /\
                     evs = [EInit sim (Some (PyException c t));
                            EPrint (MInitWarn name (PyException c t))])
     \/ (exists e, r = Raise e /\ is_Exception e = false /\
                   evs = [EInit sim (Some e)] /\
                   fst (aer_init sim (st_world s)) = Some e)).
Proof.
  unfold try_except, bind. rewrite new_simulator_run.
  destruct (aer_init sim (st_world s)) as [[[c t| |code]|] w]; simpl;
    intros H; inversion H; subst; clear H; simpl;
    eexists; (split; [rewrite <- ?app_assoc; simpl; reflexivity|]).
  - right. left. eauto.
  - right. right. eauto 6.
  - right. right. eauto 6.
  - left. auto.
Qed.

(** The registry that [setup_backends] returns: a selection, in this
    order, of the three backends, each of which was constructed without
    raising. *)
Lemma setup_backends_registry p bl s backends s' :
  setup_backends p bl s = (Ret backends, s') ->
  exists (b1 b2 b3 : bool) evs,
    backends
    = (if b1 then [("cpu", mkSim CPU (Some p) None)] else [])
      ++ (if b2 then [("gpu_default", mkSim GPU (Some p) (Some false))] else [])
      ++ (if b3 then [("gpu_custatevec", mkSim GPU (Some p) (Some true))]
          else []) /\
    st_log s' = st_log s ++ evs /\
    (forall name sim, In (name, sim) backends -> In (EInit sim None) evs).
Proof.
  unfold setup_backends.
  generalize (str_in "all" bl || str_in "cpu" bl).
  generalize (str_in "all" bl || str_in "gpu_default" bl).
  generalize (str_in "all" bl || str_in "gpu_custatevec" bl).
  intros c3 c2 c1 H.
  apply bind_ret_inv in H. destruct H as (bk1 & s1 & H1 & H).
  apply bind_ret_inv in H. destruct H as (bk2 & s2 & H2 & H).
  apply bind_ret_inv in H. destruct H as (bk3 & s3 & H3 & H).
  inversion H; subst bk3 s3; clear H.
  (* the CPU block *)
  assert (B1 : exists (b1 : bool) evs,
             bk1 = (if b1 then [("cpu", mkSim CPU (Some p) None)] else []) /\
             st_log s1 = st_log s ++ evs /\
             (b1 = true -> In (EInit (mkSim CPU (Some p) None) None) evs)).
  { destruct c1.
    - unfold bind in H1. rewrite new_simulator_run in H1.
      destruct (aer_init _ (st_world s)) as [[e|] w]; simpl in H1;
        inversion H1; subst; clear H1.
      exists true. eexists. simpl. rewrite <- app_assoc. simpl.
      repeat split; auto. intros _. now left.
    - inversion H1; subst. exists false, []. rewrite app_nil_r.
      repeat split; auto. discriminate. }
  destruct B1 as (b1 & evs1 & -> & L1 & I1).
  assert (B2 : exists (b2 : bool) evs,
             bk2 = (if b1 then [("cpu", mkSim CPU (Some p) None)] else [])
                   ++ (if b2 then [("gpu_default", mkSim GPU (Some p) (Some false))]
                       else []) /\
             st_log s2 = st_log s1 ++ evs /\
             (b2 = true -> In (EInit (mkSim GPU (Some p) (Some false)) None) evs)).
  { destruct c2.
    - apply guarded_registration in H2.
      destruct H2 as (evs & L & [(E & -> & _) | [(c & t & E & ->) | (e & E & _)]]);
        inversion E; subst; clear E.
      + exists true. eexists. split; [|split; [exact L|intros _; now left]].
        destruct b1; reflexivity.
      + exists false. eexists. split; [|split; [exact L|discriminate]].
        now rewrite app_nil_r.
    - inversion H2; subst. exists false, []. rewrite !app_nil_r.
      repeat split; auto. discriminate. }
  destruct B2 as (b2 & evs2 & -> & L2 & I2).
  assert (B3 : exists (b3 : bool) evs,
             backends
             = (if b1 then [("cpu", mkSim CPU (Some p) None)] else [])
               ++ (if b2 then [("gpu_default", mkSim GPU (Some p) (Some false))]
                   else [])
               ++ (if b3 then [("gpu_custatevec", mkSim GPU (Some p) (Some true))]
                   else []) /\
             st_log s' = st_log s2 ++ evs /\
             (b3 = true -> In (EInit (mkSim GPU (Some p) (Some true)) None) evs)).
  { destruct c3.
    - apply guarded_registration in H3.
      destruct H3 as (evs & L & [(E & -> & _) | [(c & t & E & ->) | (e & E & _)]]);
        inversion E; subst; clear E.
      + exists true. eexists. split; [|split; [exact L|intros _; now left]].
        destruct b1, b2; reflexivity.
      + exists false. eexists. split; [|split; [exact L|discriminate]].
        now rewrite !app_nil_r.
    - inversion H3; subst. exists false, []. rewrite !app_nil_r.
      repeat split; auto. discriminate. }
  destruct B3 as (b3 & evs3 & -> & L3 & I3).
  exists b1, b2, b3, (evs1 ++ evs2 ++ evs3).
  split; [reflexivity|]. split; [now rewrite L3, L2, L1, <- !app_assoc|].
  intros name sim Hin. rewrite !in_app_iff in *.
  destruct Hin as [Hin | [Hin | Hin]].
  - destruct b1; [|contradiction]. destruct Hin as [E|[]].
    inversion E; subst. auto.
  - destruct b2; [|contradiction]. destruct Hin as [E|[]].
    inversion E; subst. auto.
  - destruct b3; [|contradiction]. destruct Hin as [E|[]].
    inversion E; subst. auto.
Qed.

Lemma setup_backends_NoDup p bl s backends s' :
  setup_backends p bl s = (Ret backends, s') -> NoDup (keys backends).
Proof.
  intros H. apply setup_backends_registry in H.
  destruct H as (b1 & b2 & b3 & _ & -> & _).
  destruct b1, b2, b3; simpl;
    repeat (constructor; [simpl; intuition discriminate|]); constructor.
Qed.

#[local] Hint Resolve results_save_benchmark_data results_generate_plots
  results_print : stable.

Lemma results_export_phase args sizes out :
  stable same_results (export_phase args sizes out).
Proof. unfold export_phase. stable_go. Qed.

(** C4.  When [run_benchmarks] returns, the table has the backends that
    were constructed as its keys, in registration order, and each of its
    columns holds exactly one mean and one deviation per size of the
    sweep. *)
Theorem completed_sweep_is_rectangular args s :
  fst (run_benchmarks args s) = Ret tt ->
  exists backends sizes s0 s1,
    (print MBanner ;; emit (EMkdir (output_dir args))) s = (Ret tt, s0) /\
    setup_backends (arg_precision args) (backends_arg args) s0
    = (Ret backends, s1) /\
    py_range (min_qubits args) (max_qubits args + 1) (step args) s1
    = (Ret sizes, s1) /\
    keys (st_results (snd (run_benchmarks args s))) = keys backends /\
    columns_of_length (List.length sizes)
                      (st_results (snd (run_benchmarks args s))).
Proof.
  destruct (run_benchmarks args s) as [r s'] eqn:H. simpl. intros ->.
  unfold run_benchmarks in H.
  apply bind_ret_inv in H. destruct H as ([] & s0a & Hp & H).
  apply bind_ret_inv in H. destruct H as ([] & s0 & Hm & H).
  apply bind_ret_inv in H. destruct H as (backends & s1 & Hsetup & H).
  destruct backends as [|b0 bs] eqn:Eb.
  { apply bind_ret_inv in H. destruct H as ([] & s2 & _ & H). discriminate. }
  rewrite <- Eb in *. clear Eb b0 bs.
  apply bind_ret_inv in H. destruct H as (sizes & s2 & Hrange & H).
  apply bind_ret_inv in H. destruct H as ([] & s3 & Hput & H).
  apply bind_ret_inv in H. destruct H as ([] & s4 & Hwarm & H).
  apply bind_ret_inv in H. destruct H as ([] & s5 & Hstart & H).
  apply bind_ret_inv in H. destruct H as ([] & s6 & Hsweep & Hexport).
  assert (s2 = s1).
  { unfold py_range in Hrange. destruct (step args =? 0); inversion Hrange; auto. }
  subst s2.
  exists backends, sizes, s0, s1.
  split; [now rewrite (bind_eq_ret _ _ _ _ _ Hp)|].
  split; [exact Hsetup|]. split; [exact Hrange|].
  pose proof (setup_backends_NoDup _ _ _ _ _ Hsetup) as Hnd.
  destruct (init_results_spec backends Hnd) as (Hkeys & Hcols).
  assert (E3 : st_results s3 = init_results backends) by (inversion Hput; auto).
  apply results_warmup_phase in Hwarm. apply results_print in Hstart.
  apply results_export_phase in Hexport. unfold same_results in *.
  assert (E5 : st_results s5 = init_results backends) by congruence.
  apply sweep_grows in Hsweep; auto.
  2: { rewrite E5, Hkeys. apply incl_refl. }
  rewrite E5 in Hsweep. rewrite Hexport.
  destruct Hsweep as (K & O & G). split; [congruence|].
  intros name c Hc.
  assert (Hin : In name (keys backends)).
  { rewrite <- Hkeys, <- K. eapply dict_get_Some_In; eauto. }
  rewrite <- Hkeys in Hin. destruct (dict_get_In _ _ Hin) as [c0 Hc0].
  rewrite Hkeys in Hin.
  destruct (G name c0 Hin Hc0) as (c' & Hc' & L1 & L2).
  rewrite Hc in Hc'. inversion Hc'; subst c'.
  destruct (Hcols name c0 Hc0) as (Z1 & Z2). lia.
Qed.

(** ** What may raise what *)

Section RaisesOnly.

Variable P : exn -> Prop.

Lemma only_ret {A : Type} (a : A) : raises_only P (ret a).
Proof. intros s e s' H. discriminate. Qed.

Lemma only_raise {A : Type} (e : exn) : P e -> raises_only P (@raise _ _ A e).
Proof. intros HP s e' s' H. inversion H; subst. exact HP. Qed.

Lemma only_bind {A B : Type} (m : M A) (k : A -> M B) :
  raises_only P m -> (forall a, raises_only P (k a)) ->
  raises_only P (x <- m ;; k x).
Proof.
  intros Hm Hk s e s' H. apply bind_raise_inv in H.
  destruct H as [H | (a & s1 & _ & H)]; [eapply Hm | eapply Hk]; eauto.
Qed.

Lemma only_for_each {A : Type} (l : list A) (body : A -> M unit) :
  (forall x, raises_only P (body x)) -> raises_only P (for_each l body).
Proof.
  intros Hb. induction l as [|x l IH]; simpl.
  - apply only_ret.
  - apply only_bind; auto.
Qed.

Lemma only_fold_m {A B : Type} (l : list A) (acc : B) (body : B -> A -> M B) :
  (forall b x, raises_only P (body b x)) -> raises_only P (fold_m l acc body).
Proof.
  intros Hb. revert acc. induction l as [|x l IH]; intros acc; simpl.
  - apply only_ret.
  - apply only_bind; auto.
Qed.

Lemma only_emit e : raises_only P (emit e).
Proof. intros s e' s' H. discriminate. Qed.

Lemma only_get_results : raises_only P get_results.
Proof. intros s e' s' H. discriminate. Qed.

Lemma only_write_file p a : raises_only P (write_file p a).
Proof. intros s e' s' H. discriminate. Qed.

Lemma only_append_file p t : raises_only P (append_file p t).
Proof. intros s e' s' H. discriminate. Qed.

End RaisesOnly.

Create HintDb only.

#[local] Hint Resolve only_emit only_get_results only_write_file
  only_append_file : only.

Ltac only_go :=
  repeat first
    [ solve [auto with only]
    | match goal with
      | |- forall _, _ => intro
      | |- raises_only _ (let (_, _) := ?x in _) => destruct x
      | |- raises_only _ (match ?x with _ => _ end) => destruct x
      | |- raises_only _ (if ?x then _ else _) => destruct x
      end
    | apply only_ret | apply only_raise; reflexivity | apply only_bind
    | apply only_for_each | apply only_fold_m ].

(** The export adapters call nothing of the world: what they raise is an
    [Exception], never an interrupt. *)
Lemma export_phase_raises args sizes out :
  raises_only (fun e => is_Exception e = true) (export_phase args sizes out).
Proof.
  unfold export_phase, save_benchmark_data, generate_plots, speedup_panel,
    time_panel, np_divide, ax_plot, dict_item, open_w, print.
  only_go.
  generalize 0%nat. induction sizes as [|n sizes IH]; intros i; simpl.
  - only_go.
  - unfold csv_data_row, dict_item, list_item. only_go.
Qed.

(** ** Interrupts *)

Lemma keeps_of_stable {A : Type} (m : M A) :
  stable same_files m -> interrupt_keeps_files m.
Proof. intros H s s' E. exact (H _ _ _ E). Qed.

Lemma keeps_of_only {A : Type} (m : M A) :
  raises_only (fun e => is_Exception e = true) m -> interrupt_keeps_files m.
Proof. intros H s s' E. apply H in E. discriminate. Qed.

Lemma keeps_bind {A B : Type} (m : M A) (k : A -> M B) :
  stable same_files m -> (forall a, interrupt_keeps_files (k a)) ->
  interrupt_keeps_files (x <- m ;; k x).
Proof.
  intros Hm Hk s s' E. apply bind_raise_inv in E.
  destruct E as [E | (a & s1 & E1 & E2)].
  - exact (Hm _ _ _ E).
  - rewrite (Hk _ _ _ E2). exact (Hm _ _ _ E1).
Qed.

Lemma files_print m : stable same_files (print m).
Proof. apply files_emit. Qed.

Lemma files_py_range a b c : stable same_files (py_range a b c).
Proof. unfold py_range. stable_go. Qed.

#[local] Hint Resolve files_print files_py_range files_setup_backends
  files_warmup_phase files_sweep : stable.

Lemma run_benchmarks_interrupted args :
  interrupt_keeps_files (run_benchmarks args).
Proof.
  unfold run_benchmarks.
  apply keeps_bind; [stable_go|intros _].
  apply keeps_bind; [stable_go|intros _].
  apply keeps_bind; [stable_go|intros backends].
  destruct backends as [|b bs].
  - apply keeps_of_stable. stable_go.
  - generalize (b :: bs). clear b bs. intros backends.
    apply keeps_bind; [stable_go|intros sizes].
    apply keeps_bind; [stable_go|intros _].
    apply keeps_bind; [stable_go|intros _].
    apply keeps_bind; [stable_go|intros _].
    apply keeps_bind; [stable_go|intros _].
    apply keeps_of_only, export_phase_raises.
Qed.

(** C6, as the code has it.  When the interrupt of the user leaves
    [run_benchmarks], [main] prints that the benchmark was interrupted and
    exits with status 1, and nothing was exported: the files are the ones
    there were before the run. *)
Theorem interrupted_run_exports_nothing args s :
  fst (run_benchmarks args s) = Raise KeyboardInterrupt ->
  let s1 := snd (run_benchmarks args s) in
  main args s
  = (Raise (SystemExit 1),
     mkState (st_world s1) (st_log s1 ++ [EPrint MInterrupted])
             (st_results s1) (st_files s1)) /\
  exit_status (fst (main args s)) = 1 /\
  st_files (snd (main args s)) = st_files s.
Proof.
  destruct (run_benchmarks args s) as [r s1] eqn:H. simpl. intros ->.
  unfold main. rewrite H. simpl.
  repeat split. exact (run_benchmarks_interrupted args s s1 H).
Qed.

(** ** Before the first trial *)

Lemma logs_print (P : event -> Prop) m : P (EPrint m) -> stable (logs P) (print m).
Proof. apply logs_emit. Qed.

Lemma quiet_print m : stable (logs before_trials) (print m).
Proof. apply logs_print. reflexivity. Qed.

Lemma quiet_mkdir p : stable (logs before_trials) (emit (EMkdir p)).
Proof. apply logs_emit. reflexivity. Qed.

Lemma quiet_new_simulator sim : stable (logs before_trials) (new_simulator sim).
Proof.
  unfold new_simulator. apply stable_bind; [exact _| |intros; apply stable_ret; exact _].
  apply logs_call. reflexivity.
Qed.

#[local] Hint Resolve quiet_print quiet_mkdir quiet_new_simulator : stable.

Lemma quiet_setup_backends p bl :
  stable (logs before_trials) (setup_backends p bl).
Proof. unfold setup_backends. stable_go. Qed.

Lemma quiet_py_range a b c : stable (logs before_trials) (py_range a b c).
Proof. unfold py_range. stable_go. Qed.

Lemma results_py_range a b c : stable same_results (py_range a b c).
Proof. unfold py_range. stable_go. Qed.

#[local] Hint Resolve quiet_setup_backends quiet_py_range results_py_range
  results_setup_backends : stable.

(** The head of [run_benchmarks], up to the registry. *)
Lemma run_benchmarks_head args s r s' :
  run_benchmarks args s = (r, s') ->
  exists s1 r1,
    (print MBanner ;; emit (EMkdir (output_dir args)) ;;
     setup_backends (arg_precision args) (backends_arg args)) s = (r1, s1) /\
    logs before_trials s s1 /\ same_files s s1 /\ same_results s s1 /\
    match r1 with
    | Raise e => r = Raise e /\ s' = s1
    | Ret [] =>
        r = Raise (SystemExit 1) /\
        s' = mkState (st_world s1) (st_log s1 ++ [EPrint MNoBackends])
                     (st_results s1) (st_files s1)
    | Ret backends =>
        (sizes <- py_range (min_qubits args) (max_qubits args + 1) (step args) ;;
         put_results (init_results backends) ;;
         warmup_phase args backends ;;
         print MStart ;;
         sweep args backends sizes ;;
         export_phase args sizes (output_dir args)) s1 = (r, s')
    end.
Proof.
  intros H.
  destruct ((print MBanner ;; emit (EMkdir (output_dir args)) ;;
             setup_backends (arg_precision args) (backends_arg args)) s)
    as [r1 s1] eqn:E.
  exists s1, r1. split; [reflexivity|].
  assert (Hl : stable (logs before_trials)
                 (print MBanner ;; emit (EMkdir (output_dir args)) ;;
                  setup_backends (arg_precision args) (backends_arg args)))
    by stable_go.
  assert (Hf : stable same_files
                 (print MBanner ;; emit (EMkdir (output_dir args)) ;;
                  setup_backends (arg_precision args) (backends_arg args)))
    by stable_go.
  assert (Hr : stable same_results
                 (print MBanner ;; emit (EMkdir (output_dir args)) ;;
                  setup_backends (arg_precision args) (backends_arg args)))
    by stable_go.
  split; [exact (Hl _ _ _ E)|]. split; [exact (Hf _ _ _ E)|].
  split; [exact (Hr _ _ _ E)|].
  unfold run_benchmarks in H. unfold bind at 1 2 in E. unfold bind at 1 2 3 in H.
  unfold print at 1, emit at 1 2 in E. unfold print at 1, emit at 1 2 in H.
  cbv beta iota in E, H.
  match type of E with
  | context [setup_backends ?p ?b ?st] =>
      destruct (setup_backends p b st) as [[backends|e] s1']
  end.
  - inversion E; subst r1 s1'; clear E.
    destruct backends as [|b bs].
    + simpl in H. inversion H; subst. auto.
    + exact H.
  - inversion E; subst r1 s1'; clear E. inversion H; subst. auto.
Qed.

(** What leaves [setup_backends] was raised by a constructor. *)
Lemma setup_backends_raises p bl s e :
  fst (setup_backends p bl s) = Raise e ->
  exists evs sim,
    st_log (snd (setup_backends p bl s)) = st_log s ++ evs /\
    Forall before_trials evs /\
    In (EInit sim (Some e)) evs.
Proof.
  unfold setup_backends, new_simulator, call, bind, try_except, print, emit,
    ret.
  destruct (str_in "all" bl || str_in "cpu" bl);
    destruct (str_in "all" bl || str_in "gpu_default" bl);
    destruct (str_in "all" bl || str_in "gpu_custatevec" bl);
    simpl;
    repeat match goal with
           | |- context [aer_init ?sim ?w] =>
               destruct (aer_init sim w) as [[[? ?| |?]|] ?]; simpl
           end;
    intros H; try discriminate H; inversion H; subst;
    eexists _, _;
    (split; [rewrite <- ?app_assoc; simpl; reflexivity|]);
    (split; [repeat constructor | simpl; auto 10]).
Qed.

(** When the constructor of every backend asked for raises an
    [Exception], the registry comes out empty, or, with the CPU backend
    among those asked for, the exception of its constructor leaves
    [setup_backends]. *)
Lemma setup_backends_requested_fail p bl s r s' :
  (forall name sim,
     In (name, sim) (registry_of p bl) ->
     forall w, exists c t, fst (aer_init sim w) = Some (PyException c t)) ->
  setup_backends p bl s = (r, s') ->
  r = Ret [] \/
  (requested bl "cpu" = true /\ exists c t, r = Raise (PyException c t)).
Proof.
  intros Hall.
  assert (H1 : requested bl "cpu" = true ->
               forall w, exists c t,
                 fst (aer_init (mkSim CPU (Some p) None) w)
                 = Some (PyException c t)).
  { intros Hq. apply (Hall "cpu"). unfold registry_of. rewrite Hq.
    simpl. now left. }
  assert (H2 : requested bl "gpu_default" = true ->
               forall w, exists c t,
                 fst (aer_init (mkSim GPU (Some p) (Some false)) w)
                 = Some (PyException c t)).
  { intros Hq. apply (Hall "gpu_default"). unfold registry_of. rewrite Hq.
    apply in_or_app. right. apply in_or_app. left. now left. }
  assert (H3 : requested bl "gpu_custatevec" = true ->
               forall w, exists c t,
                 fst (aer_init (mkSim GPU (Some p) (Some true)) w)
                 = Some (PyException c t)).
  { intros Hq. apply (Hall "gpu_custatevec"). unfold registry_of. rewrite Hq.
    apply in_or_app. right. apply in_or_app. right. now left. }
  clear Hall. unfold setup_backends.
  change (str_in "all" bl || str_in "cpu" bl) with (requested bl "cpu").
  change (str_in "all" bl || str_in "gpu_default" bl)
    with (requested bl "gpu_default").
  change (str_in "all" bl || str_in "gpu_custatevec" bl)
    with (requested bl "gpu_custatevec").
  revert H1 H2 H3.
  generalize (requested bl "cpu").
  generalize (requested bl "gpu_default").
  generalize (requested bl "gpu_custatevec").
  intros c3 c2 c1 H1 H2 H3 H.
  assert (Hguard : forall name sim st rr st',
             (forall w, exists c t,
                fst (aer_init sim w) = Some (PyException c t)) ->
             try_except
               (sim' <- new_simulator sim ;;
                print (MInitOk name p) ;;
                ret (dict_set [] name sim'))
               (fun e => print (MInitWarn name e) ;; ret []) st = (rr, st') ->
             rr = Ret []).
  { intros name sim st rr st' Hfail E. apply guarded_registration in E.
    destruct (Hfail (st_world st)) as (c & t & Hc).
    destruct E as (evs & _ & [(_ & _ & E) | [(c' & t' & E & _) | (e & _ & E1 & _ & E)]]);
      [congruence|exact E|].
    rewrite Hc in E. inversion E; subst. discriminate. }
  apply bind_inv in H. destruct H as [(bk1 & s1 & Hb1 & H) | (e & Hb1 & ->)].
  - destruct c1.
    { unfold bind in Hb1. rewrite new_simulator_run in Hb1.
      destruct (H1 eq_refl (st_world s)) as (c & t & Hc).
      rewrite Hc in Hb1. discriminate. }
    inversion Hb1; subst bk1 s1; clear Hb1.
    apply bind_inv in H. destruct H as [(bk2 & s2 & Hb2 & H) | (e & Hb2 & ->)].
    + assert (bk2 = []).
      { destruct c2; [apply Hguard in Hb2; auto|]; inversion Hb2; auto. }
      subst bk2.
      apply bind_inv in H. destruct H as [(bk3 & s3 & Hb3 & H) | (e & Hb3 & ->)].
      * assert (bk3 = []).
        { destruct c3; [apply Hguard in Hb3; auto|]; inversion Hb3; auto. }
        subst bk3. inversion H; auto.
      * destruct c3; [apply Hguard in Hb3; auto|]; inversion Hb3.
    + destruct c2; [apply Hguard in Hb2; auto|]; inversion Hb2.
  - destruct c1; [|discriminate].
    unfold bind in Hb1. rewrite new_simulator_run in Hb1.
    destruct (H1 eq_refl (st_world s)) as (c & t & Hc).
    rewrite Hc in Hb1. simpl in Hb1. inversion Hb1; subst. eauto.
Qed.

Lemma main_of_run args s r s1 :
  run_benchmarks args s = (r, s1) ->
  main args s
  = match r with
    | Raise KeyboardInterrupt =>
        (Raise (SystemExit 1),
         mkState (st_world s1) (st_log s1 ++ [EPrint MInterrupted])
                 (st_results s1) (st_files s1))
    | Raise (PyException c t) =>
        (Raise (SystemExit 1),
         mkState (st_world s1)
                 ((st_log s1 ++ [EPrint (MError (PyException c t))])
                  ++ [EPrint MTraceback])
                 (st_results s1) (st_files s1))
    | _ => (r, s1)
    end.
Proof.
  intros H. unfold main. rewrite H. destruct r as [[]|[c t| |code]]; reflexivity.
Qed.

Lemma logs_then (P : event -> Prop) s s1 s' evs :
  logs P s s1 -> st_log s' = st_log s1 ++ evs -> Forall P evs -> logs P s s'.
Proof.
  intros (evs1 & L1 & F1) L F. exists (evs1 ++ evs).
  rewrite L, L1, app_assoc. split; [reflexivity|]. now apply Forall_app.
Qed.

Lemma head_setup args s r1 s1 :
  (print MBanner ;; emit (EMkdir (output_dir args)) ;;
   setup_backends (arg_precision args) (backends_arg args)) s = (r1, s1) ->
  setup_backends (arg_precision args) (backends_arg args)
    (mkState (st_world s)
             ((st_log s ++ [EPrint MBanner]) ++ [EMkdir (output_dir args)])
             (st_results s) (st_files s))
  = (r1, s1).
Proof. intros H. exact H. Qed.

(** C10.  When the constructor of every backend asked for raises an
    [Exception], so that no backend is registered, the process exits with
    status 1; up to there no circuit was built and nothing was executed,
    no table was set up and no file was written.  Unless the CPU backend
    is among those asked for, the run gets to the check of the empty
    registry, whose message is the last thing it prints. *)
Theorem no_backend_no_run args s :
  (forall name sim,
     In (name, sim) (registry_of (arg_precision args) (backends_arg args)) ->
     forall w, exists c t, fst (aer_init sim w) = Some (PyException c t)) ->
  exists s',
    main args s = (Raise (SystemExit 1), s') /\
    exit_status (fst (main args s)) = 1 /\
    logs before_trials s s' /\
    st_results s' = st_results s /\
    st_files s' = st_files s /\
    (requested (backends_arg args) "cpu" = false ->
     exists evs, st_log s' = st_log s ++ evs ++ [EPrint MNoBackends]).
Proof.
  intros Hall.
  destruct (run_benchmarks args s) as [r s1] eqn:E.
  rewrite (main_of_run _ _ _ _ E).
  destruct (run_benchmarks_head _ _ _ _ E)
    as (sh & r1 & Hhead & Hlogs & Hfiles & Hres & Hcase).
  apply head_setup in Hhead.
  destruct (setup_backends_requested_fail _ _ _ _ _ Hall Hhead)
    as [->|(Hcpu & c & t & ->)].
  - destruct Hcase as (-> & ->). eexists. split; [reflexivity|].
    split; [reflexivity|]. simpl. repeat split; auto.
    + eapply logs_then; [exact Hlogs|reflexivity|].
      repeat constructor.
    + intros _. destruct Hlogs as (evs & Hevs & _). exists evs.
      rewrite Hevs. now rewrite app_assoc.
  - destruct Hcase as (-> & ->). eexists. split; [reflexivity|].
    split; [reflexivity|]. simpl. repeat split; auto.
    + eapply logs_then; [exact Hlogs|simpl; now rewrite <- app_assoc|].
      repeat constructor.
    + intros Hno. rewrite Hcpu in Hno. discriminate.
Qed.

(** C3.  The CPU backend is constructed outside any [try]: when its
    constructor raises an [Exception], the exception leaves
    [setup_backends] and [run_benchmarks], and [main] exits with status 1
    after the constructor call; the run does not continue. *)
Theorem cpu_constructor_failure_aborts args s c t :
  str_in "all" (backends_arg args) || str_in "cpu" (backends_arg args) = true ->
  fst (aer_init (mkSim CPU (Some (arg_precision args)) None) (st_world s))
  = Some (PyException c t) ->
  main args s
  = (Raise (SystemExit 1),
     mkState
       (snd (aer_init (mkSim CPU (Some (arg_precision args)) None) (st_world s)))
       (st_log s ++ [EPrint MBanner; EMkdir (output_dir args);
                     EInit (mkSim CPU (Some (arg_precision args)) None)
                           (Some (PyException c t));
                     EPrint (MError (PyException c t)); EPrint MTraceback])
       (st_results s) (st_files s)).
Proof.
  intros Hreq Hfail.
  pose (s0 := mkState (st_world s)
                ((st_log s ++ [EPrint MBanner]) ++ [EMkdir (output_dir args)])
                (st_results s) (st_files s)).
  assert (Hsetup :
            setup_backends (arg_precision args) (backends_arg args) s0
            = (Raise (PyException c t),
               mkState
                 (snd (aer_init (mkSim CPU (Some (arg_precision args)) None)
                                (st_world s)))
                 (st_log s0
                  ++ [EInit (mkSim CPU (Some (arg_precision args)) None)
                            (Some (PyException c t))])
                 (st_results s) (st_files s))).
  { unfold setup_backends. rewrite Hreq.
    apply bind_eq_raise. apply bind_eq_raise.
    rewrite new_simulator_run. simpl. rewrite Hfail. reflexivity. }
  assert (Hrun : run_benchmarks args s
                 = (Raise (PyException c t),
                    mkState
                      (snd (aer_init (mkSim CPU (Some (arg_precision args)) None)
                                     (st_world s)))
                      (st_log s0
                       ++ [EInit (mkSim CPU (Some (arg_precision args)) None)
                                 (Some (PyException c t))])
                      (st_results s) (st_files s))).
  { unfold run_benchmarks.
    rewrite (bind_eq_ret (print MBanner) _ s tt _ eq_refl).
    rewrite (bind_eq_ret (emit _) _ _ tt _ eq_refl).
    apply bind_eq_raise. exact Hsetup. }
  rewrite (main_of_run _ _ _ _ Hrun). simpl.
  rewrite <- !app_assoc. reflexivity.
Qed.

(** C8, as the code has it.  No sweep parameter is validated.  A step of
    zero is fatal before the first trial: nothing is built, executed or
    written, and [main] exits.  With a backend registered the run ends
    through the [ValueError] of [range], which [main] reports before it
    exits with status 1; otherwise it has ended in the setup, and the
    status is 1 unless a constructor has itself raised [SystemExit].  A
    repeat count of zero or less is accepted: the trial executes nothing
    and records, as a timing, the mean and the deviation of an empty
    sample. *)
Theorem unvalidated_parameters args :
  (forall s, step args = 0 ->
     exists code s' evs,
       main args s = (Raise (SystemExit code), s') /\
       st_log s' = st_log s ++ evs /\
       Forall before_trials evs /\
       st_results s' = st_results s /\
       st_files s' = st_files s /\
       (code = 1 \/ exists sim, In (EInit sim (Some (SystemExit code))) evs) /\
       (forall backends,
          fst ((print MBanner ;; emit (EMkdir (output_dir args)) ;;
                setup_backends (arg_precision args) (backends_arg args)) s)
          = Ret backends ->
          backends <> [] ->
          code = 1 /\
          exists evs',
            evs = evs' ++ [EPrint (MError (ValueError
                                             "range() arg 3 must not be zero"));
                           EPrint MTraceback])) /\
  (forall qc name sim s,
     repeats args <= 0 ->
     In name (keys (st_results s)) ->
     trial (repeats args) qc (name, sim) s
     = (Ret tt,
        mkState (st_world s)
                (st_log s ++ [EPrint (MTiming name (np_mean []) None)])
                (push_cell name (np_mean []) (np_std []) (st_results s))
                (st_files s))).
Proof.
  split.
  - intros s Hstep.
    destruct (run_benchmarks args s) as [r s1] eqn:E.
    rewrite (main_of_run _ _ _ _ E).
    destruct (run_benchmarks_head _ _ _ _ E)
      as (sh & r1 & Hhead & Hlogs & Hfiles & Hres & Hcase).
    rewrite Hhead. unfold same_files, same_results in *.
    destruct r1 as [[|b bs]|e].
    + destruct Hcase as (-> & ->). destruct Hlogs as (evs1 & Hevs & Hall).
      eexists 1, _, (evs1 ++ [EPrint MNoBackends]).
      split; [reflexivity|]. simpl.
      split; [rewrite Hevs; now rewrite app_assoc|].
      split; [apply Forall_app; split; [exact Hall|repeat constructor]|].
      split; [exact Hres|]. split; [exact Hfiles|]. split; [now left|].
      intros backends [= <-] Hne. now elim Hne.
    + unfold py_range in Hcase. rewrite Hstep in Hcase. simpl in Hcase.
      inversion Hcase; subst r s1; clear Hcase.
      destruct Hlogs as (evs1 & Hevs & Hall).
      eexists 1, _,
        (evs1 ++ [EPrint (MError (ValueError "range() arg 3 must not be zero"));
                  EPrint MTraceback]).
      split; [reflexivity|]. simpl.
      split; [rewrite Hevs; now rewrite <- !app_assoc|].
      split; [apply Forall_app; split; [exact Hall|repeat constructor]|].
      split; [exact Hres|]. split; [exact Hfiles|]. split; [now left|].
      intros backends _ _. split; [reflexivity|]. now exists evs1.
    + destruct Hcase as (-> & ->).
      pose proof Hhead as Hsetup. apply head_setup in Hsetup.
      match type of Hsetup with
      | setup_backends ?p ?bl ?s0 = _ =>
          destruct (setup_backends_raises p bl s0 e) as (evs0 & sim & L & F & I);
            [now rewrite Hsetup|]; rewrite Hsetup in L
      end.
      simpl in L.
      assert (L' : st_log sh
                   = st_log s ++ [EPrint MBanner; EMkdir (output_dir args)]
                     ++ evs0).
      { rewrite L. now rewrite <- !app_assoc. }
      assert (F' : Forall before_trials
                     ([EPrint MBanner; EMkdir (output_dir args)] ++ evs0)).
      { apply Forall_app. split; [repeat constructor|exact F]. }
      assert (I' : In (EInit sim (Some e))
                      ([EPrint MBanner; EMkdir (output_dir args)] ++ evs0)).
      { apply in_or_app. now right. }
      destruct e as [c t| |code].
      * eexists 1, _,
          (([EPrint MBanner; EMkdir (output_dir args)] ++ evs0)
           ++ [EPrint (MError (PyException c t)); EPrint MTraceback]).
        split; [reflexivity|]. simpl st_log. simpl st_results. simpl st_files.
        split; [rewrite L'; now rewrite <- !app_assoc|].
        split; [apply Forall_app; split; [exact F'|repeat constructor]|].
        split; [exact Hres|]. split; [exact Hfiles|]. split; [now left|].
        intros backends Hb. discriminate Hb.
      * eexists 1, _,
          (([EPrint MBanner; EMkdir (output_dir args)] ++ evs0)
           ++ [EPrint MInterrupted]).
        split; [reflexivity|]. simpl st_log. simpl st_results. simpl st_files.
        split; [rewrite L'; now rewrite <- !app_assoc|].
        split; [apply Forall_app; split; [exact F'|repeat constructor]|].
        split; [exact Hres|]. split; [exact Hfiles|]. split; [now left|].
        intros backends Hb. discriminate Hb.
      * eexists code, _, ([EPrint MBanner; EMkdir (output_dir args)] ++ evs0).
        split; [reflexivity|].
        split; [exact L'|]. split; [exact F'|].
        split; [exact Hres|]. split; [exact Hfiles|].
        split; [right; now exists sim|].
        intros backends Hb. discriminate Hb.
  - intros qc name sim s Hreps Hin.
    unfold trial, try_except, benchmark.
    replace (Z.to_nat (repeats args)) with 0%nat by lia. simpl benchmark_loop.
    rewrite (bind_eq_ret (ts <- ret [] ;; ret (np_mean ts, np_std ts)) _ s
               (np_mean [], np_std []) s eq_refl).
    rewrite (append_cell_then _ _ _ _ _ Hin). simpl fst. simpl snd.
    replace (1 <? repeats args) with false by (symmetry; apply Z.ltb_ge; lia).
    reflexivity.
Qed.

(** ** The warmup *)

Lemma make_circuit_run n d sd s :
  make_circuit n d sd s
  = (match fst (build_circuit n d sd (st_world s)) with
     | None => Ret (mkCircuit n d sd)
     | Some e => Raise e
     end,
     mkState (snd (build_circuit n d sd (st_world s)))
             (st_log s
              ++ [EBuild n d sd (fst (build_circuit n d sd (st_world s)))])
             (st_results s) (st_files s)).
Proof.
  unfold make_circuit, call, bind, ret.
  destruct (build_circuit n d sd (st_world s)) as [[e|] w]; reflexivity.
Qed.

(** One pass of the warmup loop: one execution, whatever it raises. *)
Lemma warmup_one name sim qc s :
  exists evs r s' o,
    try_except (benchmark sim qc 1 ;; print (MWarmupOk name))
               (fun e => print (MWarmupFail name e)) s = (r, s') /\
    st_log s' = st_log s ++ evs /\
    runs evs = [(sim, qc, o)] /\
    match o with
    | None => r = Ret tt
    | Some e =>
        if is_Exception e
        then r = Ret tt /\ In (EPrint (MWarmupFail name e)) evs
        else r = Raise e
    end.
Proof.
  destruct (benchmark_loop_spec 1 sim qc [] s)
    as (evs & r0 & s0 & Hrun & Hlog & _ & _ & Hcase).
  unfold try_except, benchmark. change (Z.to_nat 1) with 1%nat.
  destruct Hcase as [(ts & -> & _ & Hruns) | (k & e & Hk & -> & Hruns)].
  - rewrite (bind_eq_ret _ _ _ _ _
               (bind_eq_ret _ (fun ts => ret (np_mean ts, np_std ts)) _ _ _ Hrun)).
    eexists (evs ++ [_]), (Ret tt), _, None. split; [reflexivity|]. simpl.
    split; [now rewrite Hlog, app_assoc|].
    rewrite runs_app, Hruns. auto.
  - assert (k = 0%nat) by lia. subst k. simpl in Hruns.
    rewrite (bind_eq_raise _ _ _ _ _
               (bind_eq_raise _ (fun ts => ret (np_mean ts, np_std ts)) _ _ _ Hrun)).
    destruct e as [c t| |code].
    + eexists (evs ++ [_]), (Ret tt), _, (Some (PyException c t)).
      split; [reflexivity|]. simpl.
      split; [now rewrite Hlog, app_assoc|].
      rewrite runs_app, Hruns. repeat split; auto.
      apply in_or_app. right. now left.
    + exists evs, (Raise KeyboardInterrupt), s0, (Some KeyboardInterrupt).
      repeat split; auto.
    + exists evs, (Raise (SystemExit code)), s0, (Some (SystemExit code)).
      repeat split; auto.
Qed.

Lemma warmup_loop qc (backends : list (string * AerSimulator)) s :
  exists evs r s',
    for_each backends
      (fun nb =>
         let (name, backend) := (nb : string * AerSimulator) in
         try_except (benchmark backend qc 1 ;; print (MWarmupOk name))
                    (fun e => print (MWarmupFail name e))) s = (r, s') /\
    st_log s' = st_log s ++ evs /\
    Forall (fun ev => forall n d sd o, ev <> EBuild n d sd o) evs /\
    (r = Ret tt ->
     executions evs = map (fun nb => (snd nb, qc)) backends) /\
    (forall e, r = Raise e -> is_Exception e = false) /\
    (forall sim qc' e, In (sim, qc', Some e) (runs evs) ->
       is_Exception e = true ->
       exists name, In (EPrint (MWarmupFail name e)) evs).
Proof.
  revert s. induction backends as [|[name sim] bs IH]; intros s.
  - exists [], (Ret tt), s. simpl. rewrite app_nil_r.
    split; [reflexivity|]. split; [reflexivity|]. split; [constructor|].
    split; [reflexivity|]. split; [discriminate|]. intros ? ? ? [].
  - destruct (warmup_one name sim qc s) as (evs1 & r1 & s1 & o & H1 & L1 & R1 & O1).
    assert (NB : Forall (fun ev => forall n d sd o, ev <> EBuild n d sd o) evs1).
    { destruct (benchmark_loop_spec 1 sim qc [] s)
        as (evs0 & r0 & s0 & Hrun & Hlog & _ & Hev & _).
      unfold try_except, benchmark in H1. change (Z.to_nat 1) with 1%nat in H1.
      unfold bind in H1. rewrite Hrun in H1.
      assert (N0 : Forall (fun ev => forall n d sd o, ev <> EBuild n d sd o) evs0).
      { eapply Forall_impl; [|exact Hev]. intros ev [x ->]. discriminate. }
      destruct r0 as [ts|[c t| |code]]; simpl in H1; inversion H1; subst;
        simpl in L1; rewrite Hlog in L1; rewrite <- ?app_assoc in L1;
        apply app_inv_head in L1; subst evs1; auto;
        apply Forall_app; split; auto; repeat constructor; discriminate. }
    simpl for_each.
    destruct r1 as [[]|e1].
    + destruct (IH s1) as (evs2 & r2 & s2 & H2 & L2 & NB2 & E2 & X2 & W2).
      exists (evs1 ++ evs2), r2, s2.
      split; [now rewrite (bind_eq_ret _ _ _ _ _ H1)|].
      split; [now rewrite L2, L1, app_assoc|].
      split; [now apply Forall_app|].
      split; [|split; [exact X2|]].
      * intros Hr. unfold executions in *. rewrite runs_app, map_app, R1.
        simpl. now rewrite (E2 Hr).
      * intros sim0 qc' e. rewrite runs_app, in_app_iff. intros [Hin|Hin] He.
        -- rewrite R1 in Hin. destruct Hin as [Hin|[]]. inversion Hin; subst.
           rewrite He in O1. exists name. apply in_or_app. left. tauto.
        -- destruct (W2 sim0 qc' e Hin He) as (nm & Hnm). exists nm.
           apply in_or_app. now right.
    + exists evs1, (Raise e1), s1.
      split; [now rewrite (bind_eq_raise _ _ _ _ _ H1)|].
      split; [exact L1|]. split; [exact NB|].
      destruct o as [e|]; [|discriminate].
      destruct (is_Exception e) eqn:Ee; [destruct O1; discriminate|].
      inversion O1; subst e1.
      split; [discriminate|]. split.
      * intros e0 [= <-]. exact Ee.
      * intros sim0 qc' e0. rewrite R1. intros [Hin|[]] He.
        inversion Hin; subst. congruence.
Qed.

(** C7, as the code has it.  With the warmup flag set, one circuit of the
    smallest size is built before the sweep and every registered backend
    executes it once, in registration order; the timing is dropped, the
    table is not touched; an [Exception] raised by an execution is
    logged as a failed warmup and the loop goes on, so that the phase
    returns unless the circuit could not be built or an interrupt or exit
    was raised. *)
Theorem warmup_once_per_backend args backends s :
  warmup args = true ->
  exists evs r s',
    warmup_phase args backends s = (r, s') /\
    st_log s' = st_log s ++ evs /\
    st_results s' = st_results s /\
    (r = Ret tt ->
     executions evs
     = map (fun nb => (snd nb, mkCircuit (min_qubits args) (depth args)
                                         (seed args))) backends) /\
    (forall sim qc e, In (sim, qc, Some e) (runs evs) ->
       is_Exception e = true ->
       exists name, In (EPrint (MWarmupFail name e)) evs) /\
    (forall e, r = Raise e ->
       is_Exception e = false \/
       In (EBuild (min_qubits args) (depth args) (seed args) (Some e)) evs).
Proof.
  intros Hw.
  destruct (warmup_phase args backends s) as [r s'] eqn:E.
  pose proof (results_warmup_phase args backends s r s' E) as Hres.
  exists (skipn (List.length (st_log s)) (st_log s')), r, s'.
  split; [reflexivity|].
  unfold warmup_phase in E. rewrite Hw in E.
  rewrite (bind_eq_ret (print MWarmupStart) _ s tt _ eq_refl) in E.
  apply bind_inv in E. rewrite make_circuit_run in E. simpl st_world in E.
  destruct E as [(qc & s1 & Hmk & E) | (e & Hmk & ->)];
    destruct (build_circuit (min_qubits args) (depth args) (seed args)
                            (st_world s)) as [[e'|] w];
    simpl in Hmk; inversion Hmk; subst; clear Hmk.
  - (* the circuit was built: the loop runs *)
    match type of E with
    | (for_each _ _ ;; _) ?st = _ =>
        destruct (warmup_loop (mkCircuit (min_qubits args) (depth args) (seed args))
                              backends st)
          as (evs & r1 & s1 & H1 & L1 & NB & E1 & X1 & W1)
    end.
    simpl in L1. apply bind_inv in E. rewrite H1 in E.
    destruct E as [([] & s2 & Hloop & E) | (e & Hloop & ->)];
      inversion Hloop; subst; clear Hloop.
    + inversion E; subst r s'; clear E. simpl st_log.
      rewrite L1, <- !app_assoc, skipn_app, skipn_all, Nat.sub_diag. simpl.
      split; [reflexivity|]. split; [exact Hres|].
      split; [|split; [|discriminate]].
      * intros _. unfold executions, runs in *. simpl.
        rewrite flat_map_app. simpl. rewrite app_nil_r. now apply E1.
      * intros sim qc e. unfold runs in *. simpl.
        rewrite flat_map_app. simpl. rewrite app_nil_r.
        intros Hin He. destruct (W1 sim qc e Hin He) as (nm & Hnm). exists nm.
        right. right. apply in_or_app. now left.
    + rewrite L1, <- !app_assoc, skipn_app, skipn_all, Nat.sub_diag. simpl.
      split; [reflexivity|]. split; [exact Hres|].
      split; [discriminate|]. split.
      * intros sim qc e0 Hin He. destruct (W1 sim qc e0 Hin He) as (nm & Hnm).
        exists nm. right. right. exact Hnm.
      * intros e0 [= <-]. left. now apply X1.
  - (* building the circuit raised *)
    simpl st_log. rewrite <- !app_assoc, skipn_app, skipn_all, Nat.sub_diag.
    simpl. split; [reflexivity|]. split; [exact Hres|].
    split; [discriminate|]. split.
    + intros sim qc e0 [].
    + intros e0 [= <-]. right. right. now left.
Qed.

(** ** The tabular export *)

Lemma string_app_assoc (a b c : string) :
  ((a ++ b) ++ c)%string = (a ++ b ++ c)%string.
Proof. induction a as [|x a IH]; simpl; [reflexivity|now rewrite IH]. Qed.

Lemma string_app_nil_r (a : string) : (a ++ "")%string = a.
Proof. induction a as [|x a IH]; simpl; [reflexivity|now rewrite IH]. Qed.

Lemma string_app_inv_head (a b c : string) :
  (a ++ b)%string = (a ++ c)%string -> b = c.
Proof. induction a as [|x a IH]; simpl; [auto|]. intros [= H]. auto. Qed.

Lemma dict_set_same_value {A : Type} (d : list (string * A)) k v :
  dict_get d k = Some v -> dict_set d k v = d.
Proof.
  induction d as [|[k0 v0] d IH]; simpl; [discriminate|].
  destruct (String.eqb_spec k k0) as [->|Hne].
  - intros [= ->]. reflexivity.
  - intros H. now rewrite IH.
Qed.

Lemma free_ret {A : Type} (a : A) : state_free (ret a).
Proof. exists (Ret a). reflexivity. Qed.

Lemma free_raise {A : Type} (e : exn) : state_free (@raise _ _ A e).
Proof. exists (Raise e). reflexivity. Qed.

Lemma free_bind {A B : Type} (m : M A) (k : A -> M B) :
  state_free m -> (forall a, state_free (k a)) -> state_free (x <- m ;; k x).
Proof.
  intros [r Hm] Hk. destruct r as [a|e].
  - destruct (Hk a) as [r' Hr']. exists r'. intros s. unfold bind.
    now rewrite Hm, Hr'.
  - exists (Raise e). intros s. unfold bind. now rewrite Hm.
Qed.

Lemma free_fold_m {A B : Type} (l : list A) (acc : B) (body : B -> A -> M B) :
  (forall b x, state_free (body b x)) -> state_free (fold_m l acc body).
Proof.
  intros Hb. revert acc. induction l as [|x l IH]; intros acc; simpl.
  - apply free_ret.
  - apply free_bind; auto.
Qed.

Lemma free_dict_item {A : Type} (d : list (string * A)) k :
  state_free (dict_item d k).
Proof. unfold dict_item. destruct (dict_get d k); [apply free_ret|apply free_raise]. Qed.

Lemma free_list_item {A : Type} (l : list A) i : state_free (list_item l i).
Proof. unfold list_item. destruct (nth_error l i); [apply free_ret|apply free_raise]. Qed.

Lemma free_csv_data_row results i n : state_free (csv_data_row results i n).
Proof.
  unfold csv_data_row. apply free_fold_m. intros row name.
  repeat (apply free_bind; [auto using free_dict_item, free_list_item|intros ?]).
  apply free_ret.
Qed.

(** The rows written depend on the table and the sizes only, and are
    appended to what the file holds. *)
Lemma write_rows_run csv results sizes :
  forall i, exists r text, forall s t0,
    dict_get (st_files s) csv = Some (CsvFile t0) ->
    write_rows csv results i sizes s
    = (r, with_file csv (CsvFile (t0 ++ text)%string) s).
Proof.
  assert (Hsame : forall s t0,
             dict_get (st_files s) csv = Some (CsvFile t0) ->
             with_file csv (CsvFile (t0 ++ "")%string) s = s).
  { intros [w l t f] t0 H. unfold with_file. simpl in *.
    rewrite string_app_nil_r, dict_set_same_value; auto. }
  induction sizes as [|n sizes IH]; intros i; simpl.
  - exists (Ret tt), ""%string. intros s t0 H. now rewrite Hsame.
  - destruct (free_csv_data_row results i n) as [[row|e] Hrow].
    + destruct (IH (S i)) as (r & text & Hrest).
      exists r, (writerow row ++ text)%string. intros s t0 H.
      rewrite (bind_eq_ret _ _ _ _ _ (Hrow s)).
      unfold bind, append_file. rewrite H.
      rewrite (Hrest _ (t0 ++ writerow row)%string).
      * unfold with_file. simpl. now rewrite dict_set_twice, string_app_assoc.
      * simpl. apply dict_get_set_same.
    + exists (Raise e), ""%string. intros s t0 H.
      rewrite (bind_eq_raise _ _ _ _ _ (Hrow s)). now rewrite Hsame.
Qed.

(** What [save_benchmark_data] returns and writes is a function of the
    table and of the sizes. *)
Lemma save_benchmark_data_run results sizes out :
  exists r text, forall s,
    st_results s = results ->
    save_benchmark_data sizes out s
    = (r,
       mkState (st_world s)
               (st_log s
                ++ match r with
                   | Ret _ => [EPrint (MSavedData
                                 (path_join out "benchmark_results.csv"))]
                   | Raise _ => []
                   end)
               (st_results s)
               (dict_set (st_files s) (path_join out "benchmark_results.csv")
                         (CsvFile text))).
Proof.
  destruct (write_rows_run (path_join out "benchmark_results.csv") results sizes 0)
    as (r & text & Hrows).
  exists r, (writerow (csv_headers results) ++ text)%string. intros s <-.
  unfold save_benchmark_data.
  unfold bind at 1, get_results. cbv beta iota.
  unfold bind at 1, open_w, write_file. cbv beta iota.
  unfold bind at 1, append_file. cbv beta iota. simpl st_files.
  rewrite dict_get_set_same. simpl st_world. simpl st_log. simpl st_results.
  rewrite dict_set_twice. unfold bind.
  rewrite (Hrows _ (writerow (csv_headers (st_results s)))).
  2: { simpl. apply dict_get_set_same. }
  unfold with_file. simpl. rewrite dict_set_twice.
  destruct r as [[]|e]; simpl; [reflexivity|now rewrite app_nil_r].
Qed.

(** C9.  Exporting the table a second time returns what the first export
    returned and leaves every file, the CSV file among them, with the
    content the first export gave it. *)
Theorem export_twice_identical sizes out s :
  let first := save_benchmark_data sizes out s in
  let second := save_benchmark_data sizes out (snd first) in
  fst second = fst first /\
  st_files (snd second) = st_files (snd first) /\
  (exists text,
     dict_get (st_files (snd first)) (path_join out "benchmark_results.csv")
     = Some (CsvFile text)) /\
  st_results (snd second) = st_results s.
Proof.
  destruct (save_benchmark_data_run (st_results s) sizes out) as (r & text & H).
  intros first second. subst first second.
  rewrite (H s eq_refl). simpl snd. rewrite H by reflexivity. simpl.
  rewrite dict_set_twice. repeat split; auto.
  exists text. apply dict_get_set_same.
Qed.

(** ** The plots *)

Lemma length_quotients a b :
  List.length a = List.length b -> List.length (quotients a b) = List.length a.
Proof.
  intros H. unfold quotients. rewrite length_map, length_combine. lia.
Qed.

Lemma nth_error_quotients a b i x y :
  nth_error a i = Some x -> nth_error b i = Some y ->
  nth_error (quotients a b) i = Some (fdiv x y).
Proof.
  revert b i. induction a as [|x0 a IH]; intros [|y0 b] [|i]; simpl;
    try discriminate.
  - intros [= ->] [= ->]. reflexivity.
  - apply IH.
Qed.

Lemma np_divide_same_length a b s :
  List.length a = List.length b -> np_divide a b s = (Ret (quotients a b), s).
Proof.
  intros H. unfold np_divide. rewrite H, Nat.eqb_refl. reflexivity.
Qed.

Lemma ax_plot_same_length ax label xs ys fig s :
  List.length xs = List.length ys ->
  ax_plot ax label xs ys fig s = (Ret (fig ++ [Plot ax label xs ys]), s).
Proof.
  intros H. unfold ax_plot. rewrite H, Nat.eqb_refl. reflexivity.
Qed.

Lemma dict_get_Some_In_item {A : Type} (d : list (string * A)) k v :
  dict_get d k = Some v -> In (k, v) d.
Proof.
  induction d as [|[k0 v0] d IH]; simpl; [discriminate|].
  destruct (String.eqb_spec k k0) as [->|Hne].
  - intros [= ->]. now left.
  - intros H. right. auto.
Qed.

Lemma speedup_fold cpu_times sizes (items : table) fig s :
  List.length cpu_times = List.length sizes ->
  finished sizes items ->
  fold_m items fig
    (fun fig item =>
       let (name, data) := (item : string * column) in
       if negb (String.eqb name "cpu") then
         speedup <- np_divide cpu_times (times data) ;;
         ax_plot ax1 (name ++ " vs CPU")%string sizes speedup fig
       else ret fig) s
  = (Ret (fig ++ speedup_lines cpu_times sizes items), s).
Proof.
  intros Hcpu. revert fig.
  induction items as [|[name data] items IH]; intros fig Hfin; simpl.
  - now rewrite app_nil_r.
  - assert (Hd : List.length (times data) = List.length sizes)
      by (apply (Hfin name); now left).
    assert (Hrest : finished sizes items)
      by (intros n c Hin; apply (Hfin n); now right).
    destruct (negb (String.eqb name "cpu")).
    + erewrite bind_eq_ret.
      2: { erewrite bind_eq_ret; [|apply np_divide_same_length; congruence].
           apply ax_plot_same_length. rewrite length_quotients; congruence. }
      rewrite IH by exact Hrest. now rewrite <- app_assoc.
    + erewrite bind_eq_ret by reflexivity. now rewrite IH by exact Hrest.
Qed.

Lemma time_fold sizes (items : table) fig s :
  finished sizes items ->
  time_panel items sizes fig s = (Ret (fig ++ time_lines sizes items), s).
Proof.
  unfold time_panel. revert fig.
  induction items as [|[name data] items IH]; intros fig Hfin; simpl.
  - now rewrite app_nil_r.
  - erewrite bind_eq_ret.
    2: { apply ax_plot_same_length. symmetry. apply (Hfin name). now left. }
    rewrite IH by (intros n c Hin; apply (Hfin n); now right).
    now rewrite <- app_assoc.
Qed.

Lemma generate_plots_finished sizes out s :
  finished sizes (st_results s) ->
  generate_plots sizes out s
  = (Ret tt,
     mkState (st_world s)
       (st_log s ++ [EPrint MGeneratingPlots;
                     EPrint (MSavedPlot (path_join out "benchmark_comparison.png"))])
       (st_results s)
       (dict_set
          (dict_set (st_files s) (path_join out "benchmark_comparison.png")
                    (FigureFile (figure_of sizes (st_results s))))
          (path_join out "benchmark_comparison.pdf")
          (FigureFile (figure_of sizes (st_results s))))).
Proof.
  intros Hfin. unfold generate_plots.
  rewrite (bind_eq_ret (print MGeneratingPlots) _ s tt _ eq_refl).
  erewrite bind_eq_ret by reflexivity.
  assert (Hpanel : forall st,
             speedup_panel (st_results s) sizes st
             = (Ret match dict_get (st_results s) "cpu" with
                    | Some cpu => speedup_lines (times cpu) sizes (st_results s)
                                  ++ [Axhline ax1 1 "No speedup"]
                    | None => []
                    end, st)).
  { intros st. unfold speedup_panel, dict_mem, dict_item.
    destruct (dict_get (st_results s) "cpu") as [cpu|] eqn:Ecpu; [|reflexivity].
    erewrite bind_eq_ret by reflexivity.
    erewrite bind_eq_ret; [reflexivity|].
    rewrite speedup_fold; auto.
    apply (Hfin "cpu"). now apply dict_get_Some_In_item. }
  erewrite bind_eq_ret by apply Hpanel.
  erewrite bind_eq_ret by (apply time_fold; exact Hfin).
  unfold bind, write_file, print, emit. simpl. unfold figure_of.
  now rewrite <- app_assoc.
Qed.

Lemma comparison_paths_differ out :
  path_join out "benchmark_comparison.png"
  <> path_join out "benchmark_comparison.pdf".
Proof.
  unfold path_join. intros H. apply string_app_inv_head in H. discriminate.
Qed.

(** C5, as the code has it.  On a finished table, drawing the plots
    returns and leaves the table as it was.  Where the table has no [cpu]
    column, the figure has no speedup series.  Where it has one, every
    other backend has a speedup series over all the sizes, with one point
    per size, and, float division giving NaN when an operand is NaN, the
    point of a size at which either cell is a failure is NaN: the failure
    is passed on to the chart as a NaN point. *)
Theorem speedup_of_failure_is_nan sizes out s :
  (forall x, fdiv nan x = nan) ->
  (forall x, fdiv x nan = nan) ->
  finished sizes (st_results s) ->
  exists fig s',
    generate_plots sizes out s = (Ret tt, s') /\
    st_results s' = st_results s /\
    dict_get (st_files s') (path_join out "benchmark_comparison.png")
    = Some (FigureFile fig) /\
    (dict_get (st_results s) "cpu" = None ->
     forall label xs ys, ~ In (Plot ax1 label xs ys) fig) /\
    (forall cpu name c,
       dict_get (st_results s) "cpu" = Some cpu ->
       In (name, c) (st_results s) ->
       name <> "cpu" ->
       exists ys,
         In (Plot ax1 (name ++ " vs CPU")%string sizes ys) fig /\
         List.length ys = List.length sizes /\
         forall i,
           nth_error (times cpu) i = Some nan \/ nth_error (times c) i = Some nan ->
           nth_error ys i = Some nan).
Proof.
  intros Hnl Hnr Hfin.
  exists (figure_of sizes (st_results s)). eexists.
  split; [apply generate_plots_finished; exact Hfin|]. simpl.
  split; [reflexivity|]. split.
  { rewrite dict_get_set_other by apply comparison_paths_differ.
    apply dict_get_set_same. }
  split.
  - intros Hcpu label xs ys Hin. unfold figure_of in Hin. rewrite Hcpu in Hin.
    simpl in Hin. unfold time_lines in Hin. apply in_map_iff in Hin.
    destruct Hin as (item & Hitem & _). discriminate.
  - intros cpu name c Hcpu Hin Hne.
    assert (Lcpu : List.length (times cpu) = List.length sizes)
      by (apply (Hfin "cpu"); now apply dict_get_Some_In_item).
    assert (Lc : List.length (times c) = List.length sizes)
      by (apply (Hfin name); exact Hin).
    exists (quotients (times cpu) (times c)). split; [|split].
    + unfold figure_of. rewrite Hcpu. apply in_or_app. left.
      apply in_or_app. left. unfold speedup_lines. apply in_flat_map.
      exists (name, c). split; [exact Hin|]. simpl.
      destruct (String.eqb_spec name "cpu"); [contradiction|]. now left.
    + rewrite length_quotients; congruence.
    + intros i [Hi|Hi].
      * destruct (nth_error (times c) i) as [y|] eqn:Ey.
        -- rewrite (nth_error_quotients _ _ _ _ _ Hi Ey). now rewrite Hnl.
        -- apply nth_error_None in Ey.
           assert (i < List.length (times cpu))%nat
             by (apply nth_error_Some; congruence).
           lia.
      * destruct (nth_error (times cpu) i) as [x|] eqn:Ex.
        -- rewrite (nth_error_quotients _ _ _ _ _ Ex Hi). now rewrite Hnr.
        -- apply nth_error_None in Ex.
           assert (i < List.length (times c))%nat
             by (apply nth_error_Some; congruence).
           lia.
Qed.

(** ** The sizes of the sweep *)

Lemma range_sorted start stp a len :
  0 < stp ->
  StronglySorted Z.lt
    (map (fun i => start + Z.of_nat i * stp) (seq a len)).
Proof.
  intros Hs. revert a. induction len as [|len IH]; intros a; simpl.
  - constructor.
  - constructor; [apply IH|].
    apply Forall_forall. intros x Hx. apply in_map_iff in Hx.
    destruct Hx as (i & <- & Hi). apply in_seq in Hi. nia.
Qed.

(** X1.  With a positive step the sizes of the sweep,
    [range(min_qubits, max_qubits + 1, step)], are in increasing order
    and are exactly the numbers from [min_qubits] to [max_qubits], both
    included, that lie a multiple of the step above [min_qubits]. *)
Theorem sweep_sizes_in_bounds args s sizes :
  0 < step args ->
  fst (py_range (min_qubits args) (max_qubits args + 1) (step args) s)
  = Ret sizes ->
  StronglySorted Z.lt sizes /\
  forall n, In n sizes <->
            min_qubits args <= n <= max_qubits args /\
            (n - min_qubits args) mod step args = 0.
Proof.
  intros Hs. unfold py_range.
  destruct (Z.eqb_spec (step args) 0) as [E|_]; [lia|]. simpl.
  intros [= <-]. split; [now apply range_sorted|].
  set (lo := min_qubits args). set (hi := max_qubits args).
  set (st := step args) in *.
  assert (Hlen : Z.of_nat (Z.to_nat (range_len lo (hi + 1) st))
                 = if lo <=? hi then (hi - lo) / st + 1 else 0).
  { unfold range_len. destruct (Z.ltb_spec 0 st); [|lia].
    destruct (Z.ltb_spec lo (hi + 1)); destruct (Z.leb_spec lo hi); try lia.
    replace (hi + 1 - lo - 1) with (hi - lo) by lia.
    assert (0 <= (hi - lo) / st) by (apply Z.div_pos; lia). lia. }
  intros n. rewrite in_map_iff. split.
  - intros (i & <- & Hi). apply in_seq in Hi.
    destruct (Z.leb_spec lo hi); [|lia].
    assert (Hq : st * ((hi - lo) / st) <= hi - lo)
      by (apply Z.mul_div_le; lia).
    split; [nia|].
    replace (lo + Z.of_nat i * st - lo) with (Z.of_nat i * st) by lia.
    apply Z.mod_mul. lia.
  - intros ((Hlo & Hhi) & Hmod).
    apply Z.mod_divide in Hmod; [|lia]. destruct Hmod as (k & Hk).
    assert (0 <= k) by nia.
    exists (Z.to_nat k). split; [rewrite Z2Nat.id by lia; lia|].
    apply in_seq. split; [lia|]. simpl.
    destruct (Z.leb_spec lo hi); [|lia].
    assert (Hq : hi - lo < st * ((hi - lo) / st + 1)).
    { pose proof (Z.mul_succ_div_gt (hi - lo) st Hs). lia. }
    assert (k < (hi - lo) / st + 1) by nia. lia.
Qed.

(** A range that runs the wrong way is empty: an upper bound below the
    lower one with a positive step, or a negative step with the bounds in
    order. *)
Lemma range_of_inverted_bounds args s :
  (0 < step args /\ max_qubits args < min_qubits args) \/
  (step args < 0 /\ min_qubits args <= max_qubits args) ->
  py_range (min_qubits args) (max_qubits args + 1) (step args) s = (Ret [], s).
Proof.
  unfold py_range, range_len. intros [(Hs & Hlt) | (Hs & Hle)].
  - destruct (Z.eqb_spec (step args) 0); [lia|].
    destruct (Z.ltb_spec 0 (step args)); [|lia].
    destruct (Z.ltb_spec (min_qubits args) (max_qubits args + 1)); [lia|].
    reflexivity.
  - destruct (Z.eqb_spec (step args) 0); [lia|].
    destruct (Z.ltb_spec 0 (step args)); [lia|].
    destruct (Z.ltb_spec (max_qubits args + 1) (min_qubits args)); [lia|].
    reflexivity.
Qed.

(** ** The registry, again *)

(** X3.  When no constructor raises, the registry holds exactly the
    backends asked for, by name or by [all], in the fixed order [cpu],
    [gpu_default], [gpu_custatevec] whatever their order on the command
    line, each built once with the precision asked for; no other
    simulator is constructed. *)
Theorem setup_backends_all_succeed p bl s :
  (forall sim w, fst (aer_init sim w) = None) ->
  fst (setup_backends p bl s) = Ret (registry_of p bl) /\
  exists evs,
    st_log (snd (setup_backends p bl s)) = st_log s ++ evs /\
    inits evs = map (fun nb => (snd nb, None)) (registry_of p bl).
Proof.
  intros Hok. unfold setup_backends, registry_of, requested.
  destruct (str_in "all" bl || str_in "cpu" bl);
    destruct (str_in "all" bl || str_in "gpu_default" bl);
    destruct (str_in "all" bl || str_in "gpu_custatevec" bl);
    unfold bind, try_except;
    repeat (cbn -[new_simulator]; rewrite new_simulator_run, Hok);
    cbn; (split; [reflexivity|]);
    first [ exists []; rewrite app_nil_r; split; reflexivity
          | eexists; rewrite <- ?app_assoc; split; reflexivity ].
Qed.

(** The unguarded registration, lines 115-121. *)
Lemma unguarded_registration name sim p (backends : list (string * AerSimulator))
      s r s' :
  (sim' <- new_simulator sim ;;
   print (MInitOk name p) ;;
   ret (dict_set backends name sim')) s = (r, s') ->
  exists evs,
    st_log s' = st_log s ++ evs /\
    ((r = Ret (dict_set backends name sim) /\
      evs = [EInit sim None; EPrint (MInitOk name p)])
     \/ (exists e, r = Raise e /\ evs = [EInit sim (Some e)])).
Proof.
  unfold bind. rewrite new_simulator_run.
  destruct (aer_init sim (st_world s)) as [[e|] w]; simpl;
    intros H; inversion H; subst; clear H; simpl;
    eexists; (split; [rewrite <- ?app_assoc; simpl; reflexivity|]).
  - right. eauto.
  - left. auto.
Qed.

(** X4.  Of what the constructors raise, [setup_backends] lets through
    what the CPU constructor raises, and interrupts and exits; an
    [Exception] of a GPU constructor is logged as a warning and the
    backend left out.  The backends it returns are those whose
    constructor was called and returned. *)
Theorem setup_backends_outcomes p bl s :
  exists evs,
    st_log (snd (setup_backends p bl s)) = st_log s ++ evs /\
    (forall e, fst (setup_backends p bl s) = Raise e ->
       is_Exception e = false \/
       In (mkSim CPU (Some p) None, Some e) (inits evs)) /\
    (forall sim e, In (sim, Some e) (inits evs) ->
       sim_device sim = GPU -> is_Exception e = true ->
       exists name, In (EPrint (MInitWarn name e)) evs) /\
    (forall backends name sim,
       fst (setup_backends p bl s) = Ret backends ->
       In (name, sim) backends ->
       In (sim, None) (inits evs) /\
       forall e, ~ In (sim, Some e) (inits evs)).
Proof.
  destruct (setup_backends p bl s) as [r s'] eqn:H. simpl.
  unfold setup_backends in H.
  revert H.
  generalize (str_in "all" bl || str_in "cpu" bl).
  generalize (str_in "all" bl || str_in "gpu_default" bl).
  generalize (str_in "all" bl || str_in "gpu_custatevec" bl).
  intros c3 c2 c1 H.
  (* the three blocks, each with the events it logs *)
  assert (G : forall c name sim (bk : list (string * AerSimulator)) st rr st',
             (if c : bool then
                try_except
                  (sim' <- new_simulator sim ;;
                   print (MInitOk name p) ;;
                   ret (dict_set bk name sim'))
                  (fun e => print (MInitWarn name e) ;; ret bk)
              else ret bk) st = (rr, st') ->
             exists evs,
               st_log st' = st_log st ++ evs /\
               ((rr = Ret (dict_set bk name sim) /\
                 evs = [EInit sim None; EPrint (MInitOk name p)])
                \/ (rr = Ret bk /\ evs = [])
                \/ (exists c0 t0, rr = Ret bk /\
                      evs = [EInit sim (Some (PyException c0 t0));
                             EPrint (MInitWarn name (PyException c0 t0))])
                \/ (exists e, rr = Raise e /\ is_Exception e = false /\
                      evs = [EInit sim (Some e)]))).
  { intros [|] name sim bk st rr st' E.
    - apply guarded_registration in E.
      destruct E as (evs & L & [(Hr & Hev & _) | [(c0 & t0 & Hr & Hev) | (e & Hr & He & Hev & _)]]);
        exists evs; (split; [exact L|]).
      + left. auto.
      + right. right. left. eauto.
      + right. right. right. eauto.
    - inversion E; subst. exists []. rewrite app_nil_r. eauto. }
  assert (U : forall st rr st',
             (if c1 then
                sim <- new_simulator (mkSim CPU (Some p) None) ;;
                print (MInitOk "cpu" p) ;;
                ret (dict_set [] "cpu" sim)
              else ret []) st = (rr, st') ->
             exists evs,
               st_log st' = st_log st ++ evs /\
               ((rr = Ret [("cpu", mkSim CPU (Some p) None)] /\
                 evs = [EInit (mkSim CPU (Some p) None) None;
                        EPrint (MInitOk "cpu" p)])
                \/ (rr = Ret [] /\ evs = [])
                \/ (exists e, rr = Raise e /\
                      evs = [EInit (mkSim CPU (Some p) None) (Some e)]))).
  { intros st rr st' E. destruct c1.
    - apply unguarded_registration in E.
      destruct E as (evs & L & [(Hr & Hev) | (e & Hr & Hev)]);
        exists evs; (split; [exact L|]); eauto 10.
    - inversion E; subst. exists []. rewrite app_nil_r. eauto. }
  assert (Leaf : forall evs (rr : result (list (string * AerSimulator))),
             (forall e, rr = Raise e ->
                is_Exception e = false \/
                In (mkSim CPU (Some p) None, Some e) (inits evs)) ->
             (forall sim e, In (sim, Some e) (inits evs) ->
                sim_device sim = GPU -> is_Exception e = true ->
                exists name, In (EPrint (MInitWarn name e)) evs) ->
             (forall backends name sim, rr = Ret backends ->
                In (name, sim) backends ->
                In (sim, None) (inits evs) /\
                forall e, ~ In (sim, Some e) (inits evs)) ->
             st_log s' = st_log s ++ evs -> r = rr ->
             exists evs,
               st_log s' = st_log s ++ evs /\
               (forall e, r = Raise e ->
                  is_Exception e = false \/
                  In (mkSim CPU (Some p) None, Some e) (inits evs)) /\
               (forall sim e, In (sim, Some e) (inits evs) ->
                  sim_device sim = GPU -> is_Exception e = true ->
                  exists name, In (EPrint (MInitWarn name e)) evs) /\
               (forall backends name sim, r = Ret backends ->
                  In (name, sim) backends ->
                  In (sim, None) (inits evs) /\
                  forall e, ~ In (sim, Some e) (inits evs))).
  { intros evs rr F1 F2 F3 L ->. exists evs. auto. }
  apply bind_inv in H. destruct H as [(bk1 & s1 & H1 & H) | (e1 & H1 & ->)];
    apply U in H1; destruct H1 as (evs1 & L1 & C1);
    destruct C1 as [(E1 & ->) | [(E1 & ->) | (x1 & E1 & ->)]];
    inversion E1; subst; clear E1.
  3: { eapply Leaf; [| | |exact L1|reflexivity].
       - intros e [= <-]. right. simpl. auto.
       - intros sim0 e0 [Hin|[]] Hd. inversion Hin; subst. discriminate.
       - discriminate. }
  all: apply bind_inv in H;
    destruct H as [(bk2 & s2 & H2 & H) | (e2 & H2 & ->)];
    apply G in H2; destruct H2 as (evs2 & L2 & C2);
    destruct C2 as [(E2 & ->) | [(E2 & ->) | [(c2' & t2' & E2 & ->) | (x2 & E2 & X2 & ->)]]];
    inversion E2; subst; clear E2.
  all: try (apply bind_inv in H;
    destruct H as [(bk3 & s3 & H3 & H) | (e3 & H3 & ->)];
    apply G in H3; destruct H3 as (evs3 & L3 & C3);
    destruct C3 as [(E3 & ->) | [(E3 & ->) | [(c3' & t3' & E3 & ->) | (x3 & E3 & X3 & ->)]]];
    inversion E3; subst; clear E3;
    try (inversion H; subst; clear H)).
  all: eapply Leaf;
    [ | | | first [ rewrite L3, L2, L1, <- !app_assoc; reflexivity
                  | rewrite L2, L1, <- !app_assoc; reflexivity ]
          | reflexivity ].
  all: try (intros e0 Hr; inversion Hr; subst; clear Hr; left; assumption).
  all: try (intros e0 Hr; discriminate Hr).
  all: try solve [intros sim0 e0 Hin Hd Hx; simpl in Hin;
            repeat (destruct Hin as [Hin|Hin];
                    [inversion Hin; subst; clear Hin|]);
            try contradiction; try discriminate; try congruence;
            eexists; simpl; rewrite ?in_app_iff; simpl; eauto 12].
  all: try (intros bks nm sm Hr Hin; discriminate Hr).
  all: solve [intros bks nm sm Hr Hin; inversion Hr; subst; clear Hr;
    simpl in Hin |- *;
    repeat (destruct Hin as [Hin|Hin]; [inversion Hin; subst; clear Hin|]);
    try contradiction;
    (split; [tauto|]); intros e He;
    repeat (destruct He as [He|He]; [discriminate He|]); contradiction].
Qed.

(** ** What a sweep does to the table, whatever its outcome *)

#[local] Instance only_appends_pre : PreOrder only_appends.
Proof.
  split.
  - intros s. split; [reflexivity|]. intros name [ts sds] Hc.
    exists [], []. simpl. now rewrite !app_nil_r.
  - intros s1 s2 s3 (K1 & A1) (K2 & A2). split; [congruence|].
    intros name c Hc. destruct (A1 name c Hc) as (ts1 & sds1 & H1).
    destruct (A2 name _ H1) as (ts2 & sds2 & H2). simpl in H2.
    exists (ts1 ++ ts2), (sds1 ++ sds2). now rewrite !app_assoc.
Qed.

#[local] Instance keeps_pre (J : table -> Prop) : PreOrder (keeps J).
Proof. split; unfold keeps; [intros s|intros s1 s2 s3]; auto. Qed.

Lemma stable_weaken (R1 R2 : state -> state -> Prop) {A : Type} (m : M A) :
  (forall s s', R1 s s' -> R2 s s') -> stable R1 m -> stable R2 m.
Proof. intros HR Hm s r s' E. apply HR. exact (Hm _ _ _ E). Qed.

Lemma appends_of_same {A : Type} (m : M A) :
  stable same_results m -> stable only_appends m.
Proof.
  apply stable_weaken. intros s s' E.
  change (only_appends s s'). unfold only_appends. rewrite E.
  change (only_appends s s). reflexivity.
Qed.

Lemma keeps_of_same (J : table -> Prop) {A : Type} (m : M A) :
  stable same_results m -> stable (keeps J) m.
Proof.
  apply stable_weaken. intros s s' E. unfold keeps. now rewrite E.
Qed.

Lemma appended_dict_set t name c ts sds :
  dict_get t name = Some c ->
  appended t (dict_set t name (mkColumn (times c ++ ts) (stds c ++ sds))).
Proof.
  intros Hc. split.
  - apply keys_dict_set_present. eapply dict_get_Some_In; eauto.
  - intros name' c' Hc'. destruct (String.eqb_spec name' name) as [->|Hne].
    + rewrite dict_get_set_same. rewrite Hc in Hc'. inversion Hc'; subst. eauto.
    + rewrite dict_get_set_other by exact Hne. rewrite Hc'.
      exists [], []. destruct c'. simpl. now rewrite !app_nil_r.
Qed.

Lemma appends_append_times name x : stable only_appends (append_times name x).
Proof.
  intros s r s' E. unfold append_times, bind, get_results, put_results in E.
  simpl in E. destruct (dict_get (st_results s) name) as [c|] eqn:Hc;
    inversion E; subst; clear E; [|reflexivity].
  unfold only_appends; simpl.
  replace (stds c) with (stds c ++ []) by apply app_nil_r.
  now apply appended_dict_set.
Qed.

Lemma appends_append_stds name x : stable only_appends (append_stds name x).
Proof.
  intros s r s' E. unfold append_stds, bind, get_results, put_results in E.
  simpl in E. destruct (dict_get (st_results s) name) as [c|] eqn:Hc;
    inversion E; subst; clear E; [|reflexivity].
  unfold only_appends; simpl.
  replace (times c) with (times c ++ []) by apply app_nil_r.
  now apply appended_dict_set.
Qed.

Lemma appends_benchmark sim qc reps : stable only_appends (benchmark sim qc reps).
Proof. apply appends_of_same. unfold benchmark. stable_go. Qed.

Lemma appends_print m : stable only_appends (print m).
Proof. apply appends_of_same, results_print. Qed.

Lemma appends_make_circuit n d sd : stable only_appends (make_circuit n d sd).
Proof. apply appends_of_same, results_make_circuit. Qed.

#[local] Hint Resolve appends_append_times appends_append_stds
  appends_benchmark appends_print appends_make_circuit : stable.

Lemma appends_trial reps qc nb : stable only_appends (trial reps qc nb).
Proof. unfold trial. stable_go. Qed.

Lemma appends_sweep args backends sizes :
  stable only_appends (sweep args backends sizes).
Proof. unfold sweep. stable_go. apply appends_trial. Qed.

Lemma balanced_push_cell name m sd t :
  balanced t -> balanced (push_cell name m sd t).
Proof.
  intros Hb name' c' Hc'. unfold push_cell in Hc'.
  destruct (dict_get t name) as [c|] eqn:Hc; [|eauto].
  destruct (String.eqb_spec name' name) as [->|Hne].
  - rewrite dict_get_set_same in Hc'. inversion Hc'; subst. simpl.
    rewrite !length_app. simpl. now rewrite (Hb name c Hc).
  - rewrite dict_get_set_other in Hc' by exact Hne. eauto.
Qed.

(** The registry is within the keys of the table, and the table is
    balanced: what every trial of the sweep keeps. *)
Lemma trial_keeps names reps qc name sim :
  In name names ->
  stable (keeps (fun t => incl names (keys t) /\ balanced t))
         (trial reps qc (name, sim)).
Proof.
  intros Hn s r s' E (Hincl & Hbal).
  destruct (trial_spec reps qc name sim s (Hincl name Hn))
    as (evs & r1 & s1 & E1 & _ & Hcase).
  rewrite E in E1. inversion E1; subst r1 s1; clear E1.
  assert (Hpush : forall m sd,
             st_results s' = push_cell name m sd (st_results s) ->
             incl names (keys (st_results s')) /\ balanced (st_results s')).
  { intros m sd ->. rewrite keys_push_cell. split; [exact Hincl|].
    now apply balanced_push_cell. }
  destruct Hcase as [(ts & _ & _ & _ & Ht) | (k & e & _ & _ & He)]; [eauto|].
  destruct (is_Exception e); [destruct He as (_ & Ht & _); eauto|].
  destruct He as (_ & ->). auto.
Qed.

Lemma sweep_keeps args backends sizes :
  stable (keeps (fun t => incl (keys backends) (keys t) /\ balanced t))
         (sweep args backends sizes).
Proof.
  unfold sweep. apply stable_for_each; [exact _|]. intros n.
  apply stable_bind; [exact _|apply keeps_of_same, results_print|intros _].
  apply stable_bind; [exact _|apply keeps_of_same, results_make_circuit|].
  intros qc.
  apply stable_bind; [exact _| |intros _; apply keeps_of_same, results_print].
  assert (H : forall bs, incl (keys bs) (keys backends) ->
                stable (keeps (fun t => incl (keys backends) (keys t)
                                        /\ balanced t))
                       (for_each bs (trial (repeats args) qc))).
  { induction bs as [|[name sim] bs IH]; intros Hbs; simpl.
    - apply stable_ret. exact _.
    - apply stable_bind; [exact _| |intros _; apply IH].
      + apply trial_keeps. apply Hbs. now left.
      + intros x Hx. apply Hbs. now right. }
  apply H, incl_refl.
Qed.

(** X5.  Whatever the outcome of the sweep, an interrupt included, it
    has only added cells at the end of the columns: the keys of the table
    are the same and no recorded cell was changed or removed.  Unless the
    sweep was interrupted, every column still has as many deviations as
    means. *)
Theorem sweep_only_appends args backends sizes s :
  incl (keys backends) (keys (st_results s)) ->
  balanced (st_results s) ->
  appended (st_results s) (st_results (snd (sweep args backends sizes s))) /\
  (fst (sweep args backends sizes s) <> Raise KeyboardInterrupt ->
   balanced (st_results (snd (sweep args backends sizes s)))).
Proof.
  intros Hincl Hbal.
  destruct (sweep args backends sizes s) as [r s'] eqn:E. simpl. split.
  - exact (appends_sweep args backends sizes s r s' E).
  - intros _. apply (sweep_keeps args backends sizes s r s' E). auto.
Qed.

(** ** What leaves a sweep, and what a sweep executes *)

#[local] Instance log_grows_pre : PreOrder log_grows.
Proof. unfold log_grows. exact _. Qed.

Lemma grows_emit e : stable log_grows (emit e).
Proof. apply logs_emit. exact I. Qed.

Lemma grows_call f ev : stable log_grows (call f ev).
Proof. apply logs_call. intros; exact I. Qed.

Lemma grows_now : stable log_grows now.
Proof. apply logs_now. Qed.

Lemma grows_get_results : stable log_grows get_results.
Proof. apply logs_get_results. Qed.

Lemma grows_put_results t : stable log_grows (put_results t).
Proof. apply logs_put_results. Qed.

Lemma grows_simulator_run sim qc : stable log_grows (simulator_run sim qc).
Proof. apply grows_call. Qed.

#[local] Hint Resolve grows_emit grows_call grows_now grows_get_results
  grows_put_results grows_simulator_run : stable.

Lemma grows_benchmark_loop n sim qc acc :
  stable log_grows (benchmark_loop n sim qc acc).
Proof.
  revert acc. induction n as [|n IH]; intros acc; simpl; stable_go.
Qed.

#[local] Hint Resolve grows_benchmark_loop : stable.

Lemma grows_trial reps qc nb : stable log_grows (trial reps qc nb).
Proof.
  unfold trial, benchmark, append_times, append_stds, print. stable_go.
Qed.

Lemma grows_row reps qc backends :
  stable log_grows (for_each backends (trial reps qc)).
Proof. apply stable_for_each; [exact _|]. intros nb. apply grows_trial. Qed.

Lemma keys_row reps qc backends s r s' :
  for_each backends (trial reps qc) s = (r, s') ->
  keys (st_results s') = keys (st_results s).
Proof.
  intros E.
  assert (H : stable only_appends (for_each backends (trial reps qc)))
    by (apply stable_for_each; [exact _|]; intros nb; apply appends_trial).
  exact (proj1 (H _ _ _ E)).
Qed.

(** X6.  What leaves the sweep is what the building of a circuit raised,
    or an interrupt or an exit: no [Exception] of an execution ends it. *)
Theorem sweep_raises args backends sizes s :
  incl (keys backends) (keys (st_results s)) ->
  exists evs,
    st_log (snd (sweep args backends sizes s)) = st_log s ++ evs /\
    forall e, fst (sweep args backends sizes s) = Raise e ->
      is_Exception e = false \/
      exists n, In n sizes /\
                In (EBuild n (depth args) (seed args) (Some e)) evs.
Proof.
  unfold sweep. revert s.
  induction sizes as [|n sizes IH]; intros s Hincl; simpl for_each.
  - exists []. simpl. rewrite app_nil_r. split; [reflexivity|discriminate].
  - cbv beta.
    (* the row *)
    destruct ((print (MBenchmarking n) ;;
               qc_t <- make_circuit n (depth args) (seed args) ;;
               for_each backends (trial (repeats args) qc_t) ;;
               print MBlank) s) as [r4 s4] eqn:Erow.
    assert (Hrow : exists evs4,
               st_log s4 = st_log s ++ evs4 /\
               keys (st_results s4) = keys (st_results s) /\
               forall e, r4 = Raise e ->
                 is_Exception e = false \/
                 In (EBuild n (depth args) (seed args) (Some e)) evs4).
    { rewrite (bind_eq_ret (print (MBenchmarking n)) _ s tt _ eq_refl) in Erow.
      apply bind_inv in Erow. rewrite make_circuit_run in Erow.
      simpl st_world in Erow. simpl st_log in Erow.
      destruct Erow as [(qc & s2 & Hmk & Erow) | (e & Hmk & ->)];
        destruct (build_circuit n (depth args) (seed args) (st_world s))
          as [[e'|] w]; simpl in Hmk; inversion Hmk; subst; clear Hmk.
      - apply bind_inv in Erow.
        destruct Erow as [([] & s3 & Hfor & Erow) | (e & Hfor & ->)].
        + inversion Erow; subst; clear Erow.
          destruct (grows_row _ _ _ _ _ _ Hfor) as (evs3 & L3 & _).
          apply keys_row in Hfor. simpl in L3, Hfor.
          eexists. simpl. rewrite L3, <- !app_assoc. simpl.
          split; [reflexivity|]. split; [exact Hfor|discriminate].
        + destruct (grows_row _ _ _ _ _ _ Hfor) as (evs3 & L3 & _).
          pose proof (keys_row _ _ _ _ _ _ Hfor) as K. simpl in L3, K.
          apply row_raises_no_Exception in Hfor; [|exact Hincl].
          eexists. rewrite L3, <- !app_assoc. simpl.
          split; [reflexivity|]. split; [exact K|].
          intros e0 [= <-]. now left.
      - eexists. simpl. rewrite <- !app_assoc. simpl.
        split; [reflexivity|]. split; [reflexivity|].
        intros e0 [= <-]. right. right. now left. }
    destruct Hrow as (evs4 & L4 & K4 & R4).
    destruct r4 as [[]|e4];
      [rewrite (bind_eq_ret _ _ _ _ _ Erow)
      |rewrite (bind_eq_raise _ _ _ _ _ Erow)].
    + destruct (IH s4) as (evs & L & R).
      { now rewrite K4. }
      exists (evs4 ++ evs). split; [now rewrite L, L4, app_assoc|].
      intros e He. destruct (R e He) as [Hx | (m & Hm & Hin)]; [now left|].
      right. exists m. split; [now right|]. apply in_or_app. now right.
    + exists evs4. split; [exact L4|]. simpl. intros e [= <-].
      destruct (R4 e4 eq_refl) as [Hx|Hin]; [now left|].
      right. exists n. split; [now left|exact Hin].
Qed.

Lemma In_runs sim qc r evs :
  In (sim, qc, r) (runs evs) -> In (ERun sim qc r) evs.
Proof.
  unfold runs. intros H. apply in_flat_map in H.
  destruct H as (ev & Hev & Hin). destruct ev; simpl in Hin; try contradiction.
  destruct Hin as [Hin|[]]. inversion Hin; subst. exact Hev.
Qed.

Section NothingRaises.

Hypothesis executes : forall sim qc w, fst (sim_execute sim qc w) = None.

#[local] Instance ran_fine_pre : PreOrder (logs ran_fine).
Proof. exact _. Qed.

Lemma fine_simulator_run sim qc : stable (logs ran_fine) (simulator_run sim qc).
Proof.
  intros s r s' E. unfold simulator_run, call in E.
  pose proof (executes sim qc (st_world s)) as Hx.
  destruct (sim_execute sim qc (st_world s)) as [o w]. simpl in Hx. subst o.
  inversion E; subst. eexists [_]. simpl. split; [reflexivity|].
  constructor; [|constructor]. intros sim0 qc0 e. discriminate.
Qed.

Lemma fine_print m : stable (logs ran_fine) (print m).
Proof. apply logs_print. intros sim qc e. discriminate. Qed.

#[local] Hint Resolve fine_simulator_run fine_print : stable.

Lemma fine_benchmark_loop n sim qc acc :
  stable (logs ran_fine) (benchmark_loop n sim qc acc).
Proof.
  revert acc. induction n as [|n IH]; intros acc; simpl; stable_go.
Qed.

#[local] Hint Resolve fine_benchmark_loop : stable.

Lemma fine_trial reps qc nb : stable (logs ran_fine) (trial reps qc nb).
Proof. unfold trial, benchmark, append_times, append_stds. stable_go. Qed.

(** A trial in which no execution raises performs its repeats and
    returns. *)
Lemma trial_undisturbed reps qc name sim s :
  In name (keys (st_results s)) ->
  exists evs s',
    trial reps qc (name, sim) s = (Ret tt, s') /\
    st_log s' = st_log s ++ evs /\
    keys (st_results s') = keys (st_results s) /\
    executions evs = repeat (sim, qc) (Z.to_nat reps).
Proof.
  intros Hin.
  destruct (trial_spec reps qc name sim s Hin)
    as (evs & r & s' & E & L & Hcase).
  destruct (fine_trial reps qc (name, sim) s r s' E) as (evs' & L' & F).
  assert (evs' = evs) by (rewrite L in L'; now apply app_inv_head in L').
  subst evs'.
  destruct Hcase as [(ts & _ & Hruns & -> & Ht) | (k & e & _ & Hruns & _)].
  - exists evs, s'. repeat split; auto.
    + rewrite Ht. apply keys_push_cell.
    + unfold executions. rewrite Hruns. clear.
      induction (Z.to_nat reps) as [|n IH]; simpl; [reflexivity|now rewrite IH].
  - exfalso.
    assert (Hin' : In (sim, qc, Some e) (runs evs))
      by (rewrite Hruns; apply in_or_app; right; now left).
    apply In_runs in Hin'. rewrite Forall_forall in F.
    exact (F _ Hin' sim qc e eq_refl).
Qed.

Lemma executions_app evs1 evs2 :
  executions (evs1 ++ evs2) = executions evs1 ++ executions evs2.
Proof. unfold executions. now rewrite runs_app, map_app. Qed.

Lemma row_undisturbed reps qc backends s :
  incl (keys backends) (keys (st_results s)) ->
  exists evs s',
    for_each backends (trial reps qc) s = (Ret tt, s') /\
    st_log s' = st_log s ++ evs /\
    keys (st_results s') = keys (st_results s) /\
    executions evs
    = flat_map (fun nb : string * AerSimulator =>
                  repeat (snd nb, qc) (Z.to_nat reps)) backends.
Proof.
  revert s. induction backends as [|[name sim] bs IH]; intros s Hincl.
  - exists [], s. simpl. now rewrite app_nil_r.
  - destruct (trial_undisturbed reps qc name sim s) as (evs1 & s1 & E1 & L1 & K1 & X1).
    { apply Hincl. now left. }
    destruct (IH s1) as (evs2 & s2 & E2 & L2 & K2 & X2).
    { rewrite K1. intros x Hx. apply Hincl. now right. }
    exists (evs1 ++ evs2), s2. simpl for_each.
    rewrite (bind_eq_ret _ _ _ _ _ E1).
    split; [exact E2|]. split; [now rewrite L2, L1, app_assoc|].
    split; [congruence|].
    rewrite executions_app, X1, X2. reflexivity.
Qed.

Hypothesis builds : forall n d sd w, fst (build_circuit n d sd w) = None.

Lemma sweep_undisturbed args backends sizes s :
  incl (keys backends) (keys (st_results s)) ->
  exists evs s',
    sweep args backends sizes s = (Ret tt, s') /\
    st_log s' = st_log s ++ evs /\
    executions evs = planned_executions args backends sizes.
Proof.
  unfold sweep, planned_executions. revert s.
  induction sizes as [|n sizes IH]; intros s Hincl.
  - exists [], s. simpl. now rewrite app_nil_r.
  - simpl for_each.
    pose (s1 := mkState (st_world s) (st_log s ++ [EPrint (MBenchmarking n)])
                        (st_results s) (st_files s)).
    pose (s2 := mkState
                  (snd (build_circuit n (depth args) (seed args) (st_world s)))
                  (st_log s1 ++ [EBuild n (depth args) (seed args) None])
                  (st_results s) (st_files s)).
    assert (Hmk : make_circuit n (depth args) (seed args) s1
                  = (Ret (mkCircuit n (depth args) (seed args)), s2)).
    { rewrite make_circuit_run. simpl st_world.
      rewrite (builds n (depth args) (seed args) (st_world s)). reflexivity. }
    destruct (row_undisturbed (repeats args)
                (mkCircuit n (depth args) (seed args)) backends s2 Hincl)
      as (evs3 & s3 & E3 & L3 & K3 & X3).
    pose (s4 := mkState (st_world s3) (st_log s3 ++ [EPrint MBlank])
                        (st_results s3) (st_files s3)).
    destruct (IH s4) as (evs & s' & E & L & X).
    { simpl. now rewrite K3. }
    exists ([EPrint (MBenchmarking n); EBuild n (depth args) (seed args) None]
            ++ evs3 ++ [EPrint MBlank] ++ evs), s'.
    split; [|split].
    + erewrite bind_eq_ret; [exact E|].
      rewrite (bind_eq_ret (print (MBenchmarking n)) _ s tt s1 eq_refl).
      rewrite (bind_eq_ret _ _ _ _ _ Hmk).
      rewrite (bind_eq_ret _ _ _ _ _ E3). reflexivity.
    + rewrite L. simpl. rewrite L3. simpl. now rewrite <- !app_assoc.
    + rewrite !executions_app, X, X3. reflexivity.
Qed.

End NothingRaises.

(** X7.  In a sweep in which no execution and no circuit build raises,
    the executions come size by size in sweep order, for each size
    backend by backend in registration order, and for each backend
    [repeats] times in a row on the circuit of the size; the sweep
    returns. *)
Theorem undisturbed_sweep_executions args backends sizes s :
  (forall sim qc w, fst (sim_execute sim qc w) = None) ->
  (forall n d sd w, fst (build_circuit n d sd w) = None) ->
  incl (keys backends) (keys (st_results s)) ->
  fst (sweep args backends sizes s) = Ret tt /\
  exists evs,
    st_log (snd (sweep args backends sizes s)) = st_log s ++ evs /\
    executions evs = planned_executions args backends sizes.
Proof.
  intros Hx Hb Hincl.
  destruct (sweep_undisturbed Hx Hb args backends sizes s Hincl)
    as (evs & s' & E & L & X).
  rewrite E. simpl. eauto.
Qed.

(** ** The text of the CSV file *)

Lemma dict_get_of_NoDup {A : Type} (d : list (string * A)) k v :
  NoDup (keys d) -> In (k, v) d -> dict_get d k = Some v.
Proof.
  induction d as [|[k0 v0] d IH]; simpl; [tauto|].
  intros Hnd Hin. inversion Hnd as [|? ? Hnotin Hnd']; subst.
  destruct Hin as [E|Hin].
  - inversion E; subst. now rewrite String.eqb_refl.
  - destruct (String.eqb_spec k k0) as [->|_]; [|auto].
    exfalso. apply Hnotin. change k0 with (fst (k0, v)). now apply in_map.
Qed.

Lemma list_item_in_bounds {A : Type} (l : list A) i d s :
  (i < List.length l)%nat -> list_item l i s = (Ret (nth i l d), s).
Proof.
  intros H. unfold list_item. now rewrite (nth_error_nth' l d H).
Qed.

Lemma csv_data_row_in_bounds results i n s :
  NoDup (keys results) ->
  (forall name c, In (name, c) results ->
     (i < List.length (times c))%nat /\ (i < List.length (stds c))%nat) ->
  csv_data_row results i n s = (Ret (csv_row results i n), s).
Proof.
  intros Hnd Hb. unfold csv_data_row, csv_row.
  change (CInt n :: flat_map
            (fun item : string * column =>
               [CFloat (nth i (times (snd item)) nan);
                CFloat (nth i (stds (snd item)) nan)]) results)
    with ([CInt n] ++ flat_map
            (fun item : string * column =>
               [CFloat (nth i (times (snd item)) nan);
                CFloat (nth i (stds (snd item)) nan)]) results).
  assert (H : forall items row,
             incl items results ->
             fold_m (keys items) row
               (fun row name =>
                  c <- dict_item results name ;;
                  t <- list_item (times c) i ;;
                  let row := row ++ [CFloat t] in
                  c <- dict_item results name ;;
                  sd <- list_item (stds c) i ;;
                  ret (row ++ [CFloat sd])) s
             = (Ret (row ++ flat_map
                       (fun item : string * column =>
                          [CFloat (nth i (times (snd item)) nan);
                           CFloat (nth i (stds (snd item)) nan)]) items), s)).
  { induction items as [|[name c] items IH]; intros row Hincl; simpl.
    - now rewrite app_nil_r.
    - assert (Hin : In (name, c) results) by (apply Hincl; now left).
      assert (Hget : dict_item results name s = (Ret c, s))
        by (unfold dict_item; now rewrite (dict_get_of_NoDup _ _ _ Hnd Hin)).
      destruct (Hb name c Hin) as (Bt & Bs).
      erewrite bind_eq_ret.
      2: { rewrite (bind_eq_ret _ _ _ _ _ Hget).
           rewrite (bind_eq_ret _ _ _ _ _ (list_item_in_bounds _ _ nan _ Bt)).
           rewrite (bind_eq_ret _ _ _ _ _ Hget).
           rewrite (bind_eq_ret _ _ _ _ _ (list_item_in_bounds _ _ nan _ Bs)).
           reflexivity. }
      rewrite IH by (intros x Hx; apply Hincl; now right).
      now rewrite <- !app_assoc. }
  apply H, incl_refl.
Qed.

Lemma write_rows_in_bounds csv results sizes :
  NoDup (keys results) ->
  forall i s t0,
    (forall name c, In (name, c) results ->
       (i + List.length sizes <= List.length (times c))%nat /\
       (i + List.length sizes <= List.length (stds c))%nat) ->
    dict_get (st_files s) csv = Some (CsvFile t0) ->
    write_rows csv results i sizes s
    = (Ret tt,
       with_file csv (CsvFile (t0 ++ csv_rows_text results i sizes)%string) s).
Proof.
  intros Hnd. induction sizes as [|n sizes IH]; intros i s t0 Hb Hf.
  - simpl. unfold csv_rows_text, with_file. simpl.
    rewrite string_app_nil_r, dict_set_same_value by exact Hf.
    now destruct s.
  - simpl write_rows.
    assert (Hi : forall name c, In (name, c) results ->
                   (i < List.length (times c))%nat /\
                   (i < List.length (stds c))%nat).
    { intros name c Hin. destruct (Hb name c Hin). simpl in *. lia. }
    rewrite (bind_eq_ret _ _ _ _ _ (csv_data_row_in_bounds results i n s Hnd Hi)).
    unfold bind at 1, append_file. rewrite Hf.
    rewrite (IH (S i) _ (t0 ++ writerow (csv_row results i n))%string).
    + unfold with_file, csv_rows_text. simpl.
      now rewrite dict_set_twice, string_app_assoc.
    + intros name c Hin. destruct (Hb name c Hin). simpl in *. lia.
    + simpl. apply dict_get_set_same.
Qed.

(** The export of a table with enough cells, as one step. *)
Lemma save_benchmark_data_in_bounds sizes out s :
  NoDup (keys (st_results s)) ->
  (forall name c, In (name, c) (st_results s) ->
     (List.length sizes <= List.length (times c))%nat /\
     (List.length sizes <= List.length (stds c))%nat) ->
  save_benchmark_data sizes out s
  = (Ret tt,
     mkState (st_world s)
             (st_log s ++ [EPrint (MSavedData
                                     (path_join out "benchmark_results.csv"))])
             (st_results s)
             (dict_set (st_files s) (path_join out "benchmark_results.csv")
                       (CsvFile (csv_text (st_results s) sizes)))).
Proof.
  intros Hnd Hb. unfold save_benchmark_data.
  unfold bind at 1, get_results. cbv beta iota.
  unfold bind at 1, open_w, write_file. cbv beta iota.
  unfold bind at 1, append_file. cbv beta iota. simpl st_files.
  rewrite dict_get_set_same. simpl st_world. simpl st_log. simpl st_results.
  rewrite dict_set_twice. unfold bind.
  rewrite (write_rows_in_bounds _ _ _ Hnd 0%nat _
             (writerow (csv_headers (st_results s)))).
  - unfold with_file, csv_text. simpl. now rewrite dict_set_twice.
  - exact Hb.
  - simpl. apply dict_get_set_same.
Qed.

(** X8.  For a table with distinct keys whose columns have at least one
    cell per size, the export returns and the CSV file holds exactly: the
    header [qubits] followed by [<name>_time] and [<name>_std] for each
    backend in the order of the table, then one row per size in sweep
    order with the size and, backend by backend in the same order, the
    mean and the deviation of that size; what the file held before is
    replaced. *)
Theorem csv_of_rectangular_table sizes out s :
  NoDup (keys (st_results s)) ->
  (forall name c, In (name, c) (st_results s) ->
     (List.length sizes <= List.length (times c))%nat /\
     (List.length sizes <= List.length (stds c))%nat) ->
  save_benchmark_data sizes out s
  = (Ret tt,
     mkState (st_world s)
             (st_log s ++ [EPrint (MSavedData
                                     (path_join out "benchmark_results.csv"))])
             (st_results s)
             (dict_set (st_files s) (path_join out "benchmark_results.csv")
                       (CsvFile (csv_text (st_results s) sizes)))).
Proof. exact (save_benchmark_data_in_bounds sizes out s). Qed.

Lemma csv_data_row_outcome results i n s r s' :
  csv_data_row results i n s = (r, s') ->
  match r with
  | Ret _ => forall name c, dict_get results name = Some c ->
               (i < List.length (times c))%nat /\
               (i < List.length (stds c))%nat
  | Raise e => e = IndexError
  end.
Proof.
  unfold csv_data_row.
  assert (H : forall names row r s',
             incl names (keys results) ->
             fold_m names row
               (fun row name =>
                  c <- dict_item results name ;;
                  t <- list_item (times c) i ;;
                  let row := row ++ [CFloat t] in
                  c <- dict_item results name ;;
                  sd <- list_item (stds c) i ;;
                  ret (row ++ [CFloat sd])) s = (r, s') ->
             match r with
             | Ret _ => forall name c, In name names ->
                          dict_get results name = Some c ->
                          (i < List.length (times c))%nat /\
                          (i < List.length (stds c))%nat
             | Raise e => e = IndexError
             end).
  { induction names as [|name names IH]; intros row r0 s0 Hincl E.
    - simpl in E. inversion E; subst. intros name c [].
    - simpl in E.
      destruct (dict_get_In results name) as [c Hc]; [apply Hincl; now left|].
      assert (Hincl' : incl names (keys results))
        by (intros x Hx; apply Hincl; now right).
      unfold bind at 1 2, dict_item at 1 in E. rewrite Hc in E.
      unfold ret at 1 in E. cbv beta iota in E.
      unfold bind at 1, list_item at 1 in E.
      destruct (nth_error (times c) i) as [t|] eqn:Et;
        [|inversion E; subst; reflexivity].
      unfold ret at 1 in E. cbv beta iota zeta in E.
      unfold bind at 1, dict_item at 1 in E. rewrite Hc in E.
      unfold ret at 1 in E. cbv beta iota in E.
      unfold bind at 1, list_item at 1 in E.
      destruct (nth_error (stds c) i) as [sd|] eqn:Es;
        [|inversion E; subst; reflexivity].
      unfold ret at 1 2 in E. cbv beta iota in E.
      specialize (IH _ _ _ Hincl' E). destruct r0 as [row'|e]; [|exact IH].
      intros name' c' [<-|Hin] Hc'.
      + rewrite Hc in Hc'. inversion Hc'; subst c'. split.
        * apply nth_error_Some. congruence.
        * apply nth_error_Some. congruence.
      + exact (IH name' c' Hin Hc'). }
  intros E. specialize (H (keys results) [CInt n] r s' (incl_refl _) E).
  destruct r; [|exact H].
  intros name c Hc. apply (H name c); [|exact Hc].
  eapply dict_get_Some_In; eauto.
Qed.

Lemma write_rows_outcome csv results sizes :
  forall i s r s',
    write_rows csv results i sizes s = (r, s') ->
    match r with
    | Ret _ => forall j name c,
                 (i <= j < i + List.length sizes)%nat ->
                 dict_get results name = Some c ->
                 (j < List.length (times c))%nat /\
                 (j < List.length (stds c))%nat
    | Raise e => e = IndexError
    end.
Proof.
  induction sizes as [|n sizes IH]; intros i s r s' E.
  - simpl in E. inversion E; subst. intros j name c Hj. simpl in Hj. lia.
  - simpl in E. apply bind_inv in E.
    destruct E as [(row & s1 & Hrow & E) | (e & Hrow & ->)].
    + apply csv_data_row_outcome in Hrow.
      apply bind_inv in E.
      destruct E as [([] & s2 & _ & E) | (e & Happ & _)];
        [|discriminate Happ].
      specialize (IH _ _ _ _ E). destruct r as [[]|e]; [|exact IH].
      intros j name c Hj Hc. simpl in Hj.
      destruct (Nat.eq_dec j i) as [->|Hne]; [exact (Hrow name c Hc)|].
      apply (IH j name c); [lia|exact Hc].
    + now apply csv_data_row_outcome in Hrow.
Qed.

(** X9.  When a column of the table is shorter than the list of sizes,
    in means or in deviations, the export raises [IndexError]; nothing is
    printed, and the CSV file, opened before the rows are computed, is
    left with what was written up to the failing row. *)
Theorem csv_of_short_column sizes out s name c :
  dict_get (st_results s) name = Some c ->
  (List.length (times c) < List.length sizes)%nat \/
  (List.length (stds c) < List.length sizes)%nat ->
  fst (save_benchmark_data sizes out s) = Raise IndexError /\
  st_log (snd (save_benchmark_data sizes out s)) = st_log s /\
  exists text,
    dict_get (st_files (snd (save_benchmark_data sizes out s)))
             (path_join out "benchmark_results.csv")
    = Some (CsvFile text).
Proof.
  intros Hc Hshort.
  destruct (save_benchmark_data_run (st_results s) sizes out)
    as (r & text & Hrun).
  specialize (Hrun s eq_refl).
  assert (Hr : r = Raise IndexError).
  { pose proof Hrun as E. unfold save_benchmark_data in E.
    apply bind_inv in E. destruct E as [(t & s1 & Hget & E) | (e & Hget & _)];
      [|discriminate Hget].
    inversion Hget; subst t s1; clear Hget.
    apply bind_inv in E. destruct E as [([] & s2 & _ & E) | (e & Hopen & _)];
      [|discriminate Hopen].
    apply bind_inv in E. destruct E as [([] & s3 & _ & E) | (e & Happ & _)];
      [|discriminate Happ].
    apply bind_inv in E. destruct E as [([] & s4 & Hrows & E) | (e & Hrows & ->)].
    - exfalso. apply write_rows_outcome in Hrows.
      assert (Hpos : (0 < List.length sizes)%nat) by lia.
      destruct (Hrows (List.length sizes - 1)%nat name c) as (B1 & B2);
        [lia|exact Hc|lia].
    - apply write_rows_outcome in Hrows. now subst e. }
  rewrite Hrun. subst r. simpl. rewrite app_nil_r.
  split; [reflexivity|]. split; [reflexivity|].
  exists text. apply dict_get_set_same.
Qed.


(** ** The figure, or nothing *)

Lemma time_panel_returns (items : table) sizes fig s fig' s' :
  time_panel items sizes fig s = (Ret fig', s') -> finished sizes items.
Proof.
  unfold time_panel. revert fig s.
  induction items as [|[name data] items IH]; intros fig s E.
  - intros name c [].
  - simpl in E. apply bind_ret_inv in E. destruct E as (fig1 & s1 & Hp & E).
    unfold ax_plot in Hp.
    destruct (Nat.eqb_spec (List.length sizes) (List.length (times data)))
      as [Hl|_]; [|discriminate Hp].
    intros n c [Hin|Hin].
    + inversion Hin; subst. now symmetry.
    + exact (IH _ _ E n c Hin).
Qed.

Lemma files_panels results sizes fig :
  stable same_files (speedup_panel results sizes) /\
  stable same_files (time_panel results sizes fig).
Proof.
  unfold speedup_panel, time_panel, np_divide, ax_plot, dict_item.
  split; stable_go.
Qed.

Lemma panels_raise_ValueError results sizes fig :
  raises_only (fun e => exists t, e = ValueError t)
              (speedup_panel results sizes) /\
  raises_only (fun e => exists t, e = ValueError t)
              (time_panel results sizes fig).
Proof.
  unfold speedup_panel, time_panel, np_divide, ax_plot, dict_mem, dict_item.
  split.
  - destruct (dict_get results "cpu") as [cpu|]; [|apply only_ret].
    apply only_bind; [apply only_ret|intros cpu'].
    apply only_bind; [|intros; apply only_ret].
    apply only_fold_m. intros fig0 [name data].
    destruct (negb (name =? "cpu")%string); [|apply only_ret].
    apply only_bind.
    + destruct (Nat.eqb _ _); [apply only_ret|].
      destruct (times cpu') as [|x [|y l]]; destruct (times data) as [|u [|v m]];
        first [apply only_ret | apply only_raise; eexists; reflexivity].
    + intros q. destruct (Nat.eqb _ _);
        [apply only_ret|apply only_raise; eexists; reflexivity].
  - apply only_fold_m. intros fig0 [name data].
    destruct (Nat.eqb _ _);
      [apply only_ret|apply only_raise; eexists; reflexivity].
Qed.

(** X10.  Drawing the plots returns exactly when every column of times
    has one entry per size.  Then the PNG and the PDF file hold the same
    figure.  Otherwise it raises [ValueError] and no file is written. *)
Theorem plots_all_or_nothing sizes out s :
  let r := fst (generate_plots sizes out s) in
  let s' := snd (generate_plots sizes out s) in
  (finished sizes (st_results s) /\ r = Ret tt /\
   exists fig,
     dict_get (st_files s') (path_join out "benchmark_comparison.png")
     = Some (FigureFile fig) /\
     dict_get (st_files s') (path_join out "benchmark_comparison.pdf")
     = Some (FigureFile fig))
  \/
  (~ finished sizes (st_results s) /\
   (exists t, r = Raise (ValueError t)) /\
   st_files s' = st_files s).
Proof.
  intros r s'. subst r s'.
  destruct (generate_plots sizes out s) as [r s'] eqn:E. simpl.
  assert (Hfin : finished sizes (st_results s) ->
                 r = Ret tt /\
                 exists fig,
                   dict_get (st_files s') (path_join out "benchmark_comparison.png")
                   = Some (FigureFile fig) /\
                   dict_get (st_files s') (path_join out "benchmark_comparison.pdf")
                   = Some (FigureFile fig)).
  { intros Hf. rewrite (generate_plots_finished sizes out s Hf) in E.
    inversion E; subst; clear E. split; [reflexivity|].
    exists (figure_of sizes (st_results s)). simpl. split.
    - rewrite dict_get_set_other by apply comparison_paths_differ.
      apply dict_get_set_same.
    - apply dict_get_set_same. }
  unfold generate_plots in E.
  rewrite (bind_eq_ret (print MGeneratingPlots) _ s tt _ eq_refl) in E.
  match type of E with
  | (_ <- get_results ;; _) ?st = _ =>
      rewrite (bind_eq_ret get_results _ st (st_results s) st eq_refl) in E
  end.
  destruct (panels_raise_ValueError (st_results s) sizes []) as (V1 & _).
  destruct (files_panels (st_results s) sizes []) as (F1 & _).
  apply bind_inv in E. destruct E as [(fig1 & s1 & H1 & E) | (e & H1 & ->)].
  - destruct (panels_raise_ValueError (st_results s) sizes fig1) as (_ & V2).
    destruct (files_panels (st_results s) sizes fig1) as (_ & F2).
    apply bind_inv in E. destruct E as [(fig2 & s2 & H2 & E) | (e & H2 & ->)].
    + left. apply time_panel_returns in H2. auto.
    + right. split; [|split].
      * intros Hf. destruct (Hfin Hf) as (Hr & _). discriminate Hr.
      * destruct (V2 _ _ _ H2) as (t & ->). eauto.
      * rewrite (F2 _ _ _ H2). exact (F1 _ _ _ H1).
  - right. split; [|split].
    + intros Hf. destruct (Hfin Hf) as (Hr & _). discriminate Hr.
    + destruct (V1 _ _ _ H1) as (t & ->). eauto.
    + exact (F1 _ _ _ H1).
Qed.

(** ** The exports of a run *)

Lemma csv_path_differs out :
  path_join out "benchmark_results.csv"
  <> path_join out "benchmark_comparison.png" /\
  path_join out "benchmark_results.csv"
  <> path_join out "benchmark_comparison.pdf".
Proof.
  unfold path_join.
  split; intros H; apply string_app_inv_head in H; discriminate.
Qed.

(** On a complete table the export phase returns, and its files are the
    text and the figure of the table. *)
Lemma export_phase_complete args sizes out s :
  NoDup (keys (st_results s)) ->
  columns_of_length (List.length sizes) (st_results s) ->
  exists s',
    export_phase args sizes out s = (Ret tt, s') /\
    st_results s' = st_results s /\
    (save_data args = true ->
     dict_get (st_files s') (path_join out "benchmark_results.csv")
     = Some (CsvFile (csv_text (st_results s) sizes))) /\
    (no_plots args = false ->
     dict_get (st_files s') (path_join out "benchmark_comparison.png")
     = Some (FigureFile (figure_of sizes (st_results s))) /\
     dict_get (st_files s') (path_join out "benchmark_comparison.pdf")
     = Some (FigureFile (figure_of sizes (st_results s)))) /\
    (save_data args = false -> no_plots args = true ->
     st_files s' = st_files s).
Proof.
  intros Hnd Hcols.
  assert (Hb : forall name c, In (name, c) (st_results s) ->
                 (List.length sizes <= List.length (times c))%nat /\
                 (List.length sizes <= List.length (stds c))%nat).
  { intros name c Hin. apply (dict_get_of_NoDup _ _ _ Hnd) in Hin.
    destruct (Hcols name c Hin). lia. }
  assert (Hfin : finished sizes (st_results s)).
  { intros name c Hin. apply (dict_get_of_NoDup _ _ _ Hnd) in Hin.
    now destruct (Hcols name c Hin). }
  destruct (csv_path_differs out) as (D1 & D2).
  unfold export_phase.
  destruct (save_data args), (no_plots args); simpl negb; cbv iota.
  - rewrite (bind_eq_ret _ _ _ _ _ (save_benchmark_data_in_bounds sizes out s Hnd Hb)).
    rewrite (bind_eq_ret (ret tt) _ _ tt _ eq_refl).
    eexists. split; [reflexivity|]. simpl.
    split; [reflexivity|]. split; [intros _; apply dict_get_set_same|].
    split; discriminate.
  - rewrite (bind_eq_ret _ _ _ _ _ (save_benchmark_data_in_bounds sizes out s Hnd Hb)).
    erewrite bind_eq_ret by (apply generate_plots_finished; exact Hfin).
    eexists. split; [reflexivity|]. simpl.
    split; [reflexivity|]. split; [|split; [|discriminate]].
    + intros _. rewrite !dict_get_set_other by auto. apply dict_get_set_same.
    + intros _. split; [|apply dict_get_set_same].
      rewrite dict_get_set_other by apply comparison_paths_differ.
      apply dict_get_set_same.
  - rewrite (bind_eq_ret (ret tt) _ _ tt _ eq_refl).
    rewrite (bind_eq_ret (ret tt) _ _ tt _ eq_refl).
    eexists. split; [reflexivity|]. simpl.
    repeat split; auto; discriminate.
  - rewrite (bind_eq_ret (ret tt) _ _ tt _ eq_refl).
    erewrite bind_eq_ret by (apply generate_plots_finished; exact Hfin).
    eexists. split; [reflexivity|]. simpl.
    split; [reflexivity|]. split; [discriminate|]. split; [|discriminate].
    intros _. split; [|apply dict_get_set_same].
    rewrite dict_get_set_other by apply comparison_paths_differ.
    apply dict_get_set_same.
Qed.

(** A run either ends before the exports, with the files as they were,
    or goes through the export phase on a complete table. *)
Lemma run_benchmarks_cases args s r s' :
  run_benchmarks args s = (r, s') ->
  (r <> Ret tt /\ st_files s' = st_files s)
  \/
  (exists (backends : list (string * AerSimulator)) sizes s6,
     fst (py_range (min_qubits args) (max_qubits args + 1) (step args) s)
     = Ret sizes /\
     NoDup (keys (st_results s6)) /\
     keys (st_results s6) = keys backends /\
     columns_of_length (List.length sizes) (st_results s6) /\
     st_files s6 = st_files s /\
     export_phase args sizes (output_dir args) s6 = (r, s')).
Proof.
  intros H.
  destruct (run_benchmarks_head _ _ _ _ H)
    as (s1 & r1 & Hhead & _ & Hf1 & _ & Hcase).
  apply head_setup in Hhead. unfold same_files in Hf1.
  destruct r1 as [[|b bs]|e].
  - left. destruct Hcase as (-> & ->). split; [discriminate|exact Hf1].
  - pose proof (setup_backends_NoDup _ _ _ _ _ Hhead) as Hnd.
    revert Hcase Hnd. generalize (b :: bs). clear Hhead b bs.
    intros backends E Hnd.
    destruct (init_results_spec backends Hnd) as (Hkeys & Hcols).
    apply bind_inv in E. destruct E as [(sizes & s2 & Hr & E) | (e & Hr & ->)].
    2: { left. split; [discriminate|]. apply files_py_range in Hr.
         unfold same_files in Hr. congruence. }
    assert (Hsizes : fst (py_range (min_qubits args) (max_qubits args + 1)
                                   (step args) s) = Ret sizes).
    { unfold py_range in Hr |- *. destruct (step args =? 0);
        inversion Hr; reflexivity. }
    apply files_py_range in Hr.
    apply bind_inv in E. destruct E as [([] & s3 & Hput & E) | (e & Hput & _)];
      [|discriminate Hput].
    assert (E3 : st_results s3 = init_results backends /\ st_files s3 = st_files s2)
      by (inversion Hput; auto).
    destruct E3 as (E3 & F3).
    apply bind_inv in E. destruct E as [([] & s4 & Hw & E) | (e & Hw & ->)].
    2: { left. split; [discriminate|]. apply files_warmup_phase in Hw.
         unfold same_files in *. congruence. }
    pose proof (results_warmup_phase _ _ _ _ _ Hw) as R4.
    apply files_warmup_phase in Hw.
    apply bind_inv in E. destruct E as [([] & s5 & Hp & E) | (e & Hp & _)];
      [|discriminate Hp].
    pose proof (results_print _ _ _ _ Hp) as R5. apply files_print in Hp.
    unfold same_files, same_results in *.
    apply bind_inv in E. destruct E as [([] & s6 & Hs & E) | (e & Hs & ->)].
    2: { left. split; [discriminate|]. apply files_sweep in Hs.
         unfold same_files in *. congruence. }
    right. exists backends, sizes, s6.
    assert (E5 : st_results s5 = init_results backends) by congruence.
    pose proof (files_sweep _ _ _ _ _ _ Hs) as F6. unfold same_files in F6.
    apply sweep_grows in Hs; auto.
    2: { rewrite E5, Hkeys. apply incl_refl. }
    rewrite E5 in Hs. destruct Hs as (K & O & G).
    split; [exact Hsizes|]. split; [now rewrite K, Hkeys|].
    split; [congruence|]. split; [|split; [congruence|exact E]].
    intros name c Hc.
    assert (Hin : In name (keys (init_results backends))).
    { rewrite <- K. eapply dict_get_Some_In; eauto. }
    destruct (dict_get_In _ _ Hin) as [c0 Hc0]. rewrite Hkeys in Hin.
    destruct (G name c0 Hin Hc0) as (c' & Hc' & L1 & L2).
    rewrite Hc in Hc'. inversion Hc'; subst c'.
    destruct (Hcols name c0 Hc0). lia.
  - left. destruct Hcase as (-> & ->). split; [discriminate|exact Hf1].
Qed.

(** [run_benchmarks] is the measurement followed by the exports. *)
Lemma run_benchmarks_split args s :
  run_benchmarks args s
  = (sizes <- measurement args ;;
     export_phase args sizes (output_dir args)) s.
Proof.
  unfold run_benchmarks, measurement, bind, print, emit, put_results, raise,
    ret.
  cbv beta iota zeta.
  match goal with
  | |- context [setup_backends ?p ?b ?st] =>
      destruct (setup_backends p b st) as [[[|b0 bs]|e] s1]
  end; try reflexivity.
  destruct (py_range _ _ _ s1) as [[sizes|e] s2]; [|reflexivity].
  destruct (warmup_phase _ _ _) as [[[]|e] s4]; [|reflexivity].
  destruct (sweep _ _ _ _) as [[[]|e] s6]; reflexivity.
Qed.

Lemma files_measurement args : stable same_files (measurement args).
Proof. unfold measurement. stable_go. Qed.

(** X11.  Up to its exports [run_benchmarks] writes no file, whether the
    measurement returns, raises or is interrupted; and what the
    measurement raises ends the run before the exports are reached.  A
    sweep that did not get to its end is therefore never exported, not
    even in part. *)
Theorem nothing_written_before_exports args s :
  st_files (snd (measurement args s)) = st_files s /\
  match fst (measurement args s) with
  | Ret sizes =>
      run_benchmarks args s
      = export_phase args sizes (output_dir args) (snd (measurement args s))
  | Raise e =>
      run_benchmarks args s = (Raise e, snd (measurement args s))
  end.
Proof.
  split.
  - destruct (measurement args s) as [r s1] eqn:E.
    exact (files_measurement args s r s1 E).
  - rewrite run_benchmarks_split. unfold bind.
    destruct (measurement args s) as [[sizes|e] s1]; reflexivity.
Qed.

(** X12.  When the run returns, the files asked for hold the final
    table: with [--save-data] the CSV file is the text of the table over
    the sizes of the sweep, and unless [--no-plots] the PNG and the PDF
    file are its figure; with neither export no file is written. *)
Theorem completed_run_exports args s :
  fst (run_benchmarks args s) = Ret tt ->
  let s' := snd (run_benchmarks args s) in
  let out := output_dir args in
  exists sizes,
    fst (py_range (min_qubits args) (max_qubits args + 1) (step args) s)
    = Ret sizes /\
    (save_data args = true ->
     dict_get (st_files s') (path_join out "benchmark_results.csv")
     = Some (CsvFile (csv_text (st_results s') sizes))) /\
    (no_plots args = false ->
     dict_get (st_files s') (path_join out "benchmark_comparison.png")
     = Some (FigureFile (figure_of sizes (st_results s'))) /\
     dict_get (st_files s') (path_join out "benchmark_comparison.pdf")
     = Some (FigureFile (figure_of sizes (st_results s')))) /\
    (save_data args = false -> no_plots args = true ->
     st_files s' = st_files s).
Proof.
  destruct (run_benchmarks args s) as [r s'] eqn:E. simpl. intros ->.
  destruct (run_benchmarks_cases _ _ _ _ E)
    as [(Hne & _) | (backends & sizes & s6 & Hsz & Hnd & _ & Hcols & Hf & Hex)];
    [congruence|].
  destruct (export_phase_complete args sizes (output_dir args) s6 Hnd Hcols)
    as (s'' & Hex' & Hres & Hcsv & Hfig & Hnone).
  rewrite Hex in Hex'. inversion Hex'; subst s''; clear Hex'.
  exists sizes. rewrite Hres. repeat split; auto.
  - now apply Hfig.
  - now apply Hfig.
  - intros H1 H2. rewrite (Hnone H1 H2). exact Hf.
Qed.

(** ** The exit of the process *)

(** X13.  [main] lets no [Exception] and no interrupt through: it
    returns, or it exits.  An [Exception] of the run is printed with its
    traceback and an interrupt is reported; both make the exit status 1.
    The exit status is 0 only when the run returned, or itself exited
    with status 0. *)
Theorem main_outcome args s :
  (fst (main args s) = Ret tt \/
   exists code, fst (main args s) = Raise (SystemExit code)) /\
  (forall c t,
     fst (run_benchmarks args s) = Raise (PyException c t) ->
     fst (main args s) = Raise (SystemExit 1) /\
     st_log (snd (main args s))
     = st_log (snd (run_benchmarks args s))
       ++ [EPrint (MError (PyException c t)); EPrint MTraceback]) /\
  (fst (run_benchmarks args s) = Raise KeyboardInterrupt ->
   fst (main args s) = Raise (SystemExit 1) /\
   st_log (snd (main args s))
   = st_log (snd (run_benchmarks args s)) ++ [EPrint MInterrupted]) /\
  (exit_status (fst (main args s)) = 0 ->
   fst (run_benchmarks args s) = Ret tt \/
   fst (run_benchmarks args s) = Raise (SystemExit 0)).
Proof.
  destruct (run_benchmarks args s) as [r s1] eqn:E.
  rewrite (main_of_run _ _ _ _ E). simpl.
  destruct r as [[]|[c t| |code]]; simpl.
  - split; [now left|]. split; [discriminate|]. split; [discriminate|].
    now left.
  - split; [right; eauto|]. split.
    + intros c0 t0 [= <- <-]. split; [reflexivity|].
      now rewrite <- app_assoc.
    + split; [discriminate|]. discriminate.
  - split; [right; eauto|]. split; [discriminate|].
    split; [auto|discriminate].
  - split; [right; eauto|]. split; [discriminate|]. split; [discriminate|].
    intros ->. now right.
Qed.

(** ** [benchmarks.py]: the row of a size *)

Ltac row_leaf :=
  simpl; split; [reflexivity|];
  eexists; split; [rewrite <- ?app_assoc; simpl; reflexivity|];
  first
    [ do 5 eexists; split; [reflexivity|]; split; [reflexivity|];
      split; intros H; solve [reflexivity | now elim H]
    | intros H; first [discriminate H | split; [reflexivity|]; auto] ].

(** What a row does to the three lists and to the log.  A row that
    returns has executed the circuit on the three simulators, the CPU
    without a failure, and has given each list one entry, [nan] for a GPU
    simulator whose execution raised.  An [Exception] that leaves the row
    comes from the building of the circuit or from the CPU execution, and
    the lists are then as they were. *)
Lemma benchmarks_row_cases sim_cpu sim_g1 sim_g2 n s a b c :
  st_results s = three_lists a b c ->
  let qc := mkCircuit n Benchmarks.depth Benchmarks.seed in
  let end_ := Benchmarks.row sim_cpu sim_g1 sim_g2 n s in
  st_files (snd end_) = st_files s /\
  exists evs,
    st_log (snd end_) = st_log s ++ evs /\
    match fst end_ with
    | Ret _ =>
        exists ta tb tc o1 o2,
          st_results (snd end_)
          = three_lists (a ++ [ta]) (b ++ [tb]) (c ++ [tc]) /\
          runs evs = [(sim_cpu, qc, None); (sim_g1, qc, o1); (sim_g2, qc, o2)] /\
          (o1 <> None -> tb = nan) /\
          (o2 <> None -> tc = nan)
    | Raise e =>
        is_Exception e = true ->
        st_results (snd end_) = st_results s /\
        (evs = [EBuild n Benchmarks.depth Benchmarks.seed (Some e)] \/
         evs = [EBuild n Benchmarks.depth Benchmarks.seed None;
                EPrint (MRunning n); ERun sim_cpu qc (Some e)])
    end.
Proof.
  intros Ht qc end_. subst qc end_.
  destruct s as [w l t f]. simpl in Ht. subst t.
  unfold Benchmarks.row, Benchmarks.benchmark, make_circuit, simulator_run,
    call, bind, try_except, now, print, emit, ret, set_world, append_times,
    get_results, put_results, three_lists.
  simpl.
  destruct (build_circuit n Benchmarks.depth Benchmarks.seed w)
    as [[[cb tb| |cb]|] w1]; simpl; try row_leaf.
  destruct (time_time w1) as [t0 w2]; simpl.
  destruct (sim_execute sim_cpu _ w2) as [[[cc tc| |cc]|] w3]; simpl;
    try row_leaf.
  destruct (time_time w3) as [t1 w4]; simpl.
  destruct (time_time w4) as [t2 w5]; simpl.
  destruct (sim_execute sim_g1 _ w5) as [[[c1 x1| |c1]|] w6]; simpl;
    try row_leaf.
  - destruct (time_time w6) as [t3 w7]; simpl.
    destruct (sim_execute sim_g2 _ w7) as [[[c2 x2| |c2]|] w8]; simpl;
      try row_leaf.
    destruct (time_time w8) as [t4 w9]; simpl. row_leaf.
  - destruct (time_time w6) as [t3 w7]; simpl.
    destruct (time_time w7) as [t4 w8]; simpl.
    destruct (sim_execute sim_g2 _ w8) as [[[c2 x2| |c2]|] w9]; simpl;
      try row_leaf.
    destruct (time_time w9) as [t5 w10]; simpl. row_leaf.
Qed.

(** X14.  A row of [benchmarks.py] that returns has executed the circuit
    on the three simulators in order, the CPU simulator without a
    failure, and has added one entry to each of the three lists; the
    entry of a GPU simulator whose execution raised is [nan]. *)
Theorem benchmarks_row_returns sim_cpu sim_g1 sim_g2 n s a b c :
  st_results s = three_lists a b c ->
  fst (Benchmarks.row sim_cpu sim_g1 sim_g2 n s) = Ret tt ->
  let s' := snd (Benchmarks.row sim_cpu sim_g1 sim_g2 n s) in
  let qc := mkCircuit n Benchmarks.depth Benchmarks.seed in
  exists evs ta tb tc o1 o2,
    st_log s' = st_log s ++ evs /\
    runs evs = [(sim_cpu, qc, None); (sim_g1, qc, o1); (sim_g2, qc, o2)] /\
    st_results s' = three_lists (a ++ [ta]) (b ++ [tb]) (c ++ [tc]) /\
    (o1 <> None -> tb = nan) /\
    (o2 <> None -> tc = nan).
Proof.
  intros Ht Hr s' qc. subst s' qc.
  destruct (benchmarks_row_cases sim_cpu sim_g1 sim_g2 n s a b c Ht)
    as (_ & evs & Hlog & H).
  rewrite Hr in H. destruct H as (ta & tb & tc & o1 & o2 & H1 & H2 & H3 & H4).
  exists evs, ta, tb, tc, o1, o2. auto.
Qed.

(** X15.  An [Exception] that leaves a row of [benchmarks.py] was raised
    by the building of the circuit or by the CPU execution, which is then
    the last event of the row: no GPU simulator ran the circuit, and the
    three lists and the files are as they were. *)
Theorem benchmarks_row_raises sim_cpu sim_g1 sim_g2 n s a b c e :
  st_results s = three_lists a b c ->
  fst (Benchmarks.row sim_cpu sim_g1 sim_g2 n s) = Raise e ->
  is_Exception e = true ->
  let s' := snd (Benchmarks.row sim_cpu sim_g1 sim_g2 n s) in
  let qc := mkCircuit n Benchmarks.depth Benchmarks.seed in
  st_results s' = st_results s /\
  st_files s' = st_files s /\
  (st_log s' = st_log s ++ [EBuild n Benchmarks.depth Benchmarks.seed (Some e)]
   \/
   st_log s' = st_log s ++ [EBuild n Benchmarks.depth Benchmarks.seed None;
                            EPrint (MRunning n); ERun sim_cpu qc (Some e)]).
Proof.
  intros Ht Hr He s' qc. subst s' qc.
  destruct (benchmarks_row_cases sim_cpu sim_g1 sim_g2 n s a b c Ht)
    as (Hf & evs & Hlog & H).
  rewrite Hr in H. destruct (H He) as (H1 & H2).
  split; [exact H1|]. split; [exact Hf|].
  rewrite Hlog. destruct H2 as [-> | ->]; auto.
Qed.

(** ** [benchmarks.py]: the loop and the script *)

Lemma benchmarks_loop sim_cpu sim_g1 sim_g2 sizes :
  forall s a b c,
    st_results s = three_lists a b c ->
    let end_ := for_each sizes (Benchmarks.row sim_cpu sim_g1 sim_g2) s in
    st_files (snd end_) = st_files s /\
    exists evs,
      st_log (snd end_) = st_log s ++ evs /\
      match fst end_ with
      | Ret _ =>
          exists a' b' c',
            st_results (snd end_) = three_lists (a ++ a') (b ++ b') (c ++ c') /\
            List.length a' = List.length sizes /\
            List.length b' = List.length sizes /\
            List.length c' = List.length sizes /\
            executions evs = script_executions sim_cpu sim_g1 sim_g2 sizes
      | Raise e =>
          is_Exception e = true ->
          exists n,
            In n sizes /\
            (In (EBuild n Benchmarks.depth Benchmarks.seed (Some e)) evs \/
             In (ERun sim_cpu (mkCircuit n Benchmarks.depth Benchmarks.seed)
                      (Some e)) evs)
      end.
Proof.
  induction sizes as [|n sizes IH]; intros s a b c Ht end_; subst end_.
  - simpl. split; [reflexivity|]. exists []. rewrite app_nil_r.
    split; [reflexivity|].
    exists [], [], []. rewrite !app_nil_r. auto.
  - simpl. unfold bind.
    destruct (benchmarks_row_cases sim_cpu sim_g1 sim_g2 n s a b c Ht)
      as (Hf & evs & Hlog & H).
    destruct (Benchmarks.row sim_cpu sim_g1 sim_g2 n s) as [[[]|e] s1] eqn:Erow;
      simpl in Hf, Hlog, H.
    + destruct H as (ta & tb & tc & o1 & o2 & Hres & Hruns & _ & _).
      pose proof (IH s1 _ _ _ Hres) as IH1. cbv zeta in IH1.
      destruct IH1 as (Hf2 & evs2 & Hlog2 & H2).
      split; [congruence|].
      exists (evs ++ evs2).
      split; [rewrite Hlog2, Hlog; now rewrite app_assoc|].
      destruct (for_each sizes (Benchmarks.row sim_cpu sim_g1 sim_g2) s1)
        as [[[]|e] s2]; simpl in H2 |- *.
      * destruct H2 as (a' & b' & c' & Hres2 & Ha & Hb & Hc & Hex).
        exists (ta :: a'), (tb :: b'), (tc :: c').
        rewrite Hres2, <- !app_assoc. simpl.
        repeat split; try congruence.
        rewrite executions_app, Hex. unfold executions at 1. rewrite Hruns.
        reflexivity.
      * intros He. destruct (H2 He) as (m & Hm & Hev).
        exists m. split; [now right|].
        destruct Hev as [Hev|Hev]; [left|right]; apply in_or_app; now right.
    + split; [exact Hf|]. exists evs. split; [exact Hlog|].
      intros He. destruct (H He) as (_ & Hev).
      exists n. split; [now left|].
      destruct Hev as [-> | ->]; [left|right]; simpl; auto.
Qed.

Lemma benchmarks_plots_run sizes a b c s :
  st_results s = three_lists a b c ->
  List.length a = List.length sizes ->
  List.length b = List.length sizes ->
  List.length c = List.length sizes ->
  Benchmarks.plots sizes s
  = (Ret tt,
     with_file "three_backend_comparison.png"
               (FigureFile (script_figure sizes a b c)) s).
Proof.
  intros Ht Ha Hb Hc. destruct s as [w l t f]. simpl in Ht. subst t.
  unfold Benchmarks.plots, with_file, script_figure.
  rewrite (bind_eq_ret get_results _ _ _ _ eq_refl). cbv beta.
  unfold three_lists, dict_item, st_results. simpl dict_get. cbv iota.
  rewrite (bind_eq_ret (ret _) _ _ _ _ eq_refl). cbv beta.
  rewrite (bind_eq_ret (ret _) _ _ _ _ eq_refl). cbv beta.
  rewrite (bind_eq_ret (ret _) _ _ _ _ eq_refl). cbv beta.
  simpl times.
  erewrite bind_eq_ret; [|apply np_divide_same_length; congruence].
  erewrite bind_eq_ret; [|apply np_divide_same_length; congruence].
  erewrite bind_eq_ret;
    [|apply ax_plot_same_length; rewrite length_quotients; congruence].
  erewrite bind_eq_ret;
    [|apply ax_plot_same_length; rewrite length_quotients; congruence].
  cbv zeta.
  erewrite bind_eq_ret; [|apply ax_plot_same_length; congruence].
  erewrite bind_eq_ret; [|apply ax_plot_same_length; congruence].
  erewrite bind_eq_ret; [|apply ax_plot_same_length; congruence].
  reflexivity.
Qed.

Lemma bind_new_simulator {B : Type} sim (k : AerSimulator -> M B) s :
  (x <- new_simulator sim ;; k x) s
  = let s1 := mkState (snd (aer_init sim (st_world s)))
                      (st_log s ++ [EInit sim (fst (aer_init sim (st_world s)))])
                      (st_results s) (st_files s) in
    match fst (aer_init sim (st_world s)) with
    | None => k sim s1
    | Some e => (Raise e, s1)
    end.
Proof.
  unfold bind. rewrite new_simulator_run.
  destruct (fst (aer_init sim (st_world s))); reflexivity.
Qed.

(** The twelve sizes of [benchmarks.py]: [range(2, 25, 2)]. *)
Lemma benchmarks_sizes s :
  py_range 2 25 2 s = (Ret [2; 4; 6; 8; 10; 12; 14; 16; 18; 20; 22; 24], s).
Proof. reflexivity. Qed.

Lemma benchmarks_script_cases s :
  let sizes := [2; 4; 6; 8; 10; 12; 14; 16; 18; 20; 22; 24] in
  let sim_cpu := mkSim CPU None None in
  let sim_g1 := mkSim GPU None (Some false) in
  let sim_g2 := mkSim GPU None (Some true) in
  let end_ := Benchmarks.script s in
  exists evs,
    st_log (snd end_) = st_log s ++ evs /\
    match fst end_ with
    | Ret _ =>
        exists a b c evs',
          st_results (snd end_) = three_lists a b c /\
          List.length a = 12%nat /\
          List.length b = 12%nat /\
          List.length c = 12%nat /\
          st_files (snd end_)
          = dict_set (st_files s) "three_backend_comparison.png"
                     (FigureFile (script_figure sizes a b c)) /\
          evs = [EInit sim_cpu None; EInit sim_g1 None; EInit sim_g2 None]
                ++ evs' /\
          executions evs' = script_executions sim_cpu sim_g1 sim_g2 sizes
    | Raise e =>
        st_files (snd end_) = st_files s /\
        (is_Exception e = true ->
         (exists before sim,
            evs = map (fun x => EInit x None) before ++ [EInit sim (Some e)]) \/
         (exists n,
            In n sizes /\
            (In (EBuild n Benchmarks.depth Benchmarks.seed (Some e)) evs \/
             In (ERun sim_cpu (mkCircuit n Benchmarks.depth Benchmarks.seed)
                      (Some e)) evs)))
    end.
Proof.
  intros sizes sim_cpu sim_g1 sim_g2 end_. subst end_.
  unfold Benchmarks.script.
  rewrite (bind_eq_ret (py_range 2 25 2) _ _ _ _ (benchmarks_sizes s)).
  fold sizes sim_cpu sim_g1 sim_g2.
  rewrite bind_new_simulator. cbv zeta.
  destruct (aer_init sim_cpu (st_world s)) as [[e1|] w1];
    cbn [fst snd].
  { exists [EInit sim_cpu (Some e1)]. split; [reflexivity|].
    split; [reflexivity|]. intros _. left. exists [], sim_cpu. reflexivity. }
  rewrite bind_new_simulator. cbv zeta. cbn [st_world st_log st_results st_files].
  destruct (aer_init sim_g1 w1) as [[e2|] w2]; cbn [fst snd].
  { exists [EInit sim_cpu None; EInit sim_g1 (Some e2)].
    split; [now rewrite <- app_assoc|].
    split; [reflexivity|]. intros _. left. exists [sim_cpu], sim_g1.
    reflexivity. }
  rewrite bind_new_simulator. cbv zeta. cbn [st_world st_log st_results st_files].
  destruct (aer_init sim_g2 w2) as [[e3|] w3]; cbn [fst snd].
  { exists [EInit sim_cpu None; EInit sim_g1 None; EInit sim_g2 (Some e3)].
    split; [now rewrite <- !app_assoc|].
    split; [reflexivity|]. intros _. left. exists [sim_cpu; sim_g1], sim_g2.
    reflexivity. }
  rewrite (bind_eq_ret (put_results _) _ _ _ _ eq_refl).
  cbn [st_world st_log st_results st_files].
  match goal with
  | |- context [bind (for_each _ _) _ ?st] => set (s4 := st)
  end.
  pose proof (benchmarks_loop sim_cpu sim_g1 sim_g2 sizes s4 [] [] [] eq_refl)
    as Hloop.
  cbv zeta in Hloop. destruct Hloop as (Hf & evs & Hlog & H).
  destruct (for_each sizes (Benchmarks.row sim_cpu sim_g1 sim_g2) s4)
    as [[[]|e] s5] eqn:Eloop; cbn [fst snd] in Hf, Hlog, H.
  - rewrite (bind_eq_ret _ _ _ _ _ Eloop).
    destruct H as (a & b & c & Hres & Ha & Hb & Hc & Hex).
    simpl in Hres.
    rewrite (benchmarks_plots_run sizes a b c s5 Hres Ha Hb Hc).
    cbn [fst snd with_file st_log st_results st_files].
    exists ([EInit sim_cpu None; EInit sim_g1 None; EInit sim_g2 None] ++ evs).
    split.
    { rewrite Hlog. subst s4. cbn [st_log]. now rewrite <- !app_assoc. }
    exists a, b, c, evs. rewrite Hf. subst s4. cbn [st_files].
    repeat split; auto.
  - rewrite (bind_eq_raise _ _ _ _ _ Eloop). cbn [fst snd].
    exists ([EInit sim_cpu None; EInit sim_g1 None; EInit sim_g2 None] ++ evs).
    split.
    { rewrite Hlog. subst s4. cbn [st_log]. now rewrite <- !app_assoc. }
    split; [rewrite Hf; reflexivity|].
    intros He. right. destruct (H He) as (n & Hn & Hev).
    exists n. split; [exact Hn|].
    destruct Hev as [Hev|Hev]; [left|right]; apply in_or_app; now right.
Qed.

(** X16.  When [benchmarks.py] runs to its end, the three constructors
    have returned, every one of the twelve circuits has been executed on
    the three simulators in order, each of the three lists has twelve
    entries, and the figure is written with its five curves: once the
    loop is over nothing can fail any more. *)
Theorem benchmarks_script_returns s :
  fst (Benchmarks.script s) = Ret tt ->
  let s' := snd (Benchmarks.script s) in
  let sizes := [2; 4; 6; 8; 10; 12; 14; 16; 18; 20; 22; 24] in
  let sim_cpu := mkSim CPU None None in
  let sim_g1 := mkSim GPU None (Some false) in
  let sim_g2 := mkSim GPU None (Some true) in
  exists a b c evs,
    st_results s' = three_lists a b c /\
    List.length a = 12%nat /\
    List.length b = 12%nat /\
    List.length c = 12%nat /\
    st_files s'
    = dict_set (st_files s) "three_backend_comparison.png"
               (FigureFile (script_figure sizes a b c)) /\
    st_log s'
    = st_log s ++ [EInit sim_cpu None; EInit sim_g1 None; EInit sim_g2 None]
      ++ evs /\
    executions evs = script_executions sim_cpu sim_g1 sim_g2 sizes.
Proof.
  intros Hr s' sizes sim_cpu sim_g1 sim_g2. subst s'.
  destruct (benchmarks_script_cases s) as (evs & Hlog & H).
  rewrite Hr in H.
  destruct H as (a & b & c & evs' & Hres & Ha & Hb & Hc & Hf & Hev & Hex).
  exists a, b, c, evs'. rewrite Hlog, Hev. auto 10.
Qed.

(** X17.  When [benchmarks.py] ends with an exception, no figure is
    written.  If the exception is an [Exception], it was raised by one of
    the three constructors, which are all outside any [try] and of which
    the failing one is then the last event of the script, or by the
    building of a circuit, or by a CPU execution: never by an execution
    on a GPU simulator. *)
Theorem benchmarks_script_raises s e :
  fst (Benchmarks.script s) = Raise e ->
  let s' := snd (Benchmarks.script s) in
  let sim_cpu := mkSim CPU None None in
  st_files s' = st_files s /\
  (is_Exception e = true ->
   exists evs,
     st_log s' = st_log s ++ evs /\
     ((exists before sim,
         evs = map (fun x => EInit x None) before ++ [EInit sim (Some e)]) \/
      (exists n,
         In n [2; 4; 6; 8; 10; 12; 14; 16; 18; 20; 22; 24] /\
         (In (EBuild n Benchmarks.depth Benchmarks.seed (Some e)) evs \/
          In (ERun sim_cpu (mkCircuit n Benchmarks.depth Benchmarks.seed)
                   (Some e)) evs)))).
Proof.
  intros Hr s' sim_cpu. subst s'.
  destruct (benchmarks_script_cases s) as (evs & Hlog & H).
  rewrite Hr in H. destruct H as (Hf & H).
  split; [exact Hf|]. intros He. exists evs. split; [exact Hlog|]. auto.
Qed.

(** ** [r&d/base.py] *)

Section BaseFacts.

Variable statevector : Type.
Variable get_statevector : AerSimulator -> circuit -> statevector.
Variable norm_diff : statevector -> statevector -> float.

Ltac base_leaf :=
  simpl; split; [reflexivity|]; split; [reflexivity|];
  eexists; split; [rewrite <- ?app_assoc; simpl; reflexivity|];
  first
    [ split; reflexivity
    | intros e' Hin He; simpl in Hin;
      repeat (destruct Hin as [Hin|Hin]);
      try contradiction; try discriminate;
      inversion Hin; subst; simpl in He;
      first [discriminate He | split; [reflexivity | simpl; auto 10]] ].

Lemma base_script_cases s :
  let qc := mkCircuit Base.n_qubits Base.depth Base.seed in
  let sim_cpu := mkSim CPU None None in
  let sim_gpu := mkSim GPU None None in
  let end_ := Base.script statevector get_statevector norm_diff s in
  st_results (snd end_) = st_results s /\
  st_files (snd end_) = st_files s /\
  exists evs,
    st_log (snd end_) = st_log s ++ evs /\
    match fst end_ with
    | Ret x =>
        x = norm_diff (get_statevector sim_cpu qc) (get_statevector sim_gpu qc)
        /\ runs evs = [(sim_cpu, qc, None); (sim_gpu, qc, None)]
    | Raise e =>
        forall e',
          In (ERun sim_gpu qc (Some e')) evs ->
          is_Exception e' = true ->
          e = Base.NameError "state_gpu" /\
          In (EPrint (MGpuFailed "GPU simulation not available" e')) evs
    end.
Proof.
  intros qc sim_cpu sim_gpu end_. subst qc sim_cpu sim_gpu end_.
  destruct s as [w l t f].
  unfold Base.script, Base.benchmark, Base.read_name, make_circuit,
    new_simulator, simulator_run, call, bind, try_except, now, print, emit,
    ret, raise, set_world.
  simpl.
  destruct (build_circuit Base.n_qubits Base.depth Base.seed w)
    as [[[cb tb| |cb]|] w1]; simpl; try base_leaf.
  destruct (aer_init _ w1) as [[[ci ti| |ci]|] w2]; simpl; try base_leaf.
  destruct (aer_init _ w2) as [[[cj tj| |cj]|] w3]; simpl; try base_leaf.
  destruct (time_time w3) as [t0 w4]; simpl.
  destruct (sim_execute _ _ w4) as [[[cc tc| |cc]|] w5]; simpl; try base_leaf.
  destruct (time_time w5) as [t1 w6]; simpl.
  destruct (time_time w6) as [t2 w7]; simpl.
  destruct (sim_execute _ _ w7) as [[[cg tg| |cg]|] w8]; simpl; try base_leaf.
  destruct (time_time w8) as [t3 w9]; simpl. base_leaf.
Qed.

(** X18.  In [base.py] the handler of the GPU run prints its message and
    assigns nothing.  Whenever the GPU execution raises an [Exception],
    the script therefore ends at its last line with
    [NameError: name 'state_gpu' is not defined], after the message of
    the handler, and no state difference is computed. *)
Theorem base_gpu_failure_is_NameError s evs e :
  let qc := mkCircuit Base.n_qubits Base.depth Base.seed in
  let end_ := Base.script statevector get_statevector norm_diff s in
  st_log (snd end_) = st_log s ++ evs ->
  In (ERun (mkSim GPU None None) qc (Some e)) evs ->
  is_Exception e = true ->
  fst end_ = Raise (Base.NameError "state_gpu") /\
  In (EPrint (MGpuFailed "GPU simulation not available" e)) evs.
Proof.
  intros qc end_ Hlog Hin He. subst qc end_.
  destruct (base_script_cases s) as (_ & _ & evs' & Hlog' & H).
  rewrite Hlog' in Hlog. apply app_inv_head in Hlog. subst evs'.
  destruct (fst (Base.script statevector get_statevector norm_diff s))
    as [x|e0].
  - destruct H as (_ & Hruns). exfalso.
    assert (Hr : In (mkSim GPU None None,
                     mkCircuit Base.n_qubits Base.depth Base.seed, Some e)
                    (runs evs)).
    { unfold runs. apply in_flat_map. eexists. split; [exact Hin|].
      simpl. now left. }
    rewrite Hruns in Hr. simpl in Hr.
    destruct Hr as [Hr|[Hr|[]]]; discriminate.
  - destruct (H e Hin He) as (-> & Hp). auto.
Qed.

(** X19.  When [base.py] returns, both executions went through, the CPU
    one first, and the number it prints is the distance between the
    statevectors of the two results; it has written no file. *)
Theorem base_script_returns s x :
  let qc := mkCircuit Base.n_qubits Base.depth Base.seed in
  let sim_cpu := mkSim CPU None None in
  let sim_gpu := mkSim GPU None None in
  let end_ := Base.script statevector get_statevector norm_diff s in
  fst end_ = Ret x ->
  x = norm_diff (get_statevector sim_cpu qc) (get_statevector sim_gpu qc) /\
  st_files (snd end_) = st_files s /\
  exists evs,
    st_log (snd end_) = st_log s ++ evs /\
    runs evs = [(sim_cpu, qc, None); (sim_gpu, qc, None)].
Proof.
  intros qc sim_cpu sim_gpu end_ Hr. subst qc sim_cpu sim_gpu end_.
  destruct (base_script_cases s) as (_ & Hf & evs & Hlog & H).
  rewrite Hr in H. destruct H as (Hx & Hruns).
  split; [exact Hx|]. split; [exact Hf|]. exists evs. auto.
Qed.

End BaseFacts.

(** X2.  Bounds that run the wrong way are not refused: with
    [max_qubits] below [min_qubits], or with a negative step, a run that
    returns has measured nothing.  Every column of its table is empty,
    and the CSV file, if asked for, is the header line alone. *)
Theorem inverted_bounds_measure_nothing args s :
  (0 < step args /\ max_qubits args < min_qubits args) \/
  (step args < 0 /\ min_qubits args <= max_qubits args) ->
  fst (run_benchmarks args s) = Ret tt ->
  let s' := snd (run_benchmarks args s) in
  columns_of_length 0 (st_results s') /\
  (save_data args = true ->
   dict_get (st_files s') (path_join (output_dir args) "benchmark_results.csv")
   = Some (CsvFile (writerow (csv_headers (st_results s')) ++ "")%string)).
Proof.
  intros Hb Hr s'. subst s'.
  destruct (run_benchmarks args s) as [r s'] eqn:E. simpl in Hr |- *. subst r.
  destruct (run_benchmarks_cases _ _ _ _ E)
    as [(Hne & _) | (backends & sizes & s6 & Hsz & Hnd & _ & Hcols & _ & Hex)];
    [now elim Hne|].
  rewrite (range_of_inverted_bounds args s Hb) in Hsz. simpl in Hsz.
  inversion Hsz; subst sizes.
  destruct (export_phase_complete args [] (output_dir args) s6 Hnd Hcols)
    as (s'' & Hex' & Hres & Hcsv & _).
  rewrite Hex in Hex'. inversion Hex'; subst s''.
  rewrite Hres. split; [exact Hcols|].
  intros Hsave. rewrite (Hcsv Hsave). reflexivity.
Qed.

End Facts.

(** * The properties on scripted runs *)

Import Scripted.

(** C1.  In [benchmarks.py] the CPU execution is outside any [try].  With
    a CPU simulator that fails on the circuit of four qubits, the
    exception leaves the loop: the script ends with it after the first
    row, the GPU simulators are not run on the second circuit, none of the
    ten later sizes is attempted and no figure is written. *)
Theorem cpu_failure_aborts_script :
  let end_ := run cpu_fails_at_4 Benchmarks.script in
  fst end_ = Raise (RuntimeError "cpu") /\
  exit_status (fst end_) = 1 /\
  st_results (snd end_)
  = [("cpu_times", mkColumn [Ticks 2] []);
     ("gpu_default_times", mkColumn [Ticks 2] []);
     ("gpu_custatevec_times", mkColumn [Ticks 2] [])] /\
  executions (st_log (snd end_))
  = [(mkSim CPU None None, mkCircuit 2 10 42);
     (mkSim GPU None (Some false), mkCircuit 2 10 42);
     (mkSim GPU None (Some true), mkCircuit 2 10 42);
     (mkSim CPU None None, mkCircuit 4 10 42)] /\
  st_files (snd end_) = [].
Proof. cbv zeta. repeat split; reflexivity. Qed.

(** In the same script a GPU simulator that fails on the circuit of four
    qubits costs its own cell only: the sweep goes through its twelve
    sizes and the figure is written. *)
Lemma gpu_failure_is_one_cell :
  let end_ := run gpu_fails_at_4 Benchmarks.script in
  fst end_ = Ret tt /\
  map (fun kc => (fst kc, List.length (times (snd kc)))) (st_results (snd end_))
  = [("cpu_times", 12%nat); ("gpu_default_times", 12%nat);
     ("gpu_custatevec_times", 12%nat)] /\
  dict_mem (st_files (snd end_)) "three_backend_comparison.png" = true.
Proof. cbv zeta. repeat split; reflexivity. Qed.

(** C2 on a run: of three repeats the second raises. *)
Lemma trial_all_or_nothing_witness :
  let s := one_column second_execution_fails "x" in
  let qc := mkCircuit 2 10 42 in
  exists evs r s',
    trial 3 qc ("x", cpu) s = (r, s') /\
    st_log s' = st_log s ++ evs /\
    ((exists ts,
        Z.of_nat (List.length ts) = 3 /\
        runs evs = repeat (cpu, qc, None) (Z.to_nat 3) /\
        r = Ret tt /\
        st_results s' = push_cell "x" (np_mean ts) (np_std ts) (st_results s))
     \/
     (exists k e,
        1 <= k <= 3 /\
        runs evs = repeat (cpu, qc, None) (Z.to_nat (k - 1))
                   ++ [(cpu, qc, Some e)] /\
        if is_Exception e
        then r = Ret tt /\
             st_results s' = push_cell "x" nan nan (st_results s) /\
             In (EPrint (MFailed "x" e)) evs
        else r = Raise e /\ st_results s' = st_results s)).
Proof.
  intros s qc.
  apply (trial_all_or_nothing 3 qc "x" cpu s).
  - lia.
  - simpl. left. reflexivity.
Defined.

(** C3 on a run: the constructor of the CPU simulator raises. *)
Lemma cpu_constructor_failure_aborts_witness :
  main default_args (start cpu_init_fails)
  = (Raise (SystemExit 1),
     mkState
       (snd (aer_init (mkSim CPU (Some double) None)
                      (st_world (start cpu_init_fails))))
       (st_log (start cpu_init_fails)
        ++ [EPrint MBanner; EMkdir "./results";
            EInit (mkSim CPU (Some double) None) (Some (RuntimeError "no cpu"));
            EPrint (MError (RuntimeError "no cpu")); EPrint MTraceback])
       (st_results (start cpu_init_fails)) (st_files (start cpu_init_fails))).
Proof.
  apply (cpu_constructor_failure_aborts default_args (start cpu_init_fails)
           "RuntimeError" "no cpu").
  - reflexivity.
  - reflexivity.
Defined.

(** With a GPU constructor that raises, the run goes on without that
    backend: its name is no key of the table. *)
Lemma gpu_constructor_failure_is_skipped :
  let sc := mkScenario
              (fun sim => match sim_cuStateVec sim with
                          | Some true => Some (RuntimeError "no cuStateVec")
                          | _ => None
                          end)
              (fun _ _ => None) (fun _ _ _ => None) in
  let end_ := run sc (main (small_args ["all"] false false false 1)) in
  fst end_ = Ret tt /\
  keys (st_results (snd end_)) = ["cpu"; "gpu_default"].
Proof. cbv zeta. repeat split; reflexivity. Qed.

(** C4 on a run: three backends, the sizes 2 and 4. *)
Lemma completed_sweep_is_rectangular_witness :
  let args := small_args ["all"] true true false 2 in
  let s := start all_fine in
  exists backends sizes s0 s1,
    (print MBanner ;; emit (EMkdir (output_dir args))) s = (Ret tt, s0) /\
    setup_backends (arg_precision args) (backends_arg args) s0
    = (Ret backends, s1) /\
    py_range (min_qubits args) (max_qubits args + 1) (step args) s1
    = (Ret sizes, s1) /\
    keys (st_results (snd (run_benchmarks args s))) = keys backends /\
    columns_of_length (List.length sizes)
                      (st_results (snd (run_benchmarks args s))).
Proof.
  intros args s.
  apply (completed_sweep_is_rectangular args s).
  reflexivity.
Defined.

(** C5 on a table: the GPU backend failed at size 4. *)
Lemma speedup_of_failure_is_nan_witness :
  let s := after_one_failure in
  let sizes := [2; 4] in
  let out := "./results" in
  exists fig s',
    generate_plots sizes out s = (Ret tt, s') /\
    st_results s' = st_results s /\
    dict_get (st_files s') (path_join out "benchmark_comparison.png")
    = Some (FigureFile fig) /\
    (dict_get (st_results s) "cpu" = None ->
     forall label xs ys, ~ In (Plot ax1 label xs ys) fig) /\
    (forall cpu name c,
       dict_get (st_results s) "cpu" = Some cpu ->
       In (name, c) (st_results s) ->
       name <> "cpu" ->
       exists ys,
         In (Plot ax1 (name ++ " vs CPU")%string sizes ys) fig /\
         List.length ys = List.length sizes /\
         forall i,
           nth_error (times cpu) i = Some nan \/ nth_error (times c) i = Some nan ->
           nth_error ys i = Some nan).
Proof.
  intros s sizes out.
  apply (speedup_of_failure_is_nan sizes out s).
  - intros x. reflexivity.
  - intros [z|]; reflexivity.
  - intros name c [H|[H|[]]]; inversion H; reflexivity.
Defined.

(** C5 on a whole run.  The GPU backend fails at size 4: its
    cell there is the failure cell, and the speedup series of the figure
    has a point at size 4 all the same, whose value is NaN. *)
Lemma failure_reaches_the_chart :
  let end_ := run gpu_fails_at_4
                  (main (small_args ["cpu"; "gpu_default"] false true false 1)) in
  fst end_ = Ret tt /\
  dict_get (st_results (snd end_)) "gpu_default"
  = Some (mkColumn [Ticks 2; NaN] [Ticks 0; NaN]) /\
  dict_get (st_files (snd end_)) "./results/benchmark_comparison.png"
  = Some (FigureFile
            [Plot ax1 "gpu_default vs CPU" [2; 4] [Ticks 1; NaN];
             Axhline ax1 1 "No speedup";
             Plot ax2 "cpu" [2; 4] [Ticks 2; Ticks 4];
             Plot ax2 "gpu_default" [2; 4] [Ticks 2; NaN]]).
Proof. cbv zeta. repeat split; reflexivity. Qed.

(** C6 on a run: the interrupt comes while the second circuit is built. *)
Lemma interrupted_run_exports_nothing_witness :
  let args := small_args ["all"] true true false 1 in
  let s := start interrupt_before_second_row in
  let s1 := snd (run_benchmarks args s) in
  main args s
  = (Raise (SystemExit 1),
     mkState (st_world s1) (st_log s1 ++ [EPrint MInterrupted])
             (st_results s1) (st_files s1)) /\
  exit_status (fst (main args s)) = 1 /\
  st_files (snd (main args s)) = st_files s.
Proof.
  intros args s.
  apply (interrupted_run_exports_nothing args s).
  reflexivity.
Defined.

(** C6 on a whole run.  The first row is complete when the user
    interrupts; both exports were asked for; the process exits with
    status 1 and has written no file. *)
Lemma interrupted_rows_are_not_exported :
  let args := small_args ["all"] true true false 1 in
  let end_ := run interrupt_before_second_row (main args) in
  save_data args = true /\ no_plots args = false /\
  st_results (snd end_)
  = [("cpu", mkColumn [Ticks 2] [Ticks 0]);
     ("gpu_default", mkColumn [Ticks 2] [Ticks 0]);
     ("gpu_custatevec", mkColumn [Ticks 2] [Ticks 0])] /\
  fst end_ = Raise (SystemExit 1) /\
  exit_status (fst end_) = 1 /\
  st_files (snd end_) = [].
Proof. cbv zeta. repeat split; reflexivity. Qed.

(** C7 on a run: one backend. *)
Lemma warmup_once_per_backend_witness :
  let args := small_args ["cpu"] false false true 1 in
  let backends := [("cpu", cpu)] in
  let s := start all_fine in
  exists evs r s',
    warmup_phase args backends s = (r, s') /\
    st_log s' = st_log s ++ evs /\
    st_results s' = st_results s /\
    (r = Ret tt ->
     executions evs
     = map (fun nb => (snd nb, mkCircuit (min_qubits args) (depth args)
                                         (seed args))) backends) /\
    (forall sim qc e, In (sim, qc, Some e) (runs evs) ->
       is_Exception e = true ->
       exists name, In (EPrint (MWarmupFail name e)) evs) /\
    (forall e, r = Raise e ->
       is_Exception e = false \/
       In (EBuild (min_qubits args) (depth args) (seed args) (Some e)) evs).
Proof.
  intros args backends s.
  apply (warmup_once_per_backend args backends s).
  reflexivity.
Defined.

(** C7 on a whole run.  With the warmup flag, one backend, one
    repeat and the sizes 2 and 4, the executions are one warmup on the
    circuit of size 2 and one timed execution per size: the trial on the
    circuit of size 4 has no execution of that circuit before it. *)
Lemma warmup_is_not_per_trial :
  let args := small_args ["cpu"] false false true 1 in
  let end_ := run all_fine (main args) in
  warmup args = true /\
  fst end_ = Ret tt /\
  executions (st_log (snd end_))
  = [(cpu, mkCircuit 2 10 42); (cpu, mkCircuit 2 10 42);
     (cpu, mkCircuit 4 10 42)].
Proof. cbv zeta. repeat split; reflexivity. Qed.

(** C8 on a run: a step of zero, and a trial of zero repeats. *)
Lemma unvalidated_parameters_witness :
  let s := start all_fine in
  let st := one_column all_fine "cpu" in
  let qc := mkCircuit 2 10 42 in
  (exists code s' evs,
     main zero_args s = (Raise (SystemExit code), s') /\
     st_log s' = st_log s ++ evs /\
     Forall before_trials evs /\
     st_results s' = st_results s /\
     st_files s' = st_files s /\
     (code = 1 \/ exists sim, In (EInit sim (Some (SystemExit code))) evs) /\
     (forall backends,
        fst ((print MBanner ;; emit (EMkdir (output_dir zero_args)) ;;
              setup_backends (arg_precision zero_args)
                             (backends_arg zero_args)) s)
        = Ret backends ->
        backends <> [] ->
        code = 1 /\
        exists evs',
          evs = evs' ++ [EPrint (MError (ValueError
                                           "range() arg 3 must not be zero"));
                         EPrint MTraceback])) /\
  trial (repeats zero_args) qc ("cpu", cpu) st
  = (Ret tt,
     mkState (st_world st)
             (st_log st ++ [EPrint (MTiming "cpu" (np_mean []) None)])
             (push_cell "cpu" (np_mean []) (np_std []) (st_results st))
             (st_files st)).
Proof.
  intros s st qc. split.
  - apply (proj1 (unvalidated_parameters zero_args) s). reflexivity.
  - apply (proj2 (unvalidated_parameters zero_args) qc "cpu" cpu st).
    + simpl. lia.
    + simpl. left. reflexivity.
Defined.

(** A step of zero on a whole run, with the CPU backend registered: the
    run ends through the [ValueError] of [range], and the exit status is
    1. *)
Lemma zero_step_is_a_ValueError :
  let end_ := run all_fine (main zero_args) in
  step zero_args = 0 /\
  fst end_ = Raise (SystemExit 1) /\
  exit_status (fst end_) = 1 /\
  st_log (snd end_)
  = [EPrint MBanner; EMkdir "./results";
     EInit cpu None; EPrint (MInitOk "cpu" double);
     EPrint (MError (ValueError "range() arg 3 must not be zero"));
     EPrint MTraceback] /\
  st_files (snd end_) = [].
Proof. cbv zeta. repeat split; reflexivity. Qed.

(** C8 on a whole run.  With a repeat count of zero the run is
    not refused: it ends normally, nothing was executed, and the table and
    the CSV file have a cell per backend and size. *)
Lemma zero_repeats_still_sweeps :
  let args := small_args ["cpu"] true false false 0 in
  let end_ := run all_fine (main args) in
  repeats args = 0 /\
  fst end_ = Ret tt /\
  exit_status (fst end_) = 0 /\
  executions (st_log (snd end_)) = [] /\
  st_results (snd end_) = [("cpu", mkColumn [NaN; NaN] [NaN; NaN])] /\
  dict_mem (st_files (snd end_)) "./results/benchmark_results.csv" = true.
Proof. cbv zeta. repeat split; reflexivity. Qed.

(** C10 on a run: the two GPU backends are asked for and neither can be
    constructed, while the CPU simulator, which is not asked for, could
    be. *)
Lemma no_backend_no_run_witness :
  let args := gpu_only_args in
  let s := start gpu_init_fails in
  exists s',
    main args s = (Raise (SystemExit 1), s') /\
    exit_status (fst (main args s)) = 1 /\
    logs before_trials s s' /\
    st_results s' = st_results s /\
    st_files s' = st_files s /\
    (requested (backends_arg args) "cpu" = false ->
     exists evs, st_log s' = st_log s ++ evs ++ [EPrint MNoBackends]).
Proof.
  intros args s.
  apply (no_backend_no_run args s).
  intros name sim Hin w. simpl in Hin.
  destruct Hin as [H|[H|[]]]; inversion H; subst;
    exists "RuntimeError", "no gpu"; reflexivity.
Defined.

(** The same run, event by event: the check of the empty registry is
    reached, and nothing comes after its message. *)
Lemma empty_registry_is_reached :
  let end_ := run gpu_init_fails (main gpu_only_args) in
  fst end_ = Raise (SystemExit 1) /\
  st_log (snd end_)
  = [EPrint MBanner; EMkdir "./results";
     EInit (mkSim GPU (Some double) (Some false)) (Some (RuntimeError "no gpu"));
     EPrint (MInitWarn "gpu_default" (RuntimeError "no gpu"));
     EInit (mkSim GPU (Some double) (Some true)) (Some (RuntimeError "no gpu"));
     EPrint (MInitWarn "gpu_custatevec" (RuntimeError "no gpu"));
     EPrint MNoBackends] /\
  st_results (snd end_) = [] /\
  st_files (snd end_) = [].
Proof. cbv zeta. repeat split; reflexivity. Qed.

(** With every backend asked for and every constructor raising, the run
    ends through the exception of the CPU constructor instead, with the
    same exit status. *)
Lemma every_constructor_fails :
  let end_ := run no_backend (main default_args) in
  fst end_ = Raise (SystemExit 1) /\
  st_log (snd end_)
  = [EPrint MBanner; EMkdir "./results";
     EInit cpu (Some (RuntimeError "unavailable"));
     EPrint (MError (RuntimeError "unavailable")); EPrint MTraceback] /\
  st_results (snd end_) = [] /\
  st_files (snd end_) = [].
Proof. cbv zeta. repeat split; reflexivity. Qed.

(** The export of a table with a failure cell, as text: the sentinel of
    the failure is [nan]. *)
Lemma csv_of_a_failure :
  let end_ := save_benchmark_data [2; 4] "./results" after_one_failure in
  fst end_ = Ret tt /\
  st_files (snd end_)
  = [("./results/benchmark_results.csv",
      CsvFile
        (String.concat (String CR (String LF EmptyString))
           ["qubits,cpu_time,cpu_std,gpu_default_time,gpu_default_std";
            "2,2,0,2,0";
            "4,4,0,nan,nan";
            ""]))].
Proof. cbv zeta. split; reflexivity. Qed.

(** * The further properties on scripted runs *)

(** X1 on the defaults of the command line: the sizes 2, 4, ..., 24. *)
Lemma sweep_sizes_in_bounds_witness :
  let args := default_args in
  let sizes := [2; 4; 6; 8; 10; 12; 14; 16; 18; 20; 22; 24] in
  StronglySorted Z.lt sizes /\
  forall n, In n sizes <->
            min_qubits args <= n <= max_qubits args /\
            (n - min_qubits args) mod step args = 0.
Proof.
  intros args sizes.
  apply (sweep_sizes_in_bounds args (start all_fine) sizes).
  - reflexivity.
  - reflexivity.
Defined.

(** X2 on a run: the sizes from 4 up to 2. *)
Lemma inverted_bounds_measure_nothing_witness :
  let args := inverted_args in
  let s' := snd (run_benchmarks args (start all_fine)) in
  columns_of_length 0 (st_results s') /\
  (save_data args = true ->
   dict_get (st_files s') (path_join (output_dir args) "benchmark_results.csv")
   = Some (CsvFile (writerow (csv_headers (st_results s')) ++ "")%string)).
Proof.
  intros args.
  apply (inverted_bounds_measure_nothing args (start all_fine)).
  - left. split; reflexivity.
  - reflexivity.
Defined.

(** X3 on a run: the GPU backend is named before the CPU one. *)
Lemma setup_backends_all_succeed_witness :
  let bl := ["gpu_default"; "cpu"] in
  let s := start all_fine in
  fst (setup_backends double bl s) = Ret (registry_of double bl) /\
  exists evs,
    st_log (snd (setup_backends double bl s)) = st_log s ++ evs /\
    inits evs = map (fun nb => (snd nb, None)) (registry_of double bl).
Proof.
  intros bl s.
  apply (setup_backends_all_succeed double bl s).
  intros sim w. reflexivity.
Defined.

(** X5 on a run that returns: one backend, the sizes 2 and 4. *)
Lemma sweep_only_appends_witness :
  let args := small_args ["cpu"] false false false 1 in
  let backends := [("cpu", cpu)] in
  let s := one_column all_fine "cpu" in
  appended (st_results s) (st_results (snd (sweep args backends [2; 4] s))) /\
  (fst (sweep args backends [2; 4] s) <> Raise KeyboardInterrupt ->
   balanced (st_results (snd (sweep args backends [2; 4] s)))).
Proof.
  intros args backends s.
  apply (sweep_only_appends args backends [2; 4] s).
  - intros x [<-|[]]. simpl. left. reflexivity.
  - intros name c H. simpl in H.
    destruct (String.eqb name "cpu"); inversion H. reflexivity.
Defined.

(** X5 on an interrupted run: the first size is measured, and the
    interrupt comes while the second circuit is built. *)
Lemma interrupted_sweep_keeps_its_cells :
  let args := small_args ["cpu"] false false false 1 in
  let s := one_column interrupt_before_second_row "cpu" in
  let end_ := sweep args [("cpu", cpu)] [2; 4] s in
  fst end_ = Raise KeyboardInterrupt /\
  st_results (snd end_) = [("cpu", mkColumn [Ticks 2] [Ticks 0])].
Proof. cbv zeta. split; reflexivity. Qed.

(** X6 on a run in which the interrupt comes while the second circuit
    is built. *)
Lemma sweep_raises_witness :
  let args := small_args ["cpu"] false false false 1 in
  let backends := [("cpu", cpu)] in
  let s := one_column interrupt_before_second_row "cpu" in
  exists evs,
    st_log (snd (sweep args backends [2; 4] s)) = st_log s ++ evs /\
    forall e, fst (sweep args backends [2; 4] s) = Raise e ->
      is_Exception e = false \/
      exists n, In n [2; 4] /\
                In (EBuild n (depth args) (seed args) (Some e)) evs.
Proof.
  intros args backends s.
  apply (sweep_raises args backends [2; 4] s).
  intros x [<-|[]]. simpl. left. reflexivity.
Defined.

(** X7 on a run: two backends, two sizes, two repeats. *)
Lemma undisturbed_sweep_executions_witness :
  let args := small_args ["cpu"; "gpu_default"] false false false 2 in
  let backends := [("cpu", cpu); ("gpu_default", gpu_default)] in
  let s := after_one_failure in
  fst (sweep args backends [2; 4] s) = Ret tt /\
  exists evs,
    st_log (snd (sweep args backends [2; 4] s)) = st_log s ++ evs /\
    executions evs = planned_executions args backends [2; 4].
Proof.
  intros args backends s.
  apply (undisturbed_sweep_executions args backends [2; 4] s).
  - intros sim qc w. reflexivity.
  - intros n d sd w. reflexivity.
  - intros x [<-|[<-|[]]]; simpl; auto.
Defined.

(** X8 on a table: two backends and the sizes 2 and 4. *)
Lemma csv_of_rectangular_table_witness :
  let s := after_one_failure in
  let sizes := [2; 4] in
  let out := "./results" in
  save_benchmark_data sizes out s
  = (Ret tt,
     mkState (st_world s)
             (st_log s ++ [EPrint (MSavedData
                                     (path_join out "benchmark_results.csv"))])
             (st_results s)
             (dict_set (st_files s) (path_join out "benchmark_results.csv")
                       (CsvFile (csv_text (st_results s) sizes)))).
Proof.
  intros s sizes out.
  apply (csv_of_rectangular_table sizes out s).
  - simpl. constructor.
    + intros [H|[]]. discriminate H.
    + constructor; [intros []|constructor].
  - intros name c [H|[H|[]]]; inversion H; simpl; lia.
Defined.

(** X9 on the same table, with a third size that it has no cell for. *)
Lemma csv_of_short_column_witness :
  let s := after_one_failure in
  let sizes := [2; 4; 6] in
  let out := "./results" in
  fst (save_benchmark_data sizes out s) = Raise IndexError /\
  st_log (snd (save_benchmark_data sizes out s)) = st_log s /\
  exists text,
    dict_get (st_files (snd (save_benchmark_data sizes out s)))
             (path_join out "benchmark_results.csv")
    = Some (CsvFile text).
Proof.
  intros s sizes out.
  apply (csv_of_short_column sizes out s "cpu"
           (@mkColumn tick_float [Ticks 2; Ticks 4] [Ticks 0; Ticks 0])).
  - reflexivity.
  - left. simpl. lia.
Defined.

(** X11 on a run: the interrupt comes while the second circuit is
    built, and both exports were asked for. *)
Lemma interrupted_measurement_is_not_exported :
  let args := small_args ["all"] true true false 1 in
  let s := start interrupt_before_second_row in
  fst (measurement args s) = Raise KeyboardInterrupt /\
  fst (run_benchmarks args s) = Raise KeyboardInterrupt /\
  st_files (snd (run_benchmarks args s)) = [].
Proof. cbv zeta. repeat split; reflexivity. Qed.

(** X12 on a run: one backend, both exports. *)
Lemma completed_run_exports_witness :
  let args := small_args ["cpu"] true true false 1 in
  let s := start all_fine in
  let s' := snd (run_benchmarks args s) in
  let out := output_dir args in
  exists sizes,
    fst (py_range (min_qubits args) (max_qubits args + 1) (step args) s)
    = Ret sizes /\
    (save_data args = true ->
     dict_get (st_files s') (path_join out "benchmark_results.csv")
     = Some (CsvFile (csv_text (st_results s') sizes))) /\
    (no_plots args = false ->
     dict_get (st_files s') (path_join out "benchmark_comparison.png")
     = Some (FigureFile (figure_of sizes (st_results s'))) /\
     dict_get (st_files s') (path_join out "benchmark_comparison.pdf")
     = Some (FigureFile (figure_of sizes (st_results s')))) /\
    (save_data args = false -> no_plots args = true ->
     st_files s' = st_files s).
Proof.
  intros args s.
  apply (completed_run_exports args s).
  reflexivity.
Defined.

(** X14 on a row of [benchmarks.py]: the GPU simulators fail on the
    circuit of four qubits. *)
Lemma benchmarks_row_returns_witness :
  let sim_cpu := mkSim CPU None None in
  let sim_g1 := mkSim GPU None (Some false) in
  let sim_g2 := mkSim GPU None (Some true) in
  let s := before_first_row gpu_fails_at_4 in
  let s' := snd (Benchmarks.row sim_cpu sim_g1 sim_g2 4 s) in
  let qc := mkCircuit 4 Benchmarks.depth Benchmarks.seed in
  exists evs ta tb tc o1 o2,
    st_log s' = st_log s ++ evs /\
    runs evs = [(sim_cpu, qc, None); (sim_g1, qc, o1); (sim_g2, qc, o2)] /\
    st_results s' = three_lists ([] ++ [ta]) ([] ++ [tb]) ([] ++ [tc]) /\
    (o1 <> None -> tb = nan) /\
    (o2 <> None -> tc = nan).
Proof.
  intros sim_cpu sim_g1 sim_g2 s.
  apply (benchmarks_row_returns sim_cpu sim_g1 sim_g2 4 s [] [] []).
  - reflexivity.
  - reflexivity.
Defined.

(** X15 on a row of [benchmarks.py]: the CPU simulator fails on the
    circuit of four qubits. *)
Lemma benchmarks_row_raises_witness :
  let sim_cpu := mkSim CPU None None in
  let sim_g1 := mkSim GPU None (Some false) in
  let sim_g2 := mkSim GPU None (Some true) in
  let s := before_first_row cpu_fails_at_4 in
  let e := RuntimeError "cpu" in
  let s' := snd (Benchmarks.row sim_cpu sim_g1 sim_g2 4 s) in
  let qc := mkCircuit 4 Benchmarks.depth Benchmarks.seed in
  st_results s' = st_results s /\
  st_files s' = st_files s /\
  (st_log s' = st_log s ++ [EBuild 4 Benchmarks.depth Benchmarks.seed (Some e)]
   \/
   st_log s' = st_log s ++ [EBuild 4 Benchmarks.depth Benchmarks.seed None;
                            EPrint (MRunning 4); ERun sim_cpu qc (Some e)]).
Proof.
  intros sim_cpu sim_g1 sim_g2 s e.
  apply (benchmarks_row_raises sim_cpu sim_g1 sim_g2 4 s [] [] [] e).
  - reflexivity.
  - reflexivity.
  - reflexivity.
Defined.

(** X16 on a run of [benchmarks.py] in which the GPU simulators fail on
    the circuit of four qubits. *)
Lemma benchmarks_script_returns_witness :
  let s := start gpu_fails_at_4 in
  let s' := snd (Benchmarks.script s) in
  let sizes := [2; 4; 6; 8; 10; 12; 14; 16; 18; 20; 22; 24] in
  let sim_cpu := mkSim CPU None None in
  let sim_g1 := mkSim GPU None (Some false) in
  let sim_g2 := mkSim GPU None (Some true) in
  exists a b c evs,
    st_results s' = three_lists a b c /\
    List.length a = 12%nat /\
    List.length b = 12%nat /\
    List.length c = 12%nat /\
    st_files s'
    = dict_set (st_files s) "three_backend_comparison.png"
               (FigureFile (script_figure sizes a b c)) /\
    st_log s'
    = st_log s ++ [EInit sim_cpu None; EInit sim_g1 None; EInit sim_g2 None]
      ++ evs /\
    executions evs = script_executions sim_cpu sim_g1 sim_g2 sizes.
Proof.
  intros s.
  apply (benchmarks_script_returns s).
  reflexivity.
Defined.

(** X17 on a run of [benchmarks.py] in which the CPU simulator fails on
    the circuit of four qubits. *)
Lemma benchmarks_script_raises_witness :
  let s := start cpu_fails_at_4 in
  let e := RuntimeError "cpu" in
  let s' := snd (Benchmarks.script s) in
  let sim_cpu := mkSim CPU None None in
  st_files s' = st_files s /\
  (is_Exception e = true ->
   exists evs,
     st_log s' = st_log s ++ evs /\
     ((exists before sim,
         evs = map (fun x => EInit x None) before ++ [EInit sim (Some e)]) \/
      (exists n,
         In n [2; 4; 6; 8; 10; 12; 14; 16; 18; 20; 22; 24] /\
         (In (EBuild n Benchmarks.depth Benchmarks.seed (Some e)) evs \/
          In (ERun sim_cpu (mkCircuit n Benchmarks.depth Benchmarks.seed)
                   (Some e)) evs)))).
Proof.
  intros s e.
  apply (benchmarks_script_raises s e).
  reflexivity.
Defined.

(** X18 on a run of [base.py] without a usable GPU. *)
Lemma base_gpu_failure_is_NameError_witness :
  let s := start gpu_unavailable in
  let e := RuntimeError "no gpu" in
  let sim_cpu := mkSim CPU None None in
  let sim_gpu := mkSim GPU None None in
  let qc := mkCircuit 2 10 42 in
  let evs := [EBuild 2 10 42 None; EInit sim_cpu None; EInit sim_gpu None;
              ERun sim_cpu qc None;
              EPrint (MTime "CPU simulation time" (Ticks 2));
              ERun sim_gpu qc (Some e);
              EPrint (MGpuFailed "GPU simulation not available" e)] in
  fst (@Base.script tick_float (scripted gpu_unavailable)
                    Z qubits_of distance s)
  = Raise (Base.NameError "state_gpu") /\
  In (EPrint (MGpuFailed "GPU simulation not available" e)) evs.
Proof.
  intros s e sim_cpu sim_gpu qc evs.
  apply (@base_gpu_failure_is_NameError tick_float (scripted gpu_unavailable)
           Z qubits_of distance s evs e).
  - reflexivity.
  - simpl. do 5 right. left. reflexivity.
  - reflexivity.
Defined.

(** X19 on a run of [base.py] in which nothing fails. *)
Lemma base_script_returns_witness :
  let s := start all_fine in
  let qc := mkCircuit Base.n_qubits Base.depth Base.seed in
  let sim_cpu := mkSim CPU None None in
  let sim_gpu := mkSim GPU None None in
  let end_ := @Base.script tick_float (scripted all_fine)
                           Z qubits_of distance s in
  Ticks 0 = distance (qubits_of sim_cpu qc) (qubits_of sim_gpu qc) /\
  st_files (snd end_) = st_files s /\
  exists evs,
    st_log (snd end_) = st_log s ++ evs /\
    runs evs = [(sim_cpu, qc, None); (sim_gpu, qc, None)].
Proof.
  intros s.
  apply (@base_script_returns tick_float (scripted all_fine)
           Z qubits_of distance s (Ticks 0)).
  reflexivity.
Defined.
